(** * leboncoin_to_csv_scraping: the listing pipeline of [leboncoin_scraper.py]

    A shallow embedding of [LeboncoinBureauScraper]: the attribute
    extractors, [_process_ad], the pagination loop of
    [search_bureaux_commerces], [save_to_csv] and [get_statistics],
    followed by the properties of the pipeline.

    Conventions.
    - A Python [str] is the list of its code points.  Field names of the
      records the program builds are program literals and are kept as
      Rocq strings.
    - Python dicts are finite maps; the order of their keys is not
      modelled.
    - What the interpreter and the libraries decide (which code points
      are decimal digits, the limit on [int(str)], the clock, the
      marketplace client) is a parameter of the model.
    - Logging is left out: it has no bearing on the values computed. *)

From Stdlib Require Import ZArith NArith QArith Ascii String DecimalString.
From stdpp Require Import base option list gmap sets strings.

#[global] Set Warnings "-clear-no-such-hyp".

Local Open Scope Z_scope.

(** ** Strings *)

Definition pystr : Type := list N.

(** The [str] spelled by an ASCII literal of the program. *)
Definition py (s : string) : pystr :=
  List.map N_of_ascii (list_ascii_of_string s).

(** [s.startswith(prefix)] *)
Fixpoint startswith (prefix s : pystr) : bool :=
  match prefix, s with
  | [], _ => true
  | _ :: _, [] => false
  | a :: prefix', b :: s' => if N.eqb a b then startswith prefix' s' else false
  end.

(** ** The interpreter *)

(** [decimal_digit c] is the digit value of [c] when [c] is a decimal
    digit (Unicode category Nd), which is what [\d] matches on a [str]
    and what [int] accepts.  [int_max_str_digits] is
    [sys.get_int_max_str_digits()]: [int] refuses longer digit strings
    with a [ValueError], and [0] switches the limit off. *)
Class Interpreter := {
  decimal_digit : N → option N;
  int_max_str_digits : nat
}.

(** The table restricted to the ASCII digits, with no limit on [int] and
    with CPython's default limit. *)
Definition ascii_digit (c : N) : option N :=
  if (48 <=? c)%N && (c <=? 57)%N then Some (c - 48)%N else None.

Definition ascii_unlimited : Interpreter :=
  {| decimal_digit := ascii_digit; int_max_str_digits := 0 |}.

Definition ascii_default : Interpreter :=
  {| decimal_digit := ascii_digit; int_max_str_digits := 4300 |}.

(** ** Exceptions *)

Inductive exn :=
  | ValueError (msg : pystr)
  | TypeError (msg : pystr)
  | ClientError (msg : pystr)   (* raised by the marketplace client *)
  | OSError (msg : pystr).

(** [str(e)] *)
Definition exn_str (e : exn) : pystr :=
  match e with
  | ValueError m | TypeError m | ClientError m | OSError m => m
  end.

(** ** Attribute collections *)

(** One entry of the [attributes] dict built by [_process_ad]:
    [{'value': ..., 'label': ...}]. *)
Record entry := { e_value : pystr; e_label : pystr }.

Section Extractors.
Context `{Interpreter}.

Definition is_digit (c : N) : bool :=
  match decimal_digit c with Some _ => true | None => false end.

Fixpoint skip_non_digits (s : pystr) : pystr :=
  match s with
  | [] => []
  | c :: s' => if is_digit c then s else skip_non_digits s'
  end.

Fixpoint leading_digits (s : pystr) : pystr :=
  match s with
  | [] => []
  | c :: s' => if is_digit c then c :: leading_digits s' else []
  end.

(** [re.search(r'\d+', s)]: the leftmost, longest run of decimal
    digits, [None] when [s] holds no digit. *)
Definition re_search_digits (s : pystr) : option pystr :=
  match skip_non_digits s with
  | [] => None
  | rest => Some (leading_digits rest)
  end.

Definition digit_run_value (run : pystr) : Z :=
  foldl (λ acc c, 10 * acc + Z.of_N (default 0%N (decimal_digit c))) 0 run.

(** [int(run)] for a run of decimal digits; [None] stands for the
    [ValueError] of the digit limit. *)
Definition py_int (run : pystr) : option Z :=
  if negb (Nat.eqb int_max_str_digits 0)
     && (int_max_str_digits <? length run)%nat
  then None
  else Some (digit_run_value run).

(** The body of the [try] in [_extract_surface]: [Some (Some n)] is
    [return n], [Some None] falls out of the [if match:], [None] is
    an exception, which the bare [except] turns into [continue]. *)
Definition surface_try (e : entry) : option (option Z) :=
  match re_search_digits (e_value e) with
  | Some run =>
      match py_int run with
      | Some n => Some (Some n)
      | None => None
      end
  | None => Some None
  end.

Fixpoint surface_scan (keys : list pystr) (attributes : gmap pystr entry)
  : option Z :=
  match keys with
  | [] => None
  | key :: keys' =>
      match attributes !! key with
      | Some e =>
          match surface_try e with
          | Some (Some n) => Some n
          | Some None => surface_scan keys' attributes
          | None => surface_scan keys' attributes
          end
      | None => surface_scan keys' attributes
      end
  end.

Definition surface_keys : list pystr := [py "square"; py "surface"; py "area"].

Definition _extract_surface (attributes : gmap pystr entry) : option Z :=
  surface_scan surface_keys attributes.
End Extractors.

(** The loop shared by the four label extractors:
    [for key in keys: if key in attributes: return attributes[key]['label']],
    then [return '']. *)
Fixpoint label_scan (keys : list pystr) (attributes : gmap pystr entry) : pystr :=
  match keys with
  | [] => []
  | key :: keys' =>
      match attributes !! key with
      | Some e => e_label e
      | None => label_scan keys' attributes
      end
  end.

Definition type_keys : list pystr :=
  [py "real_estate_type"; py "property_type"; py "type"].
Definition energy_keys : list pystr :=
  [py "energy_rate"; py "dpe"; py "energy_class"].
Definition ges_keys : list pystr :=
  [py "ges"; py "greenhouse_gas"; py "co2"].
Definition furnished_keys : list pystr :=
  [py "furnished"; py "meuble"; py "furnished_type"].

Definition _extract_real_estate_type (attributes : gmap pystr entry) : pystr :=
  label_scan type_keys attributes.
Definition _extract_energy_class (attributes : gmap pystr entry) : pystr :=
  label_scan energy_keys attributes.
Definition _extract_ges (attributes : gmap pystr entry) : pystr :=
  label_scan ges_keys attributes.
Definition _extract_furnished_status (attributes : gmap pystr entry) : pystr :=
  label_scan furnished_keys attributes.

(** ** Python values and raw listings *)

(** The scalars the program copies into a record.  A float is
    represented by the rational it denotes; [VJson a] is the text
    [json.dumps(a, ensure_ascii=False)] of an attribute dict. *)
Inductive pyval :=
  | VNone
  | VBool (b : bool)
  | VInt (z : Z)
  | VFloat (q : Q)
  | VStr (s : pystr)
  | VJson (a : gmap pystr entry).

(** One attribute triple of a listing; each part may be [None]. *)
Record Attribute := {
  attr_key : option pystr;
  attr_value : option pystr;
  attr_value_label : option pystr
}.

Record Location := {
  loc_city : pyval;
  loc_zipcode : pyval;
  loc_department_name : pyval;
  loc_region_name : pyval;
  loc_lat : pyval;
  loc_lng : pyval
}.

(** The pro profile of a user; [None] is an attribute the object does
    not have ([hasattr] is false). *)
Record Pro := {
  online_store_name : option pyval;
  siret : option pyval;
  siren : option pyval;
  activity_sector : option pyval;
  website_url : option pyval
}.

(** [user_is_pro = None] when the object has no [is_pro];
    [user_pro = None] when it has no [pro] or [pro] is [None]. *)
Record User := {
  user_name : pyval;
  user_is_pro : option bool;
  user_pro : option Pro
}.

(** The listing object handed over by the client library.  Reading
    [ad.user] may raise (the library fetches the user on first access);
    the other parts are plain fields.  [ad_favorites = None] when the
    object has no [favorites]. *)
Record Ad := {
  ad_id : pyval;
  ad_subject : pyval;
  ad_body : option pystr;
  ad_price : pyval;
  ad_url : pyval;
  ad_first_publication_date : pyval;
  ad_expiration_date : pyval;
  ad_category_name : pyval;
  ad_status : pyval;
  ad_favorites : option pyval;
  ad_location : option Location;
  ad_user : exn + option User;
  ad_has_phone : pyval;
  ad_images : option (list pystr);
  ad_attributes : list Attribute
}.

(** ** The normalizer: [_process_ad] *)

(** Truthiness of an optional [str]: neither [None] nor empty. *)
Definition truthy_str (o : option pystr) : bool :=
  match o with
  | Some (_ :: _) => true
  | _ => false
  end.

(** The loop that fills [attributes] (lines 158-164). *)
Definition collect_attributes (attrs : list Attribute) : gmap pystr entry :=
  foldl
    (λ attributes attr,
       match attr_key attr, attr_value attr with
       | Some k, Some v =>
           if truthy_str (Some k) && truthy_str (Some v) then
             <[k := {| e_value := v;
                       e_label := if truthy_str (attr_value_label attr)
                                  then default v (attr_value_label attr)
                                  else v |}]> attributes
           else attributes
       | _, _ => attributes
       end)
    ∅ attrs.

Definition empty_str : pyval := VStr [].

(** [ad.body[:500] if ad.body else ''] *)
Definition description_of (body : option pystr) : pystr :=
  match body with
  | Some (c :: s) => take 500 (c :: s)
  | _ => []
  end.

(** ['pro' if ad.user and getattr(ad.user, 'is_pro', False) else 'particulier'] *)
Definition seller_type_of (user : option User) : pystr :=
  match user with
  | Some u => if default false (user_is_pro u) then py "pro" else py "particulier"
  | None => py "particulier"
  end.

Definition surface_value (s : option Z) : pyval :=
  match s with Some n => VInt n | None => VNone end.

(** The dict literal of lines 166-207. *)
Definition base_record `{Interpreter}
    (scraped_at : pystr) (ad : Ad) (user : option User)
    (attributes : gmap pystr entry) : gmap string pyval :=
  list_to_map [
    ("id", ad_id ad);
    ("title", ad_subject ad);
    ("description", VStr (description_of (ad_body ad)));
    ("price", ad_price ad);
    ("url", ad_url ad);
    ("publication_date", ad_first_publication_date ad);
    ("expiration_date", ad_expiration_date ad);
    ("category", ad_category_name ad);
    ("status", ad_status ad);
    ("favorites", default (VInt 0) (ad_favorites ad));
    ("city", from_option loc_city empty_str (ad_location ad));
    ("zipcode", from_option loc_zipcode empty_str (ad_location ad));
    ("department", from_option loc_department_name empty_str (ad_location ad));
    ("region", from_option loc_region_name empty_str (ad_location ad));
    ("latitude", from_option loc_lat VNone (ad_location ad));
    ("longitude", from_option loc_lng VNone (ad_location ad));
    ("seller_type", VStr (seller_type_of user));
    ("seller_name", from_option user_name empty_str user);
    ("has_phone", ad_has_phone ad);
    ("images_count",
       match ad_images ad with
       | Some (i :: l) => VInt (Z.of_nat (length (i :: l)))
       | _ => VInt 0
       end);
    ("first_image_url",
       match ad_images ad with
       | Some (i :: _) => VStr i
       | _ => empty_str
       end);
    ("surface", surface_value (_extract_surface attributes));
    ("real_estate_type", VStr (_extract_real_estate_type attributes));
    ("energy_class", VStr (_extract_energy_class attributes));
    ("ges", VStr (_extract_ges attributes));
    ("furnished", VStr (_extract_furnished_status attributes));
    ("raw_attributes", VJson attributes);
    ("scraped_at", VStr scraped_at)
  ]%string.

(** The dict passed to [ad_data.update] (lines 211-217). *)
Definition pro_record (pro : Pro) : gmap string pyval :=
  list_to_map [
    ("pro_store_name", default empty_str (online_store_name pro));
    ("pro_siret", default empty_str (siret pro));
    ("pro_siren", default empty_str (siren pro));
    ("pro_activity_sector", default empty_str (activity_sector pro));
    ("pro_website", default empty_str (website_url pro))
  ]%string.

(** [ad.user and hasattr(ad.user, 'pro') and ad.user.pro] *)
Definition pro_profile (user : option User) : option Pro :=
  match user with
  | Some u => user_pro u
  | None => None
  end.

(** The body of the [try] of [_process_ad]; [scraped_at] is
    [datetime.now().isoformat()] as read for this listing. *)
Definition process_ad_try `{Interpreter}
    (scraped_at : pystr) (ad : Ad) : exn + gmap string pyval :=
  let attributes := collect_attributes (ad_attributes ad) in
  match ad_user ad with
  | inl e => inl e
  | inr user =>
      let ad_data := base_record scraped_at ad user attributes in
      match pro_profile user with
      | Some pro => inr (pro_record pro ∪ ad_data)
      | None => inr ad_data
      end
  end.

(** [{'id': ad.id, 'error': str(e)}] *)
Definition error_record (ad : Ad) (e : exn) : gmap string pyval :=
  list_to_map [("id", ad_id ad); ("error", VStr (exn_str e))]%string.

Definition _process_ad `{Interpreter}
    (scraped_at : pystr) (ad : Ad) : gmap string pyval :=
  match process_ad_try scraped_at ad with
  | inr ad_data => ad_data
  | inl e => error_record ad e
  end.

(** ** The pagination collector: [search_bureaux_commerces] *)

(** The arguments of a search other than the page limit.  The extra
    keyword filters ([**kwargs]) are left out: no caller in the
    repository passes any. *)
Record Criteria := {
  text : pyval;
  locations : pyval;
  price_range : option (list Z);
  surface_range : option (list Z);
  sort : pyval;
  owner_type : pyval;
  ads_per_page : Z;
  search_in_title_only : bool
}.

(** The keyword arguments of one [client.search] call; [category] and
    [ad_type] are constants and are not repeated.  [sp_price] and
    [sp_square] are [None] when the key is not passed. *)
Record SearchParams := {
  sp_text : pyval;
  sp_locations : pyval;
  sp_page : Z;
  sp_limit : Z;
  sp_sort : pyval;
  sp_owner_type : pyval;
  sp_search_in_title_only : bool;
  sp_price : option (list Z);
  sp_square : option (list Z)
}.

(** What a search call hands back: the listings of the page and the
    last page as the library computes it. *)
Record SearchResult := {
  ads : list Ad;
  max_pages : Z
}.

(** What the run does to the outside, in order. *)
Inductive event :=
  | Search (params : SearchParams)
  | Sleep (seconds : Q).

Inductive outcome :=
  | Returned (all_ads : list (gmap string pyval))
  | Raised (e : exn)
  | OutOfFuel.

Record Scraper := {
  delay : Q;
  scraped_data : list (gmap string pyval)
}.

(** Truthiness of an optional list: neither [None] nor empty. *)
Definition truthy_list {A} (o : option (list A)) : bool :=
  match o with
  | Some (_ :: _) => true
  | _ => false
  end.

Definition search_params (c : Criteria) (page : Z) : SearchParams :=
  {| sp_text := text c;
     sp_locations := locations c;
     sp_page := page;
     sp_limit := ads_per_page c;
     sp_sort := sort c;
     sp_owner_type := owner_type c;
     sp_search_in_title_only := search_in_title_only c;
     sp_price := if truthy_list (price_range c) then price_range c else None;
     sp_square := if truthy_list (surface_range c) then surface_range c else None |}.

Section Collector.
Context `{Interpreter}.

(** The marketplace client answers a search or raises; [clock k] is
    the timestamp read while the [k]-th listing of the run (from 0) is
    normalized. *)
Variable client : SearchParams → exn + SearchResult.
Variable clock : nat → pystr.

(** [for ad in result.ads: all_ads.append(self._process_ad(ad))] *)
Definition process_page (all_ads : list (gmap string pyval)) (page_ads : list Ad)
  : list (gmap string pyval) :=
  foldl (λ acc ad, acc ++ [_process_ad (clock (length acc)) ad]) all_ads page_ads.

(** The [while page <= max_pages] loop; [fuel] bounds the number of
    iterations. *)
Fixpoint scrape_pages (self : Scraper) (c : Criteria) (limit : Z)
    (fuel : nat) (page : Z) (all_ads : list (gmap string pyval))
    (trace : list event) : outcome * list event :=
  if page <=? limit then
    match fuel with
    | O => (OutOfFuel, trace)
    | S fuel' =>
        let trace := trace ++ [Search (search_params c page)] in
        match client (search_params c page) with
        | inl e => (Raised e, trace)
        | inr result =>
            match ads result with
            | [] => (Returned all_ads, trace)
            | _ :: _ =>
                let all_ads := process_page all_ads (ads result) in
                if max_pages result <=? page then (Returned all_ads, trace)
                else
                  let trace :=
                    if Qlt_le_dec 0 (delay self)
                    then trace ++ [Sleep (delay self)] else trace in
                  scrape_pages self c limit fuel' (page + 1) all_ads trace
            end
        end
    end
  else (Returned all_ads, trace).

(** One call of the method: the outcome, the scraper afterwards and
    the events of the run.  [self.scraped_data] is assigned after the
    [try], so only on a normal return. *)
Definition search_bureaux_commerces (self : Scraper) (c : Criteria) (limit : Z)
  : outcome * Scraper * list event :=
  let '(r, trace) := scrape_pages self c limit (Z.to_nat limit) 1 [] [] in
  match r with
  | Returned all_ads =>
      (r, {| delay := delay self; scraped_data := all_ads |}, trace)
  | _ => (r, self, trace)
  end.

(** The page indices of the search calls of a trace, in order. *)
Definition requested_pages (trace : list event) : list Z :=
  omap (λ ev, match ev with
              | Search p => Some (sp_page p)
              | Sleep _ => None
              end) trace.
End Collector.

(** ** The export: [save_to_csv] *)

(** A file holds either some text or the UTF-8 CSV rendering of the
    data frame built from a list of rows ([df.to_csv(..., index=False)]). *)
Inductive content :=
  | Text (s : pystr)
  | CsvTable (rows : list (gmap string pyval)).

Inductive node :=
  | Dir
  | File (c : content).

(** The file system maps a path, as written, to what it names;
    the working directory is the empty path. *)
Definition slash : N := 47%N.

(** [os.path.join(a, b)] on POSIX *)
Definition path_join (a b : pystr) : pystr :=
  match b with
  | c :: _ => if N.eqb c slash then b else a ++ [slash] ++ b
  | [] => a ++ [slash]
  end.

Fixpoint strip_trailing_slashes_rev (r : pystr) : pystr :=
  match r with
  | c :: r' => if N.eqb c slash then strip_trailing_slashes_rev r' else r
  | [] => []
  end.

Fixpoint drop_last_component_rev (r : pystr) : pystr :=
  match r with
  | c :: r' => if N.eqb c slash then r else drop_last_component_rev r'
  | [] => []
  end.

(** [os.path.dirname(p)] on POSIX *)
Definition dirname (p : pystr) : pystr :=
  let head := drop_last_component_rev (reverse p) in
  match strip_trailing_slashes_rev head with
  | [] => reverse head
  | stripped => reverse stripped
  end.

Definition path_exists (fs : gmap pystr node) (p : pystr) : bool :=
  match p with
  | [] => false
  | _ => bool_decide (is_Some (fs !! p))
  end.

Definition is_dir (fs : gmap pystr node) (p : pystr) : bool :=
  match p, fs !! p with
  | [], _ => true
  | _, Some Dir => true
  | _, _ => false
  end.

(** Opening [p] for writing and writing [c]: an existing file is
    replaced, a new one needs its directory. *)
Definition write_file (fs : gmap pystr node) (p : pystr) (c : content)
  : exn + gmap pystr node :=
  match fs !! p with
  | Some (File _) => inr (<[p := File c]> fs)
  | Some Dir => inl (OSError (py "Is a directory"))
  | None =>
      if is_dir fs (dirname p) && negb (bool_decide (p = []))
      then inr (<[p := File c]> fs)
      else inl (OSError (py "No such file or directory"))
  end.

Definition data_dir : pystr := py "data".

Definition nothing_to_save : pystr :=
  py "Aucune donn" ++ [233%N] ++ py "e " ++ [224%N] ++ py " sauvegarder. Ex"
    ++ [233%N] ++ py "cutez d'abord une recherche.".

(** [f"leboncoin_bureaux_commerces_{city_part}_{timestamp}.csv"] *)
Definition default_filename (city : option pystr) (timestamp : pystr) : pystr :=
  py "leboncoin_bureaux_commerces_"
    ++ (if truthy_str city then default [] city else py "all")
    ++ py "_" ++ timestamp ++ py ".csv".

Definition csv_row (include_raw_attributes : bool) (ad : gmap string pyval)
  : gmap string pyval :=
  if include_raw_attributes then ad else delete "raw_attributes"%string ad.

(** The loop of lines 298-308. *)
Fixpoint csv_rows (include_raw_attributes : bool)
    (data : list (gmap string pyval)) : list (gmap string pyval) :=
  match data with
  | [] => []
  | ad :: data' =>
      match ad !! "error"%string with
      | Some _ => csv_rows include_raw_attributes data'
      | None =>
          csv_row include_raw_attributes ad
            :: csv_rows include_raw_attributes data'
      end
  end.

(** The file the export writes to. *)
Definition target_path (filename city : option pystr) (timestamp : pystr) : pystr :=
  let filename :=
    if truthy_str filename then default [] filename
    else default_filename city timestamp in
  if startswith data_dir filename then filename
  else path_join data_dir filename.

(** [timestamp] is [datetime.now().strftime("%Y%m%d_%H%M%S")]; the
    result is the exception raised or the file name returned, with the
    file system afterwards. *)
Definition save_to_csv (self : Scraper) (fs : gmap pystr node)
    (filename city : option pystr) (include_raw_attributes : bool)
    (timestamp : pystr) : (exn + pystr) * gmap pystr node :=
  match scraped_data self with
  | [] => (inl (ValueError nothing_to_save), fs)
  | _ :: _ =>
      let fs :=
        if path_exists fs data_dir then fs else <[data_dir := Dir]> fs in
      let filename := target_path filename city timestamp in
      let csv_data := csv_rows include_raw_attributes (scraped_data self) in
      match write_file fs filename (CsvTable csv_data) with
      | inr fs' => (inr filename, fs')
      | inl e => (inl e, fs)
      end
  end.

(** ** The statistics: [get_statistics] *)

(** What [pd.DataFrame(records)] is used for: a column exists when some
    record has the key; a cell is null when the record lacks the key or
    holds [None]; the reductions skip null cells and give NaN when no
    cell is left. *)

#[global] Instance entry_eq_dec : EqDecision entry.
Proof. solve_decision. Defined.
#[global] Instance Q_eq_dec : EqDecision Q.
Proof. solve_decision. Defined.
#[global] Instance pyval_eq_dec : EqDecision pyval.
Proof. solve_decision. Defined.

Definition has_column (col : string) (rows : list (gmap string pyval)) : bool :=
  existsb (λ r, match r !! col with Some _ => true | None => false end) rows.

Definition notna (cell : option pyval) : option pyval :=
  match cell with
  | Some VNone | None => None
  | Some v => Some v
  end.

(** The non-null cells of a column, in row order. *)
Definition column_values (col : string) (rows : list (gmap string pyval))
  : list pyval :=
  omap (λ r, notna (r !! col)) rows.

Definition number_of (v : pyval) : option Q :=
  match v with
  | VInt z => Some (inject_Z z)
  | VFloat q => Some q
  | VBool b => Some (if b then 1%Q else 0%Q)
  | _ => None
  end.

Inductive stat :=
  | SNum (q : Q)
  | SNaN.

Definition Qsum (xs : list Q) : Q := foldr Qplus 0%Q xs.

Fixpoint Qinsert (x : Q) (xs : list Q) : list Q :=
  match xs with
  | [] => [x]
  | y :: ys => if Qle_bool x y then x :: xs else y :: Qinsert x ys
  end.

Definition Qsort (xs : list Q) : list Q := foldr Qinsert [] xs.

Definition Qmean (xs : list Q) : Q :=
  Qred (Qsum xs / inject_Z (Z.of_nat (length xs))).

Definition Qmedian (xs : list Q) : Q :=
  let s := Qsort xs in
  let n := length s in
  if Nat.even n
  then Qred ((nth (n / 2 - 1) s 0%Q + nth (n / 2) s 0%Q) / 2)
  else nth (n / 2) s 0%Q.

Definition Qsmallest (xs : list Q) : Q :=
  match xs with
  | [] => 0%Q
  | x :: xs' => foldl (λ m y, if Qle_bool y m then y else m) x xs'
  end.

Definition Qlargest (xs : list Q) : Q :=
  match xs with
  | [] => 0%Q
  | x :: xs' => foldl (λ m y, if Qle_bool m y then y else m) x xs'
  end.

(** A reduction of a numeric column over its non-null cells. *)
Definition reduce (f : list Q → Q) (xs : list Q) : stat :=
  match xs with
  | [] => SNaN
  | _ :: _ => SNum (f xs)
  end.

(** [series.value_counts().to_dict()]: the distinct non-null values with
    their number of occurrences, as an association list with distinct
    keys (the order of the dict is not modelled). *)
Fixpoint count_value (v : pyval) (counts : list (pyval * nat)) : list (pyval * nat) :=
  match counts with
  | [] => [(v, 1%nat)]
  | (w, n) :: counts' =>
      if decide (v = w) then (w, S n) :: counts'
      else (w, n) :: count_value v counts'
  end.

Definition value_counts (values : list pyval) : list (pyval * nat) :=
  foldl (λ counts v, count_value v counts) [] values.

Record PriceStats := {
  ps_mean : stat;
  ps_median : stat;
  ps_min : stat;
  ps_max : stat
}.

(** The dict returned by [get_statistics], without ['top_cities']
    (which ten cities it keeps among equal counts is up to pandas). *)
Record Statistics := {
  total_ads : nat;
  unique_cities : nat;
  price_stats : PriceStats;
  seller_types : list (pyval * nat)
}.

Definition zero_price_stats : PriceStats :=
  {| ps_mean := SNum 0; ps_median := SNum 0; ps_min := SNum 0; ps_max := SNum 0 |}.

(** [inr None] is the empty dict returned when nothing was scraped;
    [inl] is the [TypeError] of a reduction over cells that are not
    numbers. *)
Definition get_statistics (self : Scraper) : exn + option Statistics :=
  match scraped_data self with
  | [] => inr None
  | _ :: _ =>
      let df := scraped_data self in
      let prices :=
        if has_column "price" df
        then match mapM number_of (column_values "price" df) with
             | Some xs =>
                 inr {| ps_mean := reduce Qmean xs;
                        ps_median := reduce Qmedian xs;
                        ps_min := reduce Qsmallest xs;
                        ps_max := reduce Qlargest xs |}
             | None => inl (TypeError (py "Could not convert to numeric"))
             end
        else inr zero_price_stats in
      match prices with
      | inl e => inl e
      | inr ps =>
          inr (Some
            {| total_ads := length df;
               unique_cities :=
                 if has_column "city" df
                 then length (value_counts (column_values "city" df))
                 else 0%nat;
               price_stats := ps;
               seller_types :=
                 if has_column "seller_type" df
                 then value_counts (column_values "seller_type" df)
                 else [] |})
      end
  end.


(** ** Reference readings used by the properties *)

(** The claim's reading of the surface extractor: the first candidate
    key present in the collection decides alone, and a value without
    digits makes the field absent. *)
Definition surface_of_first_present `{Interpreter}
    (attributes : gmap pystr entry) : option Z :=
  match list_find (λ k, is_Some (attributes !! k)) surface_keys with
  | Some (_, k) =>
      e ← attributes !! k;
      run ← re_search_digits (e_value e);
      Some (digit_run_value run)
  | None => None
  end.

(** What a candidate key contributes to the surface: the integer read
    from its value, when the key is present and [int] accepts the first
    run of digits of the value. *)
Definition surface_at `{Interpreter}
    (attributes : gmap pystr entry) (k : pystr) : option Z :=
  e ← attributes !! k; run ← re_search_digits (e_value e); py_int run.

Definition label_at (attributes : gmap pystr entry) (k : pystr) : pystr :=
  from_option e_label [] (attributes !! k).

(** The four label extractors with their key lists. *)
Definition label_extractors : list ((gmap pystr entry → pystr) * list pystr) :=
  [ (_extract_real_estate_type, type_keys);
    (_extract_energy_class, energy_keys);
    (_extract_ges, ges_keys);
    (_extract_furnished_status, furnished_keys) ].


(** [k] is the first key of [keys] present in the collection, holding
    the entry [e]. *)
Definition first_present (keys : list pystr) (attributes : gmap pystr entry)
    (k : pystr) (e : entry) : Prop :=
  ∃ i, keys !! i = Some k ∧ attributes !! k = Some e
       ∧ ∀ j k', (j < i)%nat → keys !! j = Some k' → attributes !! k' = None.

(** [k] is the first key of [keys] that contributes a surface, [n]. *)
Definition first_usable `{Interpreter} (keys : list pystr)
    (attributes : gmap pystr entry) (k : pystr) (n : Z) : Prop :=
  ∃ i, keys !! i = Some k ∧ surface_at attributes k = Some n
       ∧ ∀ j k', (j < i)%nat → keys !! j = Some k' →
                 surface_at attributes k' = None.

(** [run] is the first run of decimal digits of [s]. *)
Definition first_digit_run `{Interpreter} (s run : pystr) : Prop :=
  ∃ pre post, s = pre ++ run ++ post
    ∧ Forall (λ c, is_digit c = false) pre
    ∧ run ≠ [] ∧ Forall (λ c, is_digit c = true) run
    ∧ match post with [] => True | c :: _ => is_digit c = false end.

(** The value ["85 m²"]. *)
Definition eighty_five_m2 : pystr := py "85 m" ++ [178%N].

(** A collection whose [square] holds no digit while [area] does. *)
Definition square_without_digits : gmap pystr entry :=
  {[ py "square" := {| e_value := py "n/a"; e_label := py "n/a" |};
     py "area" := {| e_value := py "85"; e_label := py "85 m2" |} ]}.

(** A collection where two keys of every priority list are present. *)
Definition two_candidates : gmap pystr entry :=
  {[ py "surface" := {| e_value := eighty_five_m2; e_label := eighty_five_m2 |};
     py "area" := {| e_value := py "120"; e_label := py "120 m2" |};
     py "greenhouse_gas" := {| e_value := py "a"; e_label := py "A" |};
     py "co2" := {| e_value := py "b"; e_label := py "B" |} ]}.

(** The keys of the dict literal of [_process_ad], and the keys added
    for a pro profile. *)
Definition base_fields : list string :=
  [ "id"; "title"; "description"; "price"; "url"; "publication_date";
    "expiration_date"; "category"; "status"; "favorites"; "city"; "zipcode";
    "department"; "region"; "latitude"; "longitude"; "seller_type";
    "seller_name"; "has_phone"; "images_count"; "first_image_url"; "surface";
    "real_estate_type"; "energy_class"; "ges"; "furnished"; "raw_attributes";
    "scraped_at" ]%string.

Definition pro_fields : list string :=
  [ "pro_store_name"; "pro_siret"; "pro_siren"; "pro_activity_sector";
    "pro_website" ]%string.

Definition base_schema : gset string := list_to_set base_fields.
Definition pro_schema : gset string := list_to_set pro_fields.

(** The pro profile of the user of a listing, when reading the user
    succeeds and finds one. *)
Definition listing_pro (ad : Ad) : option Pro :=
  match ad_user ad with
  | inr user => pro_profile user
  | inl _ => None
  end.

(** A listing of a private seller and a listing of a pro seller. *)
Definition private_listing : Ad :=
  {| ad_id := VInt 1;
     ad_subject := VStr (py "Bureau centre ville");
     ad_body := Some (py "Bureau lumineux");
     ad_price := VFloat 1200;
     ad_url := VStr (py "https://www.leboncoin.fr/ad/1");
     ad_first_publication_date := VStr (py "2025-01-01 10:00:00");
     ad_expiration_date := VNone;
     ad_category_name := VStr (py "Bureaux & Commerces");
     ad_status := VStr (py "active");
     ad_favorites := None;
     ad_location := None;
     ad_user := inr (Some {| user_name := VStr (py "Alice");
                             user_is_pro := Some false;
                             user_pro := None |});
     ad_has_phone := VBool false;
     ad_images := None;
     ad_attributes :=
       [ {| attr_key := Some (py "square");
            attr_value := Some eighty_five_m2;
            attr_value_label := None |} ] |}.

Definition pro_listing : Ad :=
  {| ad_id := VInt 2;
     ad_subject := VStr (py "Local commercial");
     ad_body := None;
     ad_price := VNone;
     ad_url := VStr (py "https://www.leboncoin.fr/ad/2");
     ad_first_publication_date := VStr (py "2025-01-02 09:00:00");
     ad_expiration_date := VNone;
     ad_category_name := VStr (py "Bureaux & Commerces");
     ad_status := VStr (py "active");
     ad_favorites := Some (VInt 3);
     ad_location :=
       Some {| loc_city := VStr (py "Lyon"); loc_zipcode := VStr (py "69001");
               loc_department_name := VStr (py "Rhone");
               loc_region_name := VStr (py "Auvergne-Rhone-Alpes");
               loc_lat := VFloat (4576 # 100); loc_lng := VFloat (483 # 100) |};
     ad_user := inr (Some {| user_name := VStr (py "Agence");
                             user_is_pro := Some true;
                             user_pro :=
                               Some {| online_store_name := Some (VStr (py "Agence du Rhone"));
                                       siret := Some (VStr (py "12345678900011"));
                                       siren := Some (VStr (py "123456789"));
                                       activity_sector := None;
                                       website_url := Some VNone |} |});
     ad_has_phone := VBool true;
     ad_images := Some [py "https://img/2a.jpg"; py "https://img/2b.jpg"];
     ad_attributes := [] |}.

(** A listing whose user cannot be read. *)
Definition broken_listing : Ad :=
  {| ad_id := VInt 3;
     ad_subject := VStr (py "Entrepot");
     ad_body := Some (py "Grand entrepot");
     ad_price := VFloat 90000;
     ad_url := VStr (py "https://www.leboncoin.fr/ad/3");
     ad_first_publication_date := VNone;
     ad_expiration_date := VNone;
     ad_category_name := VStr (py "Bureaux & Commerces");
     ad_status := VStr (py "active");
     ad_favorites := None;
     ad_location := None;
     ad_user := inl (ClientError (py "Datadome"));
     ad_has_phone := VBool false;
     ad_images := Some [];
     ad_attributes := [] |}.

Definition noon : pystr := py "2025-01-03T12:00:00".

(** A listing with one source replaced. *)
Definition with_location (ad : Ad) (l : option Location) : Ad :=
  {| ad_id := ad_id ad; ad_subject := ad_subject ad; ad_body := ad_body ad;
     ad_price := ad_price ad; ad_url := ad_url ad;
     ad_first_publication_date := ad_first_publication_date ad;
     ad_expiration_date := ad_expiration_date ad;
     ad_category_name := ad_category_name ad; ad_status := ad_status ad;
     ad_favorites := ad_favorites ad; ad_location := l;
     ad_user := ad_user ad; ad_has_phone := ad_has_phone ad;
     ad_images := ad_images ad; ad_attributes := ad_attributes ad |}.

Definition with_body (ad : Ad) (b : option pystr) : Ad :=
  {| ad_id := ad_id ad; ad_subject := ad_subject ad; ad_body := b;
     ad_price := ad_price ad; ad_url := ad_url ad;
     ad_first_publication_date := ad_first_publication_date ad;
     ad_expiration_date := ad_expiration_date ad;
     ad_category_name := ad_category_name ad; ad_status := ad_status ad;
     ad_favorites := ad_favorites ad; ad_location := ad_location ad;
     ad_user := ad_user ad; ad_has_phone := ad_has_phone ad;
     ad_images := ad_images ad; ad_attributes := ad_attributes ad |}.

Definition with_images (ad : Ad) (i : option (list pystr)) : Ad :=
  {| ad_id := ad_id ad; ad_subject := ad_subject ad; ad_body := ad_body ad;
     ad_price := ad_price ad; ad_url := ad_url ad;
     ad_first_publication_date := ad_first_publication_date ad;
     ad_expiration_date := ad_expiration_date ad;
     ad_category_name := ad_category_name ad; ad_status := ad_status ad;
     ad_favorites := ad_favorites ad; ad_location := ad_location ad;
     ad_user := ad_user ad; ad_has_phone := ad_has_phone ad;
     ad_images := i; ad_attributes := ad_attributes ad |}.

Definition location_fields : list string :=
  [ "city"; "zipcode"; "department"; "region"; "latitude"; "longitude" ]%string.
Definition image_fields : list string :=
  [ "images_count"; "first_image_url" ]%string.

(** The values a record holds for the sources a listing lacks. *)
Definition defaults_for_missing `{Interpreter}
    (ad : Ad) (r : gmap string pyval) : Prop :=
  (ad_body ad = None → r !! "description"%string = Some empty_str)
  ∧ (ad_favorites ad = None → r !! "favorites"%string = Some (VInt 0))
  ∧ (ad_location ad = None →
       r !! "city"%string = Some empty_str
       ∧ r !! "zipcode"%string = Some empty_str
       ∧ r !! "department"%string = Some empty_str
       ∧ r !! "region"%string = Some empty_str
       ∧ r !! "latitude"%string = Some VNone
       ∧ r !! "longitude"%string = Some VNone)
  ∧ (ad_user ad = inr None →
       r !! "seller_type"%string = Some (VStr (py "particulier"))
       ∧ r !! "seller_name"%string = Some empty_str)
  ∧ (ad_images ad = None →
       r !! "images_count"%string = Some (VInt 0)
       ∧ r !! "first_image_url"%string = Some empty_str)
  ∧ ((∀ k, k ∈ surface_keys →
        surface_at (collect_attributes (ad_attributes ad)) k = None) →
       r !! "surface"%string = Some VNone)
  ∧ (∀ extract keys field,
       (extract, keys, field) ∈
         [ (_extract_real_estate_type, type_keys, "real_estate_type"%string);
           (_extract_energy_class, energy_keys, "energy_class"%string);
           (_extract_ges, ges_keys, "ges"%string);
           (_extract_furnished_status, furnished_keys, "furnished"%string) ] →
       (∀ k, k ∈ keys → collect_attributes (ad_attributes ad) !! k = None) →
       r !! field = Some empty_str).

(** A scraper as [main] builds it, the search of [main] without
    filters, and a clock that stands still. *)
Definition fresh_scraper : Scraper := {| delay := 3; scraped_data := [] |}.

Definition plain_criteria : Criteria :=
  {| text := VNone;
     locations := VNone;
     price_range := None;
     surface_range := None;
     sort := VStr (py "NEWEST");
     owner_type := VStr (py "ALL");
     ads_per_page := 35;
     search_in_title_only := false |}.

Definition still_clock (_ : nat) : pystr := noon.

(** A client that answers page 1 and fails on every other page. *)
Definition failing_client (p : SearchParams) : exn + SearchResult :=
  if sp_page p =? 1
  then inr {| ads := [private_listing]; max_pages := 4 |}
  else inl (ClientError (py "timeout")).

(** A client with two listings on pages 1 and 2 and none further on,
    which reports [last] as the last page. *)
Definition two_full_pages (last : Z) (p : SearchParams) : exn + SearchResult :=
  if sp_page p =? 1
  then inr {| ads := [private_listing; pro_listing]; max_pages := last |}
  else if sp_page p =? 2
  then inr {| ads := [pro_listing; private_listing]; max_pages := last |}
  else inr {| ads := []; max_pages := last |}.




(** A file system with an earlier export, and a scraper holding one
    record. *)
Definition earlier_export : gmap pystr node :=
  {[ py "data" := Dir; py "data/report.csv" := File (Text (py "id,title")) ]}.

Definition one_record_scraper : Scraper :=
  {| delay := 3;
     scraped_data := [_process_ad (H := ascii_default) noon private_listing] |}.

Definition stamp : pystr := py "20250103_120000".

(** ** Readings of a run *)

(** The listings the client holds on page [p] (none when it raises). *)
Definition page_ads (client : SearchParams → exn + SearchResult)
    (c : Criteria) (p : Z) : list Ad :=
  match client (search_params c p) with
  | inr result => ads result
  | inl _ => []
  end.

(** The waits of a trace, in order. *)
Definition sleeps (trace : list event) : list Q :=
  omap (λ ev, match ev with
              | Sleep s => Some s
              | Search _ => None
              end) trace.

(** Whether the loop goes on after page [p]: the client answers it
    with a page that is not empty and not the last one it reports
    (lines 120 and 130). *)
Definition goes_past (client : SearchParams → exn + SearchResult)
    (c : Criteria) (p : Z) : bool :=
  match client (search_params c p) with
  | inl _ => false
  | inr result =>
      match ads result with
      | [] => false
      | _ :: _ => negb (max_pages result <=? p)
      end
  end.

(** The events of the turn of the loop for page [p]: the search, and
    the wait of line 137 when the loop goes on and the delay is
    positive. *)
Definition turn_events (client : SearchParams → exn + SearchResult)
    (self : Scraper) (c : Criteria) (p : Z) : list event :=
  Search (search_params c p)
  :: (if goes_past client c p
      then (if Qlt_le_dec 0 (delay self) then [Sleep (delay self)] else [])
      else []).

(** What one attribute triple adds to the dict: its key and entry when
    key and value are both truthy. *)
Definition attribute_entry (a : Attribute) : option (pystr * entry) :=
  match attr_key a, attr_value a with
  | Some k, Some v =>
      if truthy_str (Some k) && truthy_str (Some v)
      then Some (k, {| e_value := v;
                       e_label := if truthy_str (attr_value_label a)
                                  then default v (attr_value_label a)
                                  else v |})
      else None
  | _, _ => None
  end.

(** A listing with three attributes, two of them under the same key. *)
Definition repeated_key : list Attribute :=
  [ {| attr_key := Some (py "square"); attr_value := Some (py "40");
       attr_value_label := Some (py "40 m2") |};
    {| attr_key := Some (py "ges"); attr_value := Some [];
       attr_value_label := Some (py "A") |};
    {| attr_key := Some (py "square"); attr_value := Some (py "55");
       attr_value_label := None |} ].

(** The file name an export uses before it is placed in the data
    directory: the one given, or the one made up. *)
Definition chosen_name (filename city : option pystr) (timestamp : pystr) : pystr :=
  if truthy_str filename then default [] filename
  else default_filename city timestamp.

(** A file name the file system takes as the name of a file: a single
    component that is not empty and is neither [.] nor [..], made of
    at most 255 ASCII characters other than the slash and NUL. *)
Definition plain_char (ch : N) : bool :=
  (negb (ch =? slash) && (0 <? ch) && (ch <? 128))%N.

Definition plain_name (name : pystr) : bool :=
  forallb plain_char name
  && negb (bool_decide (name = []))
  && negb (bool_decide (name = py "."))
  && negb (bool_decide (name = py ".."))
  && (length name <=? 255)%nat.

(** A file system where [data] is a regular file. *)
Definition data_is_a_file : gmap pystr node :=
  {[ py "data" := File (Text (py "notes")) ]}.

(** ** The constructor: [__init__] *)

Definition colon : N := 58%N.
Definition at_sign : N := 64%N.

(** The longest prefix of [s] whose characters satisfy [p], and what
    follows it. *)
Fixpoint span (p : N → bool) (s : pystr) : pystr * pystr :=
  match s with
  | [] => ([], [])
  | ch :: s' =>
      if p ch then let '(run, rest) := span p s' in (ch :: run, rest)
      else ([], s)
  end.

(** [s] without the prefix [prefix], when it starts with it. *)
Fixpoint strip_prefix (prefix s : pystr) : option pystr :=
  match prefix, s with
  | [], _ => Some s
  | _ :: _, [] => None
  | a :: prefix', b :: s' => if N.eqb a b then strip_prefix prefix' s' else None
  end.

(** The class [[^:@]] and the class [[^:/]]. *)
Definition not_colon_at (ch : N) : bool :=
  negb (N.eqb ch colon) && negb (N.eqb ch at_sign).
Definition not_colon_slash (ch : N) : bool :=
  negb (N.eqb ch colon) && negb (N.eqb ch slash).

(** [^http[s]?://]: what follows the scheme. *)
Definition match_scheme (s : pystr) : option pystr :=
  match strip_prefix (py "http") s with
  | Some r =>
      match strip_prefix (py "s") r with
      | Some r' =>
          match strip_prefix (py "://") r' with
          | Some rest => Some rest
          | None => strip_prefix (py "://") r
          end
      | None => strip_prefix (py "://") r
      end
  | None => None
  end.

(** [(?:[^:@]+?:[^:@]+?@)]: what follows the credentials.  The two
    runs end where the class ends, since they must be followed by a
    character outside the class. *)
Definition match_credentials (s : pystr) : option pystr :=
  match span not_colon_at s with
  | (_ :: _, ch :: r) =>
      if N.eqb ch colon then
        match span not_colon_at r with
        | (_ :: _, ch' :: r') => if N.eqb ch' at_sign then Some r' else None
        | _ => None
        end
      else None
  | _ => None
  end.

(** A proxy as [lbc.Proxy(host, port)] builds it. *)
Record Proxy := { proxy_host : pystr; proxy_port : Z }.

(** What may be passed as [proxy]: a [str] or a proxy object. *)
Inductive proxy_arg :=
  | ProxyStr (s : pystr)
  | ProxyObj (p : Proxy).

Section Constructor.
Context `{Interpreter}.

(** [([^:/]+):(\d+)]: the host and the digits of the port. *)
Definition match_host_port (s : pystr) : option (pystr * pystr) :=
  match span not_colon_slash s with
  | ((_ :: _) as host, ch :: r) =>
      if N.eqb ch colon then
        match leading_digits r with
        | [] => None
        | port => Some (host, port)
        end
      else None
  | _ => None
  end.

(** [re.match(r'^http[s]?://(?:[^:@]+?:[^:@]+?@)?([^:/]+):(\d+)', proxy)]:
    groups 1 and 2 of the match.  The optional group is tried first
    and given up when the rest does not match after it. *)
Definition match_proxy (proxy : pystr) : option (pystr * pystr) :=
  match match_scheme proxy with
  | Some rest =>
      match match_credentials rest with
      | Some rest' =>
          match match_host_port rest' with
          | Some groups => Some groups
          | None => match_host_port rest
          end
      | None => match_host_port rest
      end
  | None => None
  end.

Definition proxy_not_recognised (proxy : pystr) : exn :=
  ValueError (py "Format de proxy non reconnu : " ++ proxy).

(** The [ValueError] of [int] on a run of [n] digits beyond the limit. *)
Definition port_too_long (n : nat) : exn :=
  ValueError
    (py "Exceeds the limit ("
     ++ py (NilEmpty.string_of_uint (Nat.to_uint int_max_str_digits))
     ++ py " digits) for integer string conversion: value has "
     ++ py (NilEmpty.string_of_uint (Nat.to_uint n))
     ++ py " digits; use sys.set_int_max_str_digits() to increase the limit").

(** The constructor: the new scraper and the proxy handed to
    [lbc.Client], or the exception raised. *)
Definition __init__ (proxy : option proxy_arg) (delay_between_requests : Q)
  : exn + (Scraper * option proxy_arg) :=
  let self := {| delay := delay_between_requests; scraped_data := [] |} in
  match proxy with
  | Some (ProxyStr (ch :: s)) =>
      match match_proxy (ch :: s) with
      | Some (host, port_digits) =>
          match py_int port_digits with
          | Some port =>
              inr (self, Some (ProxyObj {| proxy_host := host; proxy_port := port |}))
          | None => inl (port_too_long (length port_digits))
          end
      | None => inl (proxy_not_recognised (ch :: s))
      end
  | _ => inr (self, proxy)
  end.
End Constructor.

(** ** The command line: [main] *)

Inductive owner_choice := OwnerPro | OwnerPrivate | OwnerAll.

(** The parsed arguments; [None] is an option that was not given. *)
Record Args := {
  arg_text : option pystr;
  arg_city : option pystr;
  arg_lat : option Q;
  arg_lng : option Q;
  arg_radius : Z;
  arg_min_price : option Z;
  arg_max_price : option Z;
  arg_min_surface : option Z;
  arg_max_surface : option Z;
  arg_max_pages : Z;
  arg_output : option pystr;
  arg_delay : Q;
  arg_owner_type : owner_choice;
  arg_stats : bool;
  arg_proxy : option pystr
}.

(** The arguments of [lbc.City(lat=..., lng=..., radius=..., city=...)]. *)
Record City := {
  city_lat : Q;
  city_lng : Q;
  city_radius : Z;
  city_name : pystr
}.

(** What [main] prints: the file saved, the statistics block, the
    notice that nothing was found, or the error caught. *)
Inductive message :=
  | Saved (filename : pystr)
  | StatsShown (stats : option Statistics)
  | NothingFound
  | Failed (e : exn).

Inductive main_outcome :=
  | MainRaised (e : exn)
  | MainDone (printed : list message)
  | MainOutOfFuel.

(** Truthiness of an optional number: given and not zero. *)
Definition truthy_int (o : option Z) : bool :=
  match o with
  | Some z => negb (z =? 0)
  | None => false
  end.

Definition truthy_float (o : option Q) : bool :=
  match o with
  | Some q => negb (Qeq_bool q 0)
  | None => false
  end.

(** [[lo, hi] if lo and hi else None] *)
Definition main_range (lo hi : option Z) : option (list Z) :=
  if truthy_int lo && truthy_int hi
  then Some [default 0 lo; default 0 hi]
  else None.

(** The list [locations] of [main]. *)
Definition main_locations (args : Args) : list City :=
  if truthy_str (arg_city args) && truthy_float (arg_lat args)
     && truthy_float (arg_lng args)
  then [ {| city_lat := default 0%Q (arg_lat args);
            city_lng := default 0%Q (arg_lng args);
            city_radius := arg_radius args;
            city_name := default [] (arg_city args) |} ]
  else [].

Section Main.
Context `{Interpreter}.

(** The values of the client library [main] passes on: a list of
    locations, [lbc.Sort.NEWEST] and the three owner types; the client
    a proxy gives; the clock of the normalizer and the timestamp of the
    export. *)
Variable locations_value : list City → pyval.
Variable sort_newest : pyval.
Variable owner_value : owner_choice → pyval.
Variable client_of : option proxy_arg → SearchParams → exn + SearchResult.
Variable clock : nat → pystr.
Variable timestamp : pystr.

(** The search [main] asks for; sort, page size and title-only flag
    are the defaults of [search_bureaux_commerces]. *)
Definition main_criteria (args : Args) : Criteria :=
  {| text := match arg_text args with Some t => VStr t | None => VNone end;
     locations := locations_value (main_locations args);
     price_range := main_range (arg_min_price args) (arg_max_price args);
     surface_range := main_range (arg_min_surface args) (arg_max_surface args);
     sort := sort_newest;
     owner_type := owner_value (arg_owner_type args);
     ads_per_page := 35;
     search_in_title_only := false |}.

(** [main]: what it raises or prints, the file system afterwards and
    the events of the search.  The scraper is built outside the [try],
    so a refused proxy raises; everything after is caught and printed.
    [StatsShown None] stands for the statistics block failing on the
    empty dict. *)
Definition main (args : Args) (fs : gmap pystr node)
  : main_outcome * gmap pystr node * list event :=
  match __init__ (ProxyStr <$> arg_proxy args) (arg_delay args) with
  | inl e => (MainRaised e, fs, [])
  | inr (scraper, client_proxy) =>
      let '(r, scraper', trace) :=
        search_bureaux_commerces (client_of client_proxy) clock scraper
          (main_criteria args) (arg_max_pages args) in
      match r with
      | Raised e => (MainDone [Failed e], fs, trace)
      | OutOfFuel => (MainOutOfFuel, fs, trace)
      | Returned [] => (MainDone [NothingFound], fs, trace)
      | Returned (_ :: _) =>
          match save_to_csv scraper' fs (arg_output args) (arg_city args)
                  false timestamp with
          | (inl e, fs') => (MainDone [Failed e], fs', trace)
          | (inr filename, fs') =>
              if arg_stats args then
                match get_statistics scraper' with
                | inl e => (MainDone [Saved filename; Failed e], fs', trace)
                | inr stats =>
                    (MainDone [Saved filename; StatsShown stats], fs', trace)
                end
              else (MainDone [Saved filename], fs', trace)
          end
      end
  end.
End Main.

(** Arguments as the parser gives them when only a price range is
    asked for, here with a minimum of zero. *)
Definition zero_minimum : Args :=
  {| arg_text := None; arg_city := None; arg_lat := None; arg_lng := None;
     arg_radius := 10000;
     arg_min_price := Some 0; arg_max_price := Some 500000;
     arg_min_surface := Some 20; arg_max_surface := Some 200;
     arg_max_pages := 5; arg_output := None; arg_delay := 3;
     arg_owner_type := OwnerAll; arg_stats := false; arg_proxy := None |}.

Definition no_locations (_ : list City) : pyval := VNone.
Definition owner_name (o : owner_choice) : pyval :=
  VStr (match o with
        | OwnerPro => py "pro"
        | OwnerPrivate => py "private"
        | OwnerAll => py "all"
        end).

(** * Properties *)

(** ** Attribute fallback *)

Section ExtractorFacts.
Context `{Interpreter}.

Lemma skip_non_digits_split s :
  ∃ pre, s = pre ++ skip_non_digits s ∧ Forall (λ c, is_digit c = false) pre.
Proof.
  induction s as [|c s [pre [Hs Hpre]]]; simpl.
  - by exists [].
  - destruct (is_digit c) eqn:Hc.
    + by exists [].
    + exists (c :: pre). split; [simpl; by f_equal | by constructor].
Qed.

Lemma leading_digits_split s :
  ∃ post, s = leading_digits s ++ post
          ∧ Forall (λ c, is_digit c = true) (leading_digits s)
          ∧ match post with [] => True | c :: _ => is_digit c = false end.
Proof.
  induction s as [|c s [post (Hs & Hd & Hpost)]]; simpl.
  - by exists [].
  - destruct (is_digit c) eqn:Hc.
    + exists post. split_and!; [simpl; by f_equal | by constructor | done].
    + by exists (c :: s).
Qed.

Lemma skip_non_digits_app pre s :
  Forall (λ c, is_digit c = false) pre →
  skip_non_digits (pre ++ s) = skip_non_digits s.
Proof. induction 1 as [|c pre Hc _ IH]; simpl; [done | by rewrite Hc]. Qed.

Lemma leading_digits_app run post :
  Forall (λ c, is_digit c = true) run →
  match post with [] => True | c :: _ => is_digit c = false end →
  leading_digits (run ++ post) = run.
Proof.
  intros Hrun Hpost. induction Hrun as [|c run Hc _ IH]; simpl.
  - destruct post as [|c post]; simpl; [done | by rewrite Hpost].
  - by rewrite Hc, IH.
Qed.

(** [re.search(r'\d+', s)] finds the leftmost run of digits, taken as
    long as it goes. *)
Lemma re_search_digits_Some s run :
  re_search_digits s = Some run ↔
  ∃ pre post, s = pre ++ run ++ post
    ∧ Forall (λ c, is_digit c = false) pre
    ∧ run ≠ [] ∧ Forall (λ c, is_digit c = true) run
    ∧ match post with [] => True | c :: _ => is_digit c = false end.
Proof.
  unfold re_search_digits. split.
  - destruct (skip_non_digits_split s) as [pre [Hs Hpre]].
    destruct (skip_non_digits s) as [|c rest] eqn:Hskip; [done |].
    assert (is_digit c = true) as Hc.
    { clear -Hskip. induction s as [|d s IH]; simpl in *; [done |].
      destruct (is_digit d) eqn:Hd; [by simplify_eq | auto]. }
    destruct (leading_digits_split (c :: rest)) as [post (Hr & Hd & Hpost)].
    remember (leading_digits (c :: rest)) as ld eqn:Hld.
    intros [= <-]. exists pre, post. split_and!; try done.
    + by rewrite <- Hr.
    + subst ld. simpl. by rewrite Hc.
  - intros (pre & post & -> & Hpre & Hne & Hrun & Hpost).
    rewrite skip_non_digits_app by done.
    destruct run as [|c run]; [done |].
    apply Forall_cons in Hrun as Hrun'. destruct Hrun' as [Hc _].
    change ((c :: run) ++ post) with (c :: (run ++ post)).
    simpl skip_non_digits. rewrite Hc.
    change (c :: run ++ post) with ((c :: run) ++ post).
    by rewrite leading_digits_app.
Qed.

Lemma re_search_digits_None s :
  re_search_digits s = None ↔ Forall (λ c, is_digit c = false) s.
Proof.
  unfold re_search_digits. split.
  - destruct (skip_non_digits_split s) as [pre [Hs Hpre]].
    destruct (skip_non_digits s); [| done].
    intros _. rewrite Hs, app_nil_r. done.
  - intros Hs. rewrite <- (app_nil_r s), skip_non_digits_app by done. done.
Qed.

Lemma label_scan_first keys attributes :
  label_scan keys attributes =
  match list_find (λ k, is_Some (attributes !! k)) keys with
  | Some (_, k) => label_at attributes k
  | None => []
  end.
Proof.
  induction keys as [|k keys IH]; [done |].
  cbn [label_scan list_find]. unfold label_at.
  destruct (attributes !! k) as [e|] eqn:Hk.
  - rewrite decide_True by eauto. simpl. by rewrite Hk.
  - rewrite decide_False by (by intros [? ?]).
    rewrite IH. by destruct (list_find _ keys) as [[? ?]|].
Qed.

Lemma surface_scan_first keys attributes :
  surface_scan keys attributes =
  match list_find (λ k, is_Some (surface_at attributes k)) keys with
  | Some (_, k) => surface_at attributes k
  | None => None
  end.
Proof.
  induction keys as [|k keys IH]; [done |].
  cbn [surface_scan list_find].
  assert (surface_at attributes k =
          match attributes !! k with
          | Some e => match surface_try e with
                      | Some (Some n) => Some n | _ => None end
          | None => None
          end) as Hat.
  { unfold surface_at, surface_try. destruct (attributes !! k) as [e|]; [|done].
    simpl. destruct (re_search_digits (e_value e)) as [run|]; [|done].
    simpl. by destruct (py_int run). }
  destruct (surface_at attributes k) as [n|] eqn:Hk.
  - rewrite decide_True by eauto. simpl. rewrite Hk.
    destruct (attributes !! k) as [e|]; [|done].
    by destruct (surface_try e) as [[?|]|].
  - rewrite decide_False by (by intros [? ?]).
    assert (surface_scan keys attributes =
            match prod_map S id <$> list_find (λ k, is_Some (surface_at attributes k)) keys with
            | Some (_, k) => surface_at attributes k
            | None => None
            end) as ->.
    { rewrite IH. by destruct (list_find _ keys) as [[? ?]|]. }
    destruct (attributes !! k) as [e|]; [|done].
    by destruct (surface_try e) as [[?|]|].
Qed.
End ExtractorFacts.

Lemma label_scan_first_present keys attributes k e :
  first_present keys attributes k e → label_scan keys attributes = e_label e.
Proof.
  intros (i & Hi & Hk & Hbefore). rewrite label_scan_first.
  assert (list_find (λ k, is_Some (attributes !! k)) keys = Some (i, k)) as ->.
  { apply list_find_Some. split_and!; [done | eauto |].
    intros j k' Hj Hlt [e' He']. by rewrite (Hbefore j k') in He'. }
  unfold label_at. by rewrite Hk.
Qed.

Lemma label_scan_none_present keys attributes :
  (∀ k, k ∈ keys → attributes !! k = None) → label_scan keys attributes = [].
Proof.
  intros Hnone. rewrite label_scan_first.
  destruct (list_find _ keys) as [[i k]|] eqn:Hfind; [|done].
  apply list_find_Some in Hfind as (Hi & [e He] & _).
  rewrite Hnone in He; [done | by eapply list_elem_of_lookup_2].
Qed.

Section SurfaceFacts.
Context `{Interpreter}.

Lemma surface_scan_first_usable keys attributes k n :
  first_usable keys attributes k n → surface_scan keys attributes = Some n.
Proof.
  intros (i & Hi & Hk & Hbefore). rewrite surface_scan_first.
  assert (list_find (λ k, is_Some (surface_at attributes k)) keys = Some (i, k)) as ->.
  { apply list_find_Some. split_and!; [done | eauto |].
    intros j k' Hj Hlt [e' He']. by rewrite (Hbefore j k') in He'. }
  done.
Qed.

Lemma surface_scan_none_usable keys attributes :
  (∀ k, k ∈ keys → surface_at attributes k = None) →
  surface_scan keys attributes = None.
Proof.
  intros Hnone. rewrite surface_scan_first.
  destruct (list_find _ keys) as [[i k]|] eqn:Hfind; [|done].
  apply list_find_Some in Hfind as (Hi & [e He] & _).
  rewrite Hnone in He; [done | by eapply list_elem_of_lookup_2].
Qed.

Lemma py_int_within_limit run :
  int_max_str_digits = 0%nat ∨ (length run ≤ int_max_str_digits)%nat →
  py_int run = Some (digit_run_value run).
Proof.
  intros Hlim. unfold py_int.
  destruct (Nat.eqb_spec int_max_str_digits 0) as [Hz|Hnz]; [done |].
  destruct Hlim as [?|Hle]; [done |]. simpl.
  destruct (Nat.ltb_spec int_max_str_digits (length run)); [lia | done].
Qed.

Lemma surface_at_digit_run attributes k e run :
  attributes !! k = Some e → first_digit_run (e_value e) run →
  surface_at attributes k = py_int run.
Proof.
  intros Hk Hrun. unfold surface_at. rewrite Hk. simpl.
  apply re_search_digits_Some in Hrun. by rewrite Hrun.
Qed.

Lemma surface_at_no_digit attributes k e :
  attributes !! k = Some e → Forall (λ c, is_digit c = false) (e_value e) →
  surface_at attributes k = None.
Proof.
  intros Hk Hnone. unfold surface_at. rewrite Hk. simpl.
  apply re_search_digits_None in Hnone. by rewrite Hnone.
Qed.

Lemma eighty_five_m2_run :
  decimal_digit 56 = Some 8%N → decimal_digit 53 = Some 5%N →
  decimal_digit 32 = None →
  first_digit_run eighty_five_m2 (py "85") ∧ digit_run_value (py "85") = 85.
Proof.
  intros H8 H5 Hsp.
  change eighty_five_m2 with [56; 53; 32; 109; 178]%N.
  change (py "85") with [56; 53]%N. split.
  - exists [], [32; 109; 178]%N. unfold is_digit.
    split_and!; try done.
    + repeat constructor; by rewrite ?H8, ?H5.
    + by rewrite Hsp.
  - unfold digit_run_value. cbn [foldl]. by rewrite H8, H5.
Qed.
End SurfaceFacts.

(** C1, as stated, fails on the surface: with [square] present but
    without digits and [area] holding ["85"], the first present key is
    [square], so the claim makes the surface absent, while
    [_extract_surface] goes on to [area] and returns 85. *)
Lemma C1_surface_falls_through :
  first_present surface_keys square_without_digits (py "square")
    {| e_value := py "n/a"; e_label := py "n/a" |}
  ∧ re_search_digits (H := ascii_default) (py "n/a") = None
  ∧ surface_of_first_present (H := ascii_default) square_without_digits = None
  ∧ _extract_surface (H := ascii_default) square_without_digits = Some 85.
Proof.
  split_and!; try by vm_compute.
  exists 0%nat. split_and!; [done | by vm_compute | intros j k' Hj; lia].
Qed.

(** C1 (amended).  Each label extractor (real-estate type, energy
    class, GES, furnished) returns the label of the first key of its
    priority list that is present in the collection, whatever later
    keys hold, and the empty string when none is present.  The surface
    extractor tries [square], [surface], [area] in this order and
    returns the integer of the first key that contributes one: a key
    contributes when it is present and its value holds a digit run that
    [int] accepts, and the integer is the value of the first run of
    decimal digits of that value (["85 m²"] gives 85); a key that is
    absent, whose value holds no digit, or whose run exceeds the
    interpreter's digit limit is passed over, and the surface is absent
    when no key contributes. *)
Theorem C1_attribute_fallback `{Interpreter} :
  (∀ extract keys attributes k e,
     (extract, keys) ∈ label_extractors →
     first_present keys attributes k e → extract attributes = e_label e)
  ∧ (∀ extract keys attributes,
       (extract, keys) ∈ label_extractors →
       (∀ k, k ∈ keys → attributes !! k = None) → extract attributes = [])
  ∧ surface_keys = [py "square"; py "surface"; py "area"]
  ∧ (∀ attributes k n,
       first_usable surface_keys attributes k n →
       _extract_surface attributes = Some n)
  ∧ (∀ attributes,
       (∀ k, k ∈ surface_keys → surface_at attributes k = None) →
       _extract_surface attributes = None)
  ∧ (∀ attributes k e run,
       attributes !! k = Some e → first_digit_run (e_value e) run →
       int_max_str_digits = 0%nat ∨ (length run ≤ int_max_str_digits)%nat →
       surface_at attributes k = Some (digit_run_value run))
  ∧ (∀ attributes k e run,
       attributes !! k = Some e → first_digit_run (e_value e) run →
       int_max_str_digits ≠ 0%nat → (int_max_str_digits < length run)%nat →
       surface_at attributes k = None)
  ∧ (∀ attributes k e,
       attributes !! k = Some e →
       Forall (λ c, is_digit c = false) (e_value e) →
       surface_at attributes k = None)
  ∧ (∀ attributes k, attributes !! k = None → surface_at attributes k = None)
  ∧ (decimal_digit 56 = Some 8%N → decimal_digit 53 = Some 5%N →
     decimal_digit 32 = None →
     int_max_str_digits = 0%nat ∨ (2 ≤ int_max_str_digits)%nat →
     ∀ attributes k e,
       attributes !! k = Some e → e_value e = eighty_five_m2 →
       surface_at attributes k = Some 85).
Proof.
  assert (∀ extract keys, (extract, keys) ∈ label_extractors →
            extract = label_scan keys) as Hscan.
  { intros extract keys Hin. unfold label_extractors in Hin.
    repeat (apply elem_of_cons in Hin as [Hin|Hin]; [by simplify_eq |]).
    by apply elem_of_nil in Hin. }
  split_and!.
  - intros extract keys attributes k e Hin Hfirst.
    rewrite (Hscan _ _ Hin). by eapply label_scan_first_present.
  - intros extract keys attributes Hin Hnone.
    rewrite (Hscan _ _ Hin). by apply label_scan_none_present.
  - done.
  - intros attributes k n Hf. by eapply surface_scan_first_usable.
  - intros attributes. apply surface_scan_none_usable.
  - intros attributes k e run Hk Hrun Hlim.
    rewrite (surface_at_digit_run _ _ _ _ Hk Hrun). by apply py_int_within_limit.
  - intros attributes k e run Hk Hrun Hnz Hlt.
    rewrite (surface_at_digit_run _ _ _ _ Hk Hrun). unfold py_int.
    destruct (Nat.eqb_spec int_max_str_digits 0); [done |].
    by destruct (Nat.ltb_spec int_max_str_digits (length run)); [| lia].
  - intros attributes k e. apply surface_at_no_digit.
  - intros attributes k Hk. unfold surface_at. by rewrite Hk.
  - intros H8 H5 Hsp Hlim attributes k e Hk Hv.
    destruct (eighty_five_m2_run H8 H5 Hsp) as [Hrun Hval].
    rewrite <- Hv in Hrun.
    rewrite (surface_at_digit_run _ _ _ _ Hk Hrun), <- Hval.
    apply py_int_within_limit. destruct Hlim; [by left | by right].
Qed.

(** The theorem at work on a collection where [surface] and [area],
    and [greenhouse_gas] and [co2], are present together: the earlier
    key wins, and ["85 m²"] reads as 85. *)
Lemma C1_attribute_fallback_witness :
  _extract_surface (H := ascii_default) two_candidates = Some 85
  ∧ _extract_ges two_candidates = py "A"
  ∧ _extract_furnished_status two_candidates = [].
Proof.
  destruct (C1_attribute_fallback (H := ascii_default))
    as (Hlabel & Hnone & _ & Hsurf & _ & _ & _ & _ & Habsent & H85).
  split_and!.
  - apply (Hsurf two_candidates (py "surface") 85).
    exists 1%nat. split_and!.
    + reflexivity.
    + apply H85 with (e := {| e_value := eighty_five_m2; e_label := eighty_five_m2 |});
        try reflexivity.
      right. simpl. lia.
    + intros j k' Hj Hk'. destruct j as [|j]; [| lia].
      injection Hk' as <-. apply Habsent. reflexivity.
  - apply (Hlabel _extract_ges ges_keys two_candidates (py "greenhouse_gas")
             {| e_value := py "a"; e_label := py "A" |}).
    + unfold label_extractors. do 2 apply list_elem_of_further. apply list_elem_of_here.
    + exists 1%nat. split_and!; [reflexivity | reflexivity |].
      intros j k' Hj Hk'. destruct j as [|j]; [| lia].
      injection Hk' as <-. reflexivity.
  - apply (Hnone _extract_furnished_status furnished_keys two_candidates).
    + unfold label_extractors. do 3 apply list_elem_of_further. apply list_elem_of_here.
    + intros k Hk. unfold furnished_keys in Hk.
      repeat (apply elem_of_cons in Hk as [->|Hk]; [reflexivity |]).
      by apply elem_of_nil in Hk.
Defined.

(** ** The normalizer *)

Lemma pro_siret_not_base : "pro_siret"%string ∉ base_schema.
Proof. compute_done. Qed.

Lemma pro_siret_pro : "pro_siret"%string ∈ pro_schema.
Proof. compute_done. Qed.

Lemma error_not_base : "error"%string ∉ base_schema ∪ pro_schema.
Proof. compute_done. Qed.

Section NormalizerFacts.
Context `{Interpreter}.

Lemma dom_base_record scraped_at ad user attributes :
  dom (base_record scraped_at ad user attributes) = base_schema.
Proof. unfold base_record. by rewrite dom_list_to_map_L. Qed.

Lemma dom_pro_record pro : dom (pro_record pro) = pro_schema.
Proof. unfold pro_record. by rewrite dom_list_to_map_L. Qed.

(** Only reading the user can make the body of [_process_ad] raise. *)
Lemma process_ad_try_cases scraped_at ad :
  match ad_user ad with
  | inl e => process_ad_try scraped_at ad = inl e
  | inr user =>
      let ad_data :=
        base_record scraped_at ad user (collect_attributes (ad_attributes ad)) in
      process_ad_try scraped_at ad =
        inr (match pro_profile user with
             | Some pro => pro_record pro ∪ ad_data
             | None => ad_data
             end)
  end.
Proof.
  unfold process_ad_try. destruct (ad_user ad) as [e|user]; [done |].
  simpl. by destruct (pro_profile user).
Qed.

Lemma dom_process_ad_try scraped_at ad r :
  process_ad_try scraped_at ad = inr r →
  dom r = base_schema
            ∪ match listing_pro ad with Some _ => pro_schema | None => ∅ end.
Proof.
  intros Hr. pose proof (process_ad_try_cases scraped_at ad) as Hc.
  unfold listing_pro. destruct (ad_user ad) as [e|user]; [congruence |].
  simpl in Hc. rewrite Hc in Hr. injection Hr as <-.
  destruct (pro_profile user) as [pro|].
  - rewrite dom_union_L, dom_pro_record, dom_base_record. set_solver.
  - rewrite dom_base_record. set_solver.
Qed.

Lemma process_ad_error_free scraped_at ad r :
  process_ad_try scraped_at ad = inr r → r !! "error"%string = None.
Proof.
  intros Hr. apply not_elem_of_dom. rewrite (dom_process_ad_try _ _ _ Hr).
  pose proof error_not_base. destruct (listing_pro ad); set_solver.
Qed.
Lemma process_ad_no_raise scraped_at ad user :
  ad_user ad = inr user →
  process_ad_try scraped_at ad = inr (_process_ad scraped_at ad).
Proof.
  intros Hu. unfold _process_ad, process_ad_try. rewrite Hu.
  by destruct (pro_profile user).
Qed.

Lemma dom_process_ad scraped_at ad user :
  ad_user ad = inr user →
  dom (_process_ad scraped_at ad)
  = base_schema ∪ match pro_profile user with
                  | Some _ => pro_schema
                  | None => ∅
                  end.
Proof.
  intros Hu.
  rewrite (dom_process_ad_try scraped_at ad _ (process_ad_no_raise _ _ _ Hu)).
  unfold listing_pro. by rewrite Hu.
Qed.
End NormalizerFacts.

Section NormalizerFields.
Context `{Interpreter}.

(** A successful record reads its base fields from the dict literal. *)
Lemma process_ad_try_lookup scraped_at ad user r k :
  ad_user ad = inr user → process_ad_try scraped_at ad = inr r →
  k ∉ pro_schema →
  r !! k = base_record scraped_at ad user
             (collect_attributes (ad_attributes ad)) !! k.
Proof.
  intros Hu Hr Hk. pose proof (process_ad_try_cases scraped_at ad) as Hc.
  rewrite Hu in Hc. simpl in Hc. rewrite Hc in Hr. injection Hr as <-.
  destruct (pro_profile user) as [pro|]; [| done].
  apply lookup_union_r, not_elem_of_dom. by rewrite dom_pro_record.
Qed.

Lemma process_ad_defaults scraped_at ad r :
  process_ad_try scraped_at ad = inr r → defaults_for_missing ad r.
Proof.
  intros Hr.
  destruct (ad_user ad) as [e|user] eqn:Hu.
  { pose proof (process_ad_try_cases scraped_at ad) as Hc.
    rewrite Hu in Hc. congruence. }
  pose proof (λ k, process_ad_try_lookup scraped_at ad user r k Hu Hr) as Hl.
  unfold defaults_for_missing. split_and!.
  - intros Hb. rewrite Hl by compute_done. unfold base_record.
    rewrite Hb. reflexivity.
  - intros Hb. rewrite Hl by compute_done. unfold base_record.
    rewrite Hb. reflexivity.
  - intros Hb. rewrite !Hl by compute_done. unfold base_record.
    rewrite Hb. by split_and!.
  - intros Hn. rewrite Hu in Hn. injection Hn as ->.
    rewrite !Hl by compute_done. by split_and!.
  - intros Hb. rewrite !Hl by compute_done. unfold base_record.
    rewrite Hb. by split_and!.
  - intros Hnone. rewrite Hl by compute_done.
    assert (_extract_surface (collect_attributes (ad_attributes ad)) = None) as Hs
      by by apply surface_scan_none_usable.
    unfold base_record. rewrite Hs. reflexivity.
  - intros extract keys field Hin Hnone.
    repeat (apply elem_of_cons in Hin as [Hin|Hin];
            [ injection Hin as -> -> ->;
              rewrite Hl by compute_done;
              pose proof (label_scan_none_present _ _ Hnone) as Hs;
              unfold base_record, _extract_real_estate_type,
                _extract_energy_class, _extract_ges, _extract_furnished_status;
              rewrite Hs; reflexivity |]).
    by apply elem_of_nil in Hin.
Qed.
End NormalizerFields.

(** Lookup of a symbolic key in two dict literals with the same keys:
    the values agree key by key, except where [Hk] excludes the key. *)
Ltac same_literal_lookup Hk :=
  unfold base_record; cbn [ad_location ad_body ad_images with_location
    with_body with_images ad_id ad_subject ad_price ad_url
    ad_first_publication_date ad_expiration_date ad_category_name ad_status
    ad_favorites ad_has_phone];
  repeat rewrite list_to_map_cons; rewrite list_to_map_nil;
  rewrite !lookup_insert, !lookup_empty;
  repeat (case_decide;
          [ subst; first [ reflexivity
                         | exfalso; apply Hk; apply list_elem_of_In; simpl; tauto ]
          | ]);
  reflexivity.

Section OneSourceOneField.
Context `{Interpreter}.

Lemma process_ad_outside scraped_at ad ad' k :
  ad_id ad' = ad_id ad → ad_user ad' = ad_user ad →
  ad_attributes ad' = ad_attributes ad →
  (∀ user, base_record scraped_at ad' user
             (collect_attributes (ad_attributes ad)) !! k
           = base_record scraped_at ad user
             (collect_attributes (ad_attributes ad)) !! k) →
  _process_ad scraped_at ad' !! k = _process_ad scraped_at ad !! k.
Proof.
  intros Hid Hu Ha Hbase. unfold _process_ad, process_ad_try.
  rewrite Hu, Ha. destruct (ad_user ad) as [e|user].
  - unfold error_record. by rewrite Hid.
  - destruct (pro_profile user) as [pro|]; [| apply Hbase].
    rewrite !lookup_union. by rewrite Hbase.
Qed.

(** The location of a listing shows in the six location fields only,
    its body in the description only, its images in the two image
    fields only. *)
Lemma location_fields_only scraped_at ad l k :
  k ∉ location_fields →
  _process_ad scraped_at (with_location ad l) !! k = _process_ad scraped_at ad !! k.
Proof.
  intros Hk. apply process_ad_outside; try done.
  intros user. same_literal_lookup Hk.
Qed.

Lemma description_field_only scraped_at ad b k :
  k ≠ "description"%string →
  _process_ad scraped_at (with_body ad b) !! k = _process_ad scraped_at ad !! k.
Proof.
  intros Hk. apply process_ad_outside; try done.
  intros user.
  assert (k ∉ ["description"%string]) as Hk' by (by intros ?%list_elem_of_singleton).
  same_literal_lookup Hk'.
Qed.

Lemma image_fields_only scraped_at ad i k :
  k ∉ image_fields →
  _process_ad scraped_at (with_images ad i) !! k = _process_ad scraped_at ad !! k.
Proof.
  intros Hk. apply process_ad_outside; try done.
  intros user. same_literal_lookup Hk.
Qed.
End OneSourceOneField.

(** ** Rows of the export *)

Lemma csv_rows_filter include_raw_attributes data :
  csv_rows include_raw_attributes data =
  csv_row include_raw_attributes
    <$> filter (λ r : gmap string pyval, r !! "error"%string = None) data.
Proof.
  induction data as [|ad data IH]; [done |].
  cbn [csv_rows]. rewrite filter_cons.
  destruct (ad !! "error"%string) as [v|] eqn:Herr.
  - by rewrite decide_False by done.
  - rewrite decide_True by done. by rewrite fmap_cons, IH.
Qed.

Lemma csv_rows_no_error include_raw_attributes data row :
  row ∈ csv_rows include_raw_attributes data → row !! "error"%string = None.
Proof.
  rewrite csv_rows_filter. intros (r & -> & Hr)%list_elem_of_fmap.
  apply list_elem_of_filter in Hr as [Hr _].
  unfold csv_row. destruct include_raw_attributes; [done |].
  by rewrite lookup_delete_ne.
Qed.

Lemma write_file_inr fs p c fs' :
  write_file fs p c = inr fs' → fs' = <[p := File c]> fs.
Proof.
  unfold write_file. intros Hw.
  destruct (fs !! p) as [[|old]|]; [done | congruence |].
  destruct (is_dir fs (dirname p) && negb (bool_decide (p = []))); congruence.
Qed.

Lemma save_to_csv_inr self fs filename city include_raw_attributes timestamp name fs' :
  save_to_csv self fs filename city include_raw_attributes timestamp = (inr name, fs') →
  name = target_path filename city timestamp
  ∧ fs' !! name
    = Some (File (CsvTable (csv_rows include_raw_attributes (scraped_data self)))).
Proof.
  unfold save_to_csv. destruct (scraped_data self) as [|r data]; [done |].
  destruct (write_file _ _ _) as [e|fs''] eqn:Hw; [done |].
  intros [= <- <-]. apply write_file_inr in Hw as ->.
  by rewrite lookup_insert_eq.
Qed.

(** ** Schema of the records *)

(** C2, as stated, fails: the listing of a pro seller and the listing
    of a private seller are both normalized without error, and the
    first record has the key [pro_siret] while the second has not, so
    the two key sets differ. *)
Lemma C2_pro_listing_has_more_keys :
  (∃ r, process_ad_try (H := ascii_default) noon pro_listing = inr r)
  ∧ (∃ r, process_ad_try (H := ascii_default) noon private_listing = inr r)
  ∧ "pro_siret"%string ∈ dom (_process_ad (H := ascii_default) noon pro_listing)
  ∧ ("pro_siret"%string ∉ dom (_process_ad (H := ascii_default) noon private_listing))
  ∧ dom (_process_ad (H := ascii_default) noon pro_listing)
    ≠ dom (_process_ad (H := ascii_default) noon private_listing).
Proof.
  assert ("pro_siret"%string
            ∈ dom (_process_ad (H := ascii_default) noon pro_listing)) as Hin.
  { erewrite dom_process_ad by reflexivity. apply elem_of_union_r, pro_siret_pro. }
  assert ("pro_siret"%string
            ∉ dom (_process_ad (H := ascii_default) noon private_listing)) as Hout.
  { erewrite dom_process_ad by reflexivity. intros [Hb|He]%elem_of_union.
    - by apply pro_siret_not_base.
    - by apply elem_of_empty in He. }
  split; [| split; [| split; [| split]]].
  - eexists. eapply process_ad_no_raise. reflexivity.
  - eexists. eapply process_ad_no_raise. reflexivity.
  - exact Hin.
  - exact Hout.
  - intros Heq. by rewrite Heq in Hin.
Qed.

(** C2 (amended).  Every record normalized without error holds all
    the keys of the dict literal of [_process_ad] (the base schema),
    with the empty string, [None] or 0 where the listing has no source
    for the field; the five [pro_*] keys are present exactly when the
    user of the listing has a pro profile.  Hence two such records have
    the same key set exactly when both listings, or neither, have a pro
    profile. *)
Theorem C2_record_schema `{Interpreter} t1 t2 ad1 ad2 r1 r2 :
  process_ad_try t1 ad1 = inr r1 →
  process_ad_try t2 ad2 = inr r2 →
  base_schema ⊆ dom r1
  ∧ dom r1 = base_schema
             ∪ match listing_pro ad1 with Some _ => pro_schema | None => ∅ end
  ∧ defaults_for_missing ad1 r1
  ∧ (dom r1 = dom r2 ↔ (is_Some (listing_pro ad1) ↔ is_Some (listing_pro ad2))).
Proof.
  intros Hr1 Hr2.
  pose proof (dom_process_ad_try _ _ _ Hr1) as Hd1.
  pose proof (dom_process_ad_try _ _ _ Hr2) as Hd2.
  assert (base_schema ∪ pro_schema ≠ base_schema ∪ ∅) as Hne.
  { intros Heq.
    assert ("pro_siret"%string ∈ base_schema ∪ pro_schema) as Hin
      by (apply elem_of_union_r, pro_siret_pro).
    rewrite Heq in Hin. apply elem_of_union in Hin as [Hin|Hin].
    - by apply pro_siret_not_base.
    - by apply elem_of_empty in Hin. }
  split_and!.
  - rewrite Hd1. apply union_subseteq_l.
  - exact Hd1.
  - by eapply process_ad_defaults.
  - rewrite Hd1, Hd2.
    destruct (listing_pro ad1), (listing_pro ad2); split.
    + intros _. split; intros _; by eexists.
    + reflexivity.
    + intros Heq. by destruct (Hne Heq).
    + intros [Hs _]. destruct Hs as [? Hs]; [by eexists | discriminate Hs].
    + intros Heq. by destruct (Hne (eq_sym Heq)).
    + intros [_ Hs]. destruct Hs as [? Hs]; [by eexists | discriminate Hs].
    + intros _. split; intros [? Hs]; discriminate Hs.
    + reflexivity.
Qed.

Lemma C2_record_schema_witness :
  dom (_process_ad (H := ascii_default) noon private_listing) = base_schema
  ∧ _process_ad (H := ascii_default) noon private_listing !! "city"%string
    = Some empty_str.
Proof.
  destruct (C2_record_schema (H := ascii_default) noon noon
              private_listing pro_listing _ _
              (process_ad_no_raise noon private_listing _ eq_refl)
              (process_ad_no_raise noon pro_listing _ eq_refl))
    as (_ & Hdom & Hdef & _).
  split.
  - rewrite Hdom. change (listing_pro private_listing) with (@None Pro).
    apply (right_id_L ∅ (∪)).
  - destruct Hdef as (_ & _ & Hloc & _). apply Hloc. reflexivity.
Defined.

(** ** Description *)

(** C10.  In every record normalized without error, the description is
    the body cut to its first 500 characters, hence no longer than 500
    characters, and the empty string when the listing has no body.  (An
    error record has no description field.) *)
Theorem C10_description_truncated `{Interpreter} scraped_at ad r :
  process_ad_try scraped_at ad = inr r →
  r !! "description"%string
  = Some (VStr (match ad_body ad with
                | Some body => take 500 body
                | None => []
                end))
  ∧ (∀ d, r !! "description"%string = Some (VStr d) → (length d ≤ 500)%nat).
Proof.
  intros Hr.
  assert (r !! "description"%string
          = Some (VStr (description_of (ad_body ad)))) as Hd.
  { destruct (ad_user ad) as [e|user] eqn:Hu.
    - pose proof (process_ad_try_cases scraped_at ad) as Hc.
      rewrite Hu in Hc. congruence.
    - by rewrite (process_ad_try_lookup _ _ _ _ _ Hu Hr) by compute_done. }
  assert (description_of (ad_body ad)
          = match ad_body ad with Some body => take 500 body | None => [] end) as He.
  { by destruct (ad_body ad) as [[|c body]|]. }
  split.
  - by rewrite Hd, He.
  - intros d. rewrite Hd, He. intros [= <-].
    destruct (ad_body ad) as [body|]; [| simpl; lia].
    rewrite length_take. lia.
Qed.

Lemma C10_description_truncated_witness :
  _process_ad (H := ascii_default) noon private_listing !! "description"%string
  = Some (VStr (py "Bureau lumineux")).
Proof.
  apply (C10_description_truncated (H := ascii_default) noon private_listing _
           (process_ad_no_raise noon private_listing _ eq_refl)).
Defined.

(** ** The normalizer boundary *)

(** Reading the user of a listing is the extraction of the seller
    fields.  When it fails, the failure is not kept to those fields:
    the listing has a subject, a body and a price, yet its record has
    no ["title"], no ["description"] and no ["price"]; only ["id"] and
    ["error"] are left. *)
Lemma C6_user_failure_loses_every_field :
  ad_user broken_listing = inl (ClientError (py "Datadome"))
  ∧ ad_subject broken_listing = VStr (py "Entrepot")
  ∧ ad_body broken_listing = Some (py "Grand entrepot")
  ∧ ad_price broken_listing = VFloat 90000
  ∧ _process_ad (H := ascii_default) noon broken_listing !! "title"%string = None
  ∧ _process_ad (H := ascii_default) noon broken_listing !! "description"%string
    = None
  ∧ _process_ad (H := ascii_default) noon broken_listing !! "price"%string = None
  ∧ _process_ad (H := ascii_default) noon broken_listing !! "seller_name"%string
    = None
  ∧ _process_ad (H := ascii_default) noon broken_listing !! "id"%string
    = Some (VInt 3)
  ∧ _process_ad (H := ascii_default) noon broken_listing !! "error"%string
    = Some (VStr (py "Datadome")).
Proof. split_and!; reflexivity. Qed.

(** C6.  [_process_ad] returns one record for every listing and never
    raises.  When the body of its [try] raises (which only reading the
    user can do), the failure is total: the record is the minimal one,
    with the identifier of the listing under ["id"], the error text
    under ["error"] and no other field.  Otherwise the record has no
    ["error"] key and carries the identifier, the subject and the price
    of the listing.  A source the listing lacks (body, favorites,
    location, user, images, attributes under every candidate key, a
    surface no candidate key gives an integer for) gives the default of
    its own fields, and the location, the body and the images show in
    their own fields only.  The rows of the export are the records
    without ["error"] key, so every error record is left out, and the
    file written holds exactly these rows. *)
Theorem C6_normalizer_never_raises `{Interpreter} :
  (∀ scraped_at ad,
     match ad_user ad with
     | inr _ =>
         process_ad_try scraped_at ad = inr (_process_ad scraped_at ad)
         ∧ _process_ad scraped_at ad !! "error"%string = None
         ∧ _process_ad scraped_at ad !! "id"%string = Some (ad_id ad)
         ∧ _process_ad scraped_at ad !! "title"%string = Some (ad_subject ad)
         ∧ _process_ad scraped_at ad !! "price"%string = Some (ad_price ad)
     | inl e =>
         process_ad_try scraped_at ad = inl e
         ∧ _process_ad scraped_at ad = error_record ad e
         ∧ _process_ad scraped_at ad !! "id"%string = Some (ad_id ad)
         ∧ _process_ad scraped_at ad !! "error"%string = Some (VStr (exn_str e))
         ∧ ∀ k, k ≠ "id"%string → k ≠ "error"%string →
                _process_ad scraped_at ad !! k = None
     end)
  ∧ (∀ ad e,
       error_record ad e !! "id"%string = Some (ad_id ad)
       ∧ error_record ad e !! "error"%string = Some (VStr (exn_str e)))
  ∧ (∀ scraped_at ad r,
       process_ad_try scraped_at ad = inr r → defaults_for_missing ad r)
  ∧ (∀ scraped_at ad l k,
       k ∉ location_fields →
       _process_ad scraped_at (with_location ad l) !! k
       = _process_ad scraped_at ad !! k)
  ∧ (∀ scraped_at ad b k,
       k ≠ "description"%string →
       _process_ad scraped_at (with_body ad b) !! k
       = _process_ad scraped_at ad !! k)
  ∧ (∀ scraped_at ad i k,
       k ∉ image_fields →
       _process_ad scraped_at (with_images ad i) !! k
       = _process_ad scraped_at ad !! k)
  ∧ (∀ include_raw_attributes data,
       csv_rows include_raw_attributes data
       = csv_row include_raw_attributes
           <$> filter (λ r : gmap string pyval, r !! "error"%string = None) data)
  ∧ (∀ include_raw_attributes data row,
       row ∈ csv_rows include_raw_attributes data →
       row !! "error"%string = None)
  ∧ (∀ self fs filename city include_raw_attributes timestamp name fs',
       save_to_csv self fs filename city include_raw_attributes timestamp
       = (inr name, fs') →
       fs' !! name
       = Some (File (CsvTable
                       (csv_rows include_raw_attributes (scraped_data self))))
       ∧ Forall (λ row, row !! "error"%string = None)
           (csv_rows include_raw_attributes (scraped_data self))).
Proof.
  split_and!.
  - intros scraped_at ad. destruct (ad_user ad) as [e|user] eqn:Hu.
    + assert (_process_ad scraped_at ad = error_record ad e) as Hr.
      { unfold _process_ad, process_ad_try. by rewrite Hu. }
      split_and!; [| done | by rewrite Hr | by rewrite Hr |].
      * unfold process_ad_try. by rewrite Hu.
      * intros k Hid Herr. rewrite Hr. unfold error_record. simpl.
        rewrite lookup_insert_ne by done. rewrite lookup_insert_ne by done.
        apply lookup_empty.
    + pose proof (process_ad_no_raise scraped_at ad user Hu) as Hr.
      pose proof (λ k, process_ad_try_lookup scraped_at ad user _ k Hu Hr) as Hl.
      split_and!; [done | by eapply process_ad_error_free | | |];
        rewrite Hl by compute_done; reflexivity.
  - intros ad e. by split.
  - intros scraped_at ad r. apply process_ad_defaults.
  - intros scraped_at ad l k. apply location_fields_only.
  - intros scraped_at ad b k. apply description_field_only.
  - intros scraped_at ad i k. apply image_fields_only.
  - apply csv_rows_filter.
  - apply csv_rows_no_error.
  - intros self fs filename city inc timestamp name fs' Hsave.
    apply save_to_csv_inr in Hsave as [_ Hfile]. split; [done |].
    apply Forall_forall. intros row. apply csv_rows_no_error.
Qed.

Lemma C6_normalizer_never_raises_witness :
  _process_ad (H := ascii_default) noon broken_listing
  = error_record broken_listing (ClientError (py "Datadome"))
  ∧ _process_ad (H := ascii_default) noon broken_listing !! "title"%string = None
  ∧ _process_ad (H := ascii_default) noon private_listing !! "title"%string
    = Some (ad_subject private_listing)
  ∧ _process_ad (H := ascii_default) noon private_listing !! "zipcode"%string
    = Some empty_str
  ∧ csv_rows false
      [error_record broken_listing (ClientError (py "Datadome"))] = [].
Proof.
  destruct (C6_normalizer_never_raises (H := ascii_default))
    as (Hone & _ & Hdef & _ & _ & _ & Hrows & _).
  split_and!.
  - apply (Hone noon broken_listing).
  - apply (Hone noon broken_listing); done.
  - apply (Hone noon private_listing).
  - destruct (Hdef noon private_listing _
                (process_ad_no_raise noon private_listing _ eq_refl))
      as (_ & _ & Hloc & _).
    apply Hloc. reflexivity.
  - rewrite Hrows. reflexivity.
Defined.

(** ** The pagination collector *)

Section CollectorFacts.
Context `{Interpreter}.
Variable client : SearchParams → exn + SearchResult.
Variable clock : nat → pystr.
Variable self : Scraper.
Variable c : Criteria.
Variable limit : Z.

(** One turn of the loop. *)
Lemma scrape_pages_step fuel page all_ads trace :
  scrape_pages client clock self c limit (S fuel) page all_ads trace =
  if page <=? limit then
    let trace1 := trace ++ [Search (search_params c page)] in
    match client (search_params c page) with
    | inl e => (Raised e, trace1)
    | inr result =>
        match ads result with
        | [] => (Returned all_ads, trace1)
        | _ :: _ =>
            if max_pages result <=? page
            then (Returned (process_page clock all_ads (ads result)), trace1)
            else scrape_pages client clock self c limit fuel (page + 1)
                   (process_page clock all_ads (ads result))
                   (if Qlt_le_dec 0 (delay self)
                    then trace1 ++ [Sleep (delay self)] else trace1)
        end
    end
  else (Returned all_ads, trace).
Proof. reflexivity. Qed.

Lemma requested_pages_app t1 t2 :
  requested_pages (t1 ++ t2) = requested_pages t1 ++ requested_pages t2.
Proof. apply omap_app. Qed.

Lemma requested_pages_after_search trace page :
  requested_pages
    (if Qlt_le_dec 0 (delay self)
     then (trace ++ [Search (search_params c page)]) ++ [Sleep (delay self)]
     else trace ++ [Search (search_params c page)])
  = requested_pages trace ++ [page].
Proof.
  destruct (Qlt_le_dec 0 (delay self)); rewrite !requested_pages_app;
    simpl; by rewrite ?app_nil_r.
Qed.

(** What every run of the loop does: it asks for consecutive pages
    from [page] on, none beyond [limit]; the client answered every
    page but possibly the last one asked; the run raises exactly when
    the client raises on that last page, with the same exception; and
    it runs out of fuel only when given less than the pages left. *)
Lemma scrape_pages_spec fuel : ∀ page all_ads trace r trace',
  scrape_pages client clock self c limit fuel page all_ads trace = (r, trace') →
  ∃ n : nat,
    requested_pages trace' = requested_pages trace ++ seqZ page (Z.of_nat n)
    ∧ (n = 0%nat ∨ page + Z.of_nat n - 1 ≤ limit)
    ∧ (∀ p, page ≤ p < page + Z.of_nat n - 1 →
         ∃ result, client (search_params c p) = inr result)
    ∧ (∀ e, r = Raised e ↔
         (0 < n)%nat
         ∧ client (search_params c (page + Z.of_nat n - 1)) = inl e)
    ∧ (∀ e, r = Raised e →
         last trace' = Some (Search (search_params c (page + Z.of_nat n - 1))))
    ∧ (r = OutOfFuel → (fuel < Z.to_nat (limit + 1 - page))%nat).
Proof.
  induction fuel as [|fuel IH]; intros page all_ads trace r trace'.
  - simpl. destruct (Z.leb_spec page limit) as [Hle|Hgt]; intros [= <- <-];
      exists 0%nat; rewrite app_nil_r;
      (split_and!; [done | by left | intros p; lia
                   | intros e; split; [done | intros [? _]; lia] | done | ]).
    + intros _. lia.
    + done.
  - rewrite scrape_pages_step.
    destruct (Z.leb_spec page limit) as [Hle|Hgt].
    2:{ intros [= <- <-]. exists 0%nat. rewrite app_nil_r.
        split_and!; [done | by left | intros p; lia
                    | intros e; split; [done | intros [? _]; lia] | done | done]. }
    cbv zeta.
    assert (∀ r0, r0 ≠ OutOfFuel →
              (∀ e, r0 = Raised e ↔ client (search_params c page) = inl e) →
              ∃ n : nat,
                requested_pages (trace ++ [Search (search_params c page)])
                = requested_pages trace ++ seqZ page (Z.of_nat n)
                ∧ (n = 0%nat ∨ page + Z.of_nat n - 1 ≤ limit)
                ∧ (∀ p, page ≤ p < page + Z.of_nat n - 1 →
                     ∃ result, client (search_params c p) = inr result)
                ∧ (∀ e, r0 = Raised e ↔
                     (0 < n)%nat
                     ∧ client (search_params c (page + Z.of_nat n - 1)) = inl e)
                ∧ (∀ e, r0 = Raised e →
                     last (trace ++ [Search (search_params c page)])
                     = Some (Search (search_params c (page + Z.of_nat n - 1))))
                ∧ (r0 = OutOfFuel → (S fuel < Z.to_nat (limit + 1 - page))%nat))
      as Hone.
    { intros r0 Hr0 Hraise. exists 1%nat. rewrite requested_pages_app.
      replace (page + Z.of_nat 1 - 1) with page by lia.
      split_and!; [done | right; lia | intros p; lia | | | done].
      - intros e. rewrite Hraise. split; [by split; [lia |] | by intros [_ ?]].
      - intros e _. apply last_snoc. }
    destruct (client (search_params c page)) as [e|result] eqn:Hclient.
    { intros [= <- <-]. apply Hone; [done |].
      intros e'. split; congruence. }
    destruct (ads result) as [|ad page_ads] eqn:Hads.
    { intros [= <- <-]. apply Hone; [done |]. intros e'. split; congruence. }
    destruct (Z.leb_spec (max_pages result) page) as [Hlast|Hmore].
    { intros [= <- <-]. apply Hone; [done |]. intros e'. split; congruence. }
    intros Hrun.
    apply IH in Hrun as (n & Hreq & Hbound & Hanswered & Hraise & Hlast' & Hfuel).
    exists (S n). rewrite requested_pages_after_search in Hreq.
    split_and!.
    + rewrite Hreq, <- app_assoc. f_equal.
      rewrite Nat2Z.inj_succ, (seqZ_cons page) by lia. simpl. do 2 f_equal; lia.
    + right. destruct Hbound as [->|Hb]; lia.
    + intros p Hp. destruct (decide (p = page)) as [->|Hne]; [by eexists |].
      apply Hanswered. lia.
    + intros e. rewrite Hraise.
      replace (page + 1 + Z.of_nat n - 1) with (page + Z.of_nat (S n) - 1) by lia.
      split; intros [Hn Hc]; (split; [| done]); [lia |].
      destruct n as [|n]; [| lia].
      replace (page + Z.of_nat 1 - 1) with page in Hc by lia. congruence.
    + intros e He. rewrite (Hlast' e He). do 3 f_equal. lia.
    + intros Hr. specialize (Hfuel Hr). lia.
Qed.

(** The fuel given by [search_bureaux_commerces] is enough. *)
Lemma scrape_pages_enough_fuel all_ads trace :
  (scrape_pages client clock self c limit (Z.to_nat limit) 1 all_ads trace).1
  ≠ OutOfFuel.
Proof.
  destruct (scrape_pages _ _ _ _ _ _ _ _ _) as [r trace'] eqn:Hrun.
  apply scrape_pages_spec in Hrun as (n & _ & _ & _ & _ & _ & Hfuel).
  simpl. intros Hr. specialize (Hfuel Hr). lia.
Qed.

Lemma search_run_spec r self' trace :
  search_bureaux_commerces client clock self c limit = (r, self', trace) →
  r ≠ OutOfFuel
  ∧ ∃ n : nat,
      requested_pages trace = seqZ 1 (Z.of_nat n)
      ∧ Z.of_nat n ≤ Z.max 0 limit
      ∧ (∀ p, 1 ≤ p < Z.of_nat n →
           ∃ result, client (search_params c p) = inr result)
      ∧ (∀ e, r = Raised e ↔
           (0 < n)%nat ∧ client (search_params c (Z.of_nat n)) = inl e)
      ∧ (∀ e, r = Raised e →
           self' = self
           ∧ last trace = Some (Search (search_params c (Z.of_nat n))))
      ∧ (∀ all_ads, r = Returned all_ads →
           self' = {| delay := delay self; scraped_data := all_ads |}).
Proof.
  unfold search_bureaux_commerces.
  pose proof (scrape_pages_enough_fuel [] []) as Hfuel.
  destruct (scrape_pages _ _ _ _ _ _ _ _ _) as [r0 trace0] eqn:Hrun.
  apply scrape_pages_spec in Hrun
    as (n & Hreq & Hbound & Hanswered & Hraise & Hlast & _).
  simpl in Hfuel, Hreq.
  intros Heq.
  assert (r = r0 ∧ trace = trace0
          ∧ (∀ e, r0 = Raised e → self' = self)
          ∧ (∀ all_ads, r0 = Returned all_ads →
               self' = {| delay := delay self; scraped_data := all_ads |}))
    as (-> & -> & Hself & Hret).
  { destruct r0; injection Heq as <- <- <-; split_and!; congruence. }
  split; [done |]. exists n.
  replace (1 + Z.of_nat n - 1) with (Z.of_nat n) in * by lia.
  split_and!; [done | lia | intros p Hp; apply Hanswered; lia | done | | done].
  intros e He. split; [by apply (Hself e) | by apply (Hlast e)].
Qed.
End CollectorFacts.

(** C5.  Whatever the client answers, and whatever last page it
    reports, every search call of a run asks for a page between 1 and
    the configured maximum. *)
Theorem C5_page_limit_respected `{Interpreter}
    (client : SearchParams → exn + SearchResult) (clock : nat → pystr)
    (self : Scraper) (c : Criteria) (limit : Z) :
  Forall (λ p, 1 ≤ p ≤ limit)
    (requested_pages (search_bureaux_commerces client clock self c limit).2).
Proof.
  destruct (search_bureaux_commerces client clock self c limit)
    as [[r self'] trace] eqn:Hrun.
  apply search_run_spec in Hrun as (_ & n & Hreq & Hbound & _).
  simpl. rewrite Hreq. apply Forall_forall. intros p Hp.
  apply elem_of_seqZ in Hp. lia.
Qed.

(** C7, as stated, fails: the client answers page 1 with one listing
    and raises on page 2.  The run raises that exception, and the one
    record gathered from page 1 is not handed to the caller: the
    scraper is left as it was, with an empty [scraped_data]. *)
Lemma C7_partial_records_are_lost :
  search_bureaux_commerces (H := ascii_default)
    failing_client still_clock fresh_scraper plain_criteria 5
  = (Raised (ClientError (py "timeout")),
     fresh_scraper,
     [Search (search_params plain_criteria 1); Sleep 3;
      Search (search_params plain_criteria 2)])
  ∧ scraped_data fresh_scraper = []
  ∧ length (process_page (H := ascii_default) still_clock [] [private_listing])
    = 1%nat.
Proof.
  split_and!; [| done | done].
  unfold search_bureaux_commerces. change (Z.to_nat 5) with 5%nat.
  rewrite !scrape_pages_step. reflexivity.
Qed.

(** C7 (amended).  When the client raises on a page of the run, the
    error is not retried and ends the run: the pages asked are 1, 2,
    ... up to the failing page, each once, the failing search is the
    last event, and the call raises the exception of the client.  The
    records gathered from the earlier pages are not handed over: the
    scraper is left as it was before the call, [scraped_data]
    included. *)
Theorem C7_client_error_aborts `{Interpreter}
    (client : SearchParams → exn + SearchResult) (clock : nat → pystr)
    (self : Scraper) (c : Criteria) (limit : Z) r self' trace p e :
  search_bureaux_commerces client clock self c limit = (r, self', trace) →
  p ∈ requested_pages trace →
  client (search_params c p) = inl e →
  r = Raised e
  ∧ self' = self
  ∧ scraped_data self' = scraped_data self
  ∧ requested_pages trace = seqZ 1 p
  ∧ last trace = Some (Search (search_params c p)).
Proof.
  intros Hrun Hp Hclient.
  apply search_run_spec in Hrun
    as (_ & n & Hreq & _ & Hanswered & Hraise & Hself & _).
  rewrite Hreq in Hp. apply elem_of_seqZ in Hp.
  assert (p = Z.of_nat n) as ->.
  { destruct (decide (p = Z.of_nat n)) as [|Hne]; [done |].
    destruct (Hanswered p) as [result Hres]; [lia | congruence]. }
  assert (r = Raised e) as -> by (apply Hraise; split; [lia | done]).
  destruct (Hself e eq_refl) as [-> Hlast]. done.
Qed.

Lemma C7_client_error_aborts_witness :
  (search_bureaux_commerces (H := ascii_default)
     failing_client still_clock fresh_scraper plain_criteria 5).1.1
  = Raised (ClientError (py "timeout")).
Proof.
  destruct (search_bureaux_commerces (H := ascii_default)
              failing_client still_clock fresh_scraper plain_criteria 5)
    as [[r self'] trace] eqn:Hrun.
  assert (trace = [Search (search_params plain_criteria 1); Sleep 3;
                   Search (search_params plain_criteria 2)]) as Htrace.
  { revert Hrun. unfold search_bureaux_commerces. change (Z.to_nat 5) with 5%nat.
    rewrite !scrape_pages_step. intros Hrun. injection Hrun as _ _ <-. reflexivity. }
  apply (C7_client_error_aborts (H := ascii_default) _ _ _ _ _ _ _ _ 2
           (ClientError (py "timeout")) Hrun).
  - rewrite Htrace. simpl. apply list_elem_of_further, list_elem_of_here.
  - reflexivity.
Defined.

(** The run follows the last page the library reports.  The client
    holds two listings on page 1, two on page 2 and none on page 3,
    and the maximum is 5 pages; the library reports page 2 as the last
    one.  The run then ends after page 2, as line 130 has it: page 3
    is never asked for, although the four records are collected. *)
Lemma C4_reported_last_page_stops_run :
  two_full_pages 2 (search_params plain_criteria 1)
  = inr {| ads := [private_listing; pro_listing]; max_pages := 2 |}
  ∧ two_full_pages 2 (search_params plain_criteria 2)
    = inr {| ads := [pro_listing; private_listing]; max_pages := 2 |}
  ∧ two_full_pages 2 (search_params plain_criteria 3)
    = inr {| ads := []; max_pages := 2 |}
  ∧ requested_pages
      (search_bureaux_commerces (H := ascii_default)
         (two_full_pages 2) still_clock fresh_scraper plain_criteria 5).2
    = [1; 2]
  ∧ ¬ 3 ∈ requested_pages
      (search_bureaux_commerces (H := ascii_default)
         (two_full_pages 2) still_clock fresh_scraper plain_criteria 5).2
  ∧ length (scraped_data
      (search_bureaux_commerces (H := ascii_default)
         (two_full_pages 2) still_clock fresh_scraper plain_criteria 5).1.2)
    = 4%nat.
Proof.
  assert (requested_pages
            (search_bureaux_commerces (H := ascii_default)
               (two_full_pages 2) still_clock fresh_scraper plain_criteria 5).2
          = [1; 2]) as Hpages.
  { unfold search_bureaux_commerces. change (Z.to_nat 5) with 5%nat.
    rewrite !scrape_pages_step. reflexivity. }
  split; [reflexivity |]. split; [reflexivity |]. split; [reflexivity |].
  split; [exact Hpages |]. split.
  - rewrite Hpages. intros Hin.
    repeat (apply elem_of_cons in Hin as [Hin|Hin]; [lia |]).
    by apply elem_of_nil in Hin.
  - unfold search_bureaux_commerces. change (Z.to_nat 5) with 5%nat.
    rewrite !scrape_pages_step. reflexivity.
Qed.

(** C4.  The client holds two listings on page 1, two on page 2 and
    none on page 3, the maximum is 5 pages, and the last page the
    library reports lies beyond the page it answers (more than 1 with
    page 1, more than 2 with page 2).  Then the run returns exactly
    four records, those of page 1 then those of page 2, each page in
    its own order; it stores them in [scraped_data]; and the pages
    asked are 1, 2, 3, so the run stops after page 3 and page 4 is
    never requested. *)
Theorem C4_three_pages_scenario `{Interpreter}
    (client : SearchParams → exn + SearchResult) (clock : nat → pystr)
    (self : Scraper) (c : Criteria) a1 a2 b1 b2 m1 m2 m3 r self' trace :
  client (search_params c 1) = inr {| ads := [a1; a2]; max_pages := m1 |} →
  client (search_params c 2) = inr {| ads := [b1; b2]; max_pages := m2 |} →
  client (search_params c 3) = inr {| ads := []; max_pages := m3 |} →
  1 < m1 → 2 < m2 →
  search_bureaux_commerces client clock self c 5 = (r, self', trace) →
  r = Returned [ _process_ad (clock 0%nat) a1; _process_ad (clock 1%nat) a2;
                 _process_ad (clock 2%nat) b1; _process_ad (clock 3%nat) b2 ]
  ∧ scraped_data self'
    = [ _process_ad (clock 0%nat) a1; _process_ad (clock 1%nat) a2;
        _process_ad (clock 2%nat) b1; _process_ad (clock 3%nat) b2 ]
  ∧ requested_pages trace = [1; 2; 3]
  ∧ 4 ∉ requested_pages trace.
Proof.
  intros H1 H2 H3 Hm1 Hm2 Hrun.
  revert Hrun. unfold search_bureaux_commerces. change (Z.to_nat 5) with 5%nat.
  rewrite scrape_pages_step. change (1 <=? 5) with true. cbv beta iota zeta.
  rewrite H1. cbn [ads max_pages].
  destruct (Z.leb_spec m1 1) as [Hle1|_]; [lia |].
  rewrite scrape_pages_step. change (1 + 1 <=? 5) with true. cbv beta iota zeta.
  change (1 + 1) with 2. rewrite H2. cbn [ads max_pages].
  destruct (Z.leb_spec m2 2) as [Hle2|_]; [lia |].
  rewrite scrape_pages_step. change (2 + 1 <=? 5) with true. cbv beta iota zeta.
  change (2 + 1) with 3. rewrite H3. cbn [ads].
  intros [= <- <- <-].
  assert (∀ l : list Z, l = [1; 2; 3] → 4 ∉ l) as Hlong.
  { intros l -> Hin. repeat (apply elem_of_cons in Hin as [Hin|Hin]; [lia |]).
    by apply elem_of_nil in Hin. }
  destruct (Qlt_le_dec 0 (delay self)); split_and!; try reflexivity;
    by apply Hlong.
Qed.

Lemma C4_three_pages_scenario_witness :
  requested_pages
    (search_bureaux_commerces (H := ascii_default)
       (two_full_pages 3) still_clock fresh_scraper plain_criteria 5).2
  = [1; 2; 3]
  ∧ length (scraped_data
      (search_bureaux_commerces (H := ascii_default)
         (two_full_pages 3) still_clock fresh_scraper plain_criteria 5).1.2)
    = 4%nat.
Proof.
  destruct (search_bureaux_commerces (H := ascii_default)
              (two_full_pages 3) still_clock fresh_scraper plain_criteria 5)
    as [[r self'] trace] eqn:Hrun.
  destruct (C4_three_pages_scenario (H := ascii_default) _ _ _ _
              private_listing pro_listing pro_listing private_listing 3 3 3
              _ _ _ eq_refl eq_refl eq_refl eq_refl eq_refl Hrun)
    as (_ & Hdata & Hpages & _).
  split; [exact Hpages |]. simpl. rewrite Hdata. reflexivity.
Defined.

(** ** The export *)

(** C8.  On a scraper that holds no record, [save_to_csv] raises the
    [ValueError] "nothing to save" and leaves the file system as it
    was: no directory and no file is created. *)
Theorem C8_empty_export_fails (d : Q) (fs : gmap pystr node)
    (filename city : option pystr) (include_raw_attributes : bool)
    (timestamp : pystr) :
  save_to_csv {| delay := d; scraped_data := [] |} fs filename city
    include_raw_attributes timestamp
  = (inl (ValueError nothing_to_save), fs).
Proof. reflexivity. Qed.

(** The guard looks at the records held, not at the rows to write:
    a scraper holding error records only passes it and writes a table
    without rows. *)
Lemma error_records_only_export (e : exn) :
  save_to_csv {| delay := 3; scraped_data := [error_record broken_listing e] |}
    {[ data_dir := Dir ]} (Some (py "out.csv")) None false stamp
  = (inr (py "data/out.csv"),
     <[py "data/out.csv" := File (CsvTable [])]> {[ data_dir := Dir ]}).
Proof.
  unfold save_to_csv. cbn [scraped_data csv_rows].
  change (error_record broken_listing e !! "error"%string)
    with (Some (VStr (exn_str e))).
  reflexivity.
Qed.

(** An export onto an existing file replaces it. *)
Lemma save_to_csv_existing self fs filename city include_raw_attributes timestamp old :
  scraped_data self ≠ [] →
  fs !! target_path filename city timestamp = Some (File old) →
  save_to_csv self fs filename city include_raw_attributes timestamp
  = (inr (target_path filename city timestamp),
     <[target_path filename city timestamp :=
         File (CsvTable (csv_rows include_raw_attributes (scraped_data self)))]>
       (if path_exists fs data_dir then fs else <[data_dir := Dir]> fs)).
Proof.
  intros Hdata Hold. unfold save_to_csv.
  destruct (scraped_data self) as [|r data]; [done |].
  set (target := target_path filename city timestamp) in *.
  assert ((if path_exists fs data_dir then fs else <[data_dir := Dir]> fs)
            !! target = Some (File old)) as Hold'.
  { destruct (path_exists fs data_dir) eqn:Hex; [done |].
    rewrite lookup_insert_ne; [done |]. intros <-.
    unfold path_exists, data_dir in Hex. simpl in Hex.
    apply bool_decide_eq_false in Hex. apply Hex. by eexists. }
  unfold write_file. by rewrite Hold'.
Qed.

(** C3, as stated, fails: exporting under the name of an earlier
    export writes the new table under that very name; the earlier
    content is gone and no other name appears in the directory. *)
Lemma C3_export_overwrites :
  earlier_export !! py "data/report.csv" = Some (File (Text (py "id,title")))
  ∧ (save_to_csv one_record_scraper earlier_export
       (Some (py "report.csv")) None false stamp).1
    = inr (py "data/report.csv")
  ∧ (save_to_csv one_record_scraper earlier_export
       (Some (py "report.csv")) None false stamp).2 !! py "data/report.csv"
    = Some (File (CsvTable (csv_rows false (scraped_data one_record_scraper))))
  ∧ dom (save_to_csv one_record_scraper earlier_export
           (Some (py "report.csv")) None false stamp).2
    = dom earlier_export.
Proof.
  assert (earlier_export !! target_path (Some (py "report.csv")) None stamp
          = Some (File (Text (py "id,title")))) as Hold by reflexivity.
  rewrite (save_to_csv_existing one_record_scraper earlier_export _ None false
             stamp _ ltac:(done) Hold).
  change (target_path (Some (py "report.csv")) None stamp)
    with (py "data/report.csv") in *.
  change (path_exists earlier_export data_dir) with true.
  cbn [fst snd]. split_and!; [done | done | by rewrite lookup_insert_eq |].
  rewrite dom_insert_L. apply elem_of_dom_2 in Hold.
  apply (anti_symm (⊆)).
  - apply union_least; [by apply singleton_subseteq_l | done].
  - apply union_subseteq_r.
Qed.

(** C3 (amended).  When the file the export writes to already
    exists, the new table is written under that very name and replaces
    the earlier content; the name returned is the target itself; the
    data directory is created when missing and nothing else changes in
    the file system, so no renamed copy appears.  A name given by the
    caller is used as it is, whatever the time of the export. *)
Theorem C3_export_replaces_existing_file (self : Scraper)
    (fs : gmap pystr node) (filename city : option pystr)
    (include_raw_attributes : bool) (timestamp : pystr) (old : content) :
  scraped_data self ≠ [] →
  fs !! target_path filename city timestamp = Some (File old) →
  ∃ fs',
    save_to_csv self fs filename city include_raw_attributes timestamp
    = (inr (target_path filename city timestamp), fs')
    ∧ fs' !! target_path filename city timestamp
      = Some (File (CsvTable (csv_rows include_raw_attributes (scraped_data self))))
    ∧ (∀ p, p ≠ target_path filename city timestamp → p ≠ data_dir →
            fs' !! p = fs !! p)
    ∧ dom fs' = dom fs ∪ {[data_dir]}
    ∧ (truthy_str filename = true →
       ∀ timestamp', target_path filename city timestamp'
                     = target_path filename city timestamp).
Proof.
  intros Hdata Hold. eexists. split; [by eapply save_to_csv_existing |].
  set (target := target_path filename city timestamp) in *.
  split_and!.
  - by rewrite lookup_insert_eq.
  - intros p Hp Hd. rewrite lookup_insert_ne by done.
    destruct (path_exists fs data_dir); [done |]. by rewrite lookup_insert_ne.
  - rewrite dom_insert_L. apply elem_of_dom_2 in Hold as Hin.
    destruct (path_exists fs data_dir) eqn:Hex.
    + unfold path_exists, data_dir in Hex. simpl in Hex.
      apply bool_decide_eq_true, elem_of_dom in Hex. set_solver.
    + rewrite dom_insert_L. set_solver.
  - intros Hgiven timestamp'. subst target. unfold target_path.
    by rewrite Hgiven.
Qed.

Lemma C3_export_replaces_existing_file_witness :
  (save_to_csv one_record_scraper earlier_export
     (Some (py "report.csv")) None false stamp).1
  = inr (py "data/report.csv").
Proof.
  destruct (C3_export_replaces_existing_file one_record_scraper earlier_export
              (Some (py "report.csv")) None false stamp (Text (py "id,title")))
    as (fs' & Hsave & _).
  - discriminate.
  - reflexivity.
  - rewrite Hsave. reflexivity.
Defined.

(** ** The statistics *)





Lemma has_column_true col rows r :
  r ∈ rows → is_Some (r !! col) → has_column col rows = true.
Proof.
  intros Hr [v Hv]. unfold has_column. apply existsb_exists.
  exists r. split; [by apply list_elem_of_In | by rewrite Hv].
Qed.

Section StatisticsFacts.
Context `{Interpreter}.


Lemma seller_type_not_none user : notna (Some (VStr (seller_type_of user)))
                                  = Some (VStr (seller_type_of user)).
Proof. done. Qed.



End StatisticsFacts.




(** * Further properties *)

(** ** Records of a run *)

Section RunRecords.
Context `{Interpreter}.
Variable client : SearchParams → exn + SearchResult.
Variable clock : nat → pystr.
Variable self : Scraper.
Variable c : Criteria.
Variable limit : Z.

Lemma process_page_app all_ads l1 l2 :
  process_page clock (process_page clock all_ads l1) l2
  = process_page clock all_ads (l1 ++ l2).
Proof. unfold process_page. by rewrite foldl_app. Qed.

Lemma process_page_imap l : ∀ all_ads,
  process_page clock all_ads l
  = all_ads ++ imap (λ i ad, _process_ad (clock (length all_ads + i)%nat) ad) l.
Proof.
  induction l as [|ad l IH]; intros all_ads.
  - simpl. by rewrite app_nil_r.
  - change (process_page clock all_ads (ad :: l))
      with (process_page clock (all_ads ++ [_process_ad (clock (length all_ads)) ad]) l).
    rewrite IH, <- app_assoc. f_equal. rewrite imap_cons. simpl.
    rewrite Nat.add_0_r. f_equal. apply imap_ext. intros i x _. simpl.
    rewrite length_app. simpl. do 2 f_equal. lia.
Qed.

(** The records a run returns are those of the pages it asked for,
    page after page. *)
Lemma scrape_pages_records fuel : ∀ page all_ads trace out trace',
  scrape_pages client clock self c limit fuel page all_ads trace
  = (Returned out, trace') →
  ∃ n : nat,
    requested_pages trace' = requested_pages trace ++ seqZ page (Z.of_nat n)
    ∧ out = process_page clock all_ads
              (concat (page_ads client c <$> seqZ page (Z.of_nat n))).
Proof.
  induction fuel as [|fuel IH]; intros page all_ads trace out trace'.
  - simpl. destruct (page <=? limit); [done |]. intros [= <- <-].
    exists 0%nat. by rewrite app_nil_r.
  - rewrite scrape_pages_step. destruct (page <=? limit).
    2:{ intros [= <- <-]. exists 0%nat. by rewrite app_nil_r. }
    cbv zeta.
    destruct (client (search_params c page)) as [e|result] eqn:Hclient; [done |].
    assert (page_ads client c page = ads result) as Hpage
      by (unfold page_ads; by rewrite Hclient).
    assert (concat (page_ads client c <$> seqZ page (Z.of_nat 1)) = ads result)
      as Hone.
    { change (Z.of_nat 1) with 1. rewrite seqZ_cons by lia.
      simpl. by rewrite Hpage, app_nil_r. }
    destruct (ads result) as [|ad page_list] eqn:Hads.
    { intros [= <- <-]. exists 1%nat. rewrite requested_pages_app, Hone.
      by split. }
    rewrite <- Hads in *.
    destruct (max_pages result <=? page).
    { intros [= <- <-]. exists 1%nat. rewrite requested_pages_app, Hone.
      by split. }
    intros Hrun. apply IH in Hrun as (n & Hreq & Hout).
    exists (S n). rewrite requested_pages_after_search in Hreq. split.
    + rewrite Hreq, <- app_assoc. f_equal.
      rewrite Nat2Z.inj_succ, (seqZ_cons page) by lia. simpl. do 2 f_equal; lia.
    + rewrite Hout, process_page_app. f_equal.
      rewrite Nat2Z.inj_succ, (seqZ_cons page) by lia.
      rewrite fmap_cons. simpl. rewrite Hpage.
      replace (Z.succ page) with (page + 1) by lia.
      by replace (Z.pred (Z.succ (Z.of_nat n))) with (Z.of_nat n) by lia.
Qed.
End RunRecords.

(** X1.  One record per listing, in the order of the listings, the
    [i]-th one stamped with the [i]-th reading of the clock: appending
    a page to the records gathered so far keeps them as they are. *)
Theorem X1_process_page_order `{Interpreter} (clock : nat → pystr)
    (all_ads : list (gmap string pyval)) (page_list : list Ad) :
  process_page clock all_ads page_list
  = all_ads
    ++ imap (λ i ad, _process_ad (clock (length all_ads + i)%nat) ad) page_list
  ∧ length (process_page clock all_ads page_list)
    = (length all_ads + length page_list)%nat.
Proof.
  rewrite process_page_imap. split; [done |].
  by rewrite length_app, length_imap.
Qed.

(** X2.  Whatever the client answers, when a run returns, its records
    are the listings of the pages it asked for, page after page and in
    page order within a page, one record per listing, and they are
    what the scraper holds afterwards. *)
Theorem X2_records_follow_pages `{Interpreter}
    (client : SearchParams → exn + SearchResult) (clock : nat → pystr)
    (self : Scraper) (c : Criteria) (limit : Z) all_ads self' trace :
  search_bureaux_commerces client clock self c limit
  = (Returned all_ads, self', trace) →
  all_ads
  = imap (λ i ad, _process_ad (clock i) ad)
      (concat (page_ads client c <$> requested_pages trace))
  ∧ scraped_data self' = all_ads.
Proof.
  unfold search_bureaux_commerces.
  destruct (scrape_pages _ _ _ _ _ _ _ _ _) as [r trace0] eqn:Hrun.
  intros Heq. assert (r = Returned all_ads ∧ trace0 = trace
                      ∧ scraped_data self' = all_ads) as (-> & -> & Hdata).
  { destruct r; injection Heq; intros; by subst. }
  split; [| done].
  apply scrape_pages_records in Hrun as (n & Hreq & ->).
  simpl in Hreq. rewrite Hreq. by rewrite process_page_imap.
Qed.

Lemma X2_records_follow_pages_witness :
  ∃ all_ads self' trace,
    search_bureaux_commerces (H := ascii_default)
      (two_full_pages 3) still_clock fresh_scraper plain_criteria 5
    = (Returned all_ads, self', trace)
    ∧ length all_ads = 4%nat.
Proof.
  destruct (search_bureaux_commerces (H := ascii_default)
              (two_full_pages 3) still_clock fresh_scraper plain_criteria 5)
    as [[r self'] trace] eqn:Hrun.
  assert (∃ all_ads, r = Returned all_ads
                     ∧ requested_pages trace = [1; 2; 3]) as (all_ads & -> & Hreq).
  { revert Hrun. unfold search_bureaux_commerces. change (Z.to_nat 5) with 5%nat.
    rewrite !scrape_pages_step. intros Hrun. injection Hrun as <- _ <-.
    by eexists. }
  exists all_ads, self', trace. split; [done |].
  destruct (X2_records_follow_pages (H := ascii_default) _ _ _ _ _ _ _ _ Hrun)
    as [-> _].
  rewrite Hreq. reflexivity.
Defined.

(** ** Ends of a run *)

(** X3.  A run gathers nothing when the first page is empty or when
    the page limit is not positive: with an empty first page it stops
    after that one request, without waiting; with a limit of zero or
    less it does not call the client at all.  In both cases it returns
    the empty list and the scraper holds no record afterwards. *)
Theorem X3_run_without_records `{Interpreter}
    (client : SearchParams → exn + SearchResult) (clock : nat → pystr)
    (self : Scraper) (c : Criteria) (limit : Z) :
  (∀ result,
     1 ≤ limit →
     client (search_params c 1) = inr result → ads result = [] →
     search_bureaux_commerces client clock self c limit
     = (Returned [], {| delay := delay self; scraped_data := [] |},
        [Search (search_params c 1)]))
  ∧ (limit ≤ 0 →
     search_bureaux_commerces client clock self c limit
     = (Returned [], {| delay := delay self; scraped_data := [] |}, [])).
Proof.
  split.
  - intros result Hlimit Hclient Hads. unfold search_bureaux_commerces.
    destruct (Z.to_nat limit) as [|fuel] eqn:Hfuel; [lia |].
    rewrite scrape_pages_step.
    destruct (Z.leb_spec 1 limit); [| lia]. cbv zeta.
    by rewrite Hclient, Hads.
  - intros Hlimit. unfold search_bureaux_commerces.
    replace (Z.to_nat limit) with 0%nat by lia. simpl.
    by destruct (Z.leb_spec 1 limit); [lia |].
Qed.

Lemma X3_run_without_records_witness :
  search_bureaux_commerces (H := ascii_default)
    (two_full_pages 3) still_clock one_record_scraper plain_criteria 0
  = (Returned [], {| delay := 3; scraped_data := [] |}, []).
Proof.
  apply (X3_run_without_records (H := ascii_default)
           (two_full_pages 3) still_clock one_record_scraper plain_criteria 0).
  lia.
Defined.

(** X4.  Every run ends, by returning or by raising: the loop never
    needs more turns than the page limit.  The client is called at
    most [max 0 limit] times, and never twice for the same page. *)
Theorem X4_run_is_bounded `{Interpreter}
    (client : SearchParams → exn + SearchResult) (clock : nat → pystr)
    (self : Scraper) (c : Criteria) (limit : Z) :
  (search_bureaux_commerces client clock self c limit).1.1 ≠ OutOfFuel
  ∧ (length (requested_pages
               (search_bureaux_commerces client clock self c limit).2)
     ≤ Z.to_nat limit)%nat
  ∧ NoDup (requested_pages
             (search_bureaux_commerces client clock self c limit).2).
Proof.
  destruct (search_bureaux_commerces client clock self c limit)
    as [[r self'] trace] eqn:Hrun.
  apply search_run_spec in Hrun as (Hfuel & n & Hreq & Hbound & _).
  simpl. rewrite Hreq. split_and!; [done | | apply NoDup_seqZ].
  rewrite length_seqZ. lia.
Qed.

Section RunWaits.
Context `{Interpreter}.
Variable client : SearchParams → exn + SearchResult.
Variable clock : nat → pystr.
Variable self : Scraper.
Variable c : Criteria.
Variable limit : Z.

Lemma sleeps_app t1 t2 : sleeps (t1 ++ t2) = sleeps t1 ++ sleeps t2.
Proof. apply omap_app. Qed.

Lemma scrape_pages_sleeps fuel : ∀ page all_ads trace r trace',
  scrape_pages client clock self c limit fuel page all_ads trace = (r, trace') →
  ∃ n s : nat,
    requested_pages trace' = requested_pages trace ++ seqZ page (Z.of_nat n)
    ∧ sleeps trace' = sleeps trace ++ replicate s (delay self)
    ∧ (¬ (0 < delay self)%Q → s = 0%nat)
    ∧ (r ≠ OutOfFuel → (0 < delay self)%Q →
       S s = n ∨ (s = n ∧ limit < page + Z.of_nat n))
    ∧ (∀ e, r = Raised e → (0 < delay self)%Q → S s = n).
Proof.
  induction fuel as [|fuel IH]; intros page all_ads trace r trace'.
  - simpl. destruct (Z.leb_spec page limit) as [Hle|Hgt]; intros [= <- <-];
      exists 0%nat, 0%nat; rewrite !app_nil_r;
      (split_and!; [done | done | done | | done]).
    + done.
    + intros _ _. right. split; [done | lia].
  - rewrite scrape_pages_step.
    destruct (Z.leb_spec page limit) as [Hle|Hgt].
    2:{ intros [= <- <-]. exists 0%nat, 0%nat. rewrite !app_nil_r.
        split_and!; [done | done | done | | done].
        intros _ _. right. split; [done | lia]. }
    cbv zeta.
    assert (∃ n s : nat,
              requested_pages (trace ++ [Search (search_params c page)])
              = requested_pages trace ++ seqZ page (Z.of_nat n)
              ∧ sleeps (trace ++ [Search (search_params c page)])
                = sleeps trace ++ replicate s (delay self)
              ∧ (¬ (0 < delay self)%Q → s = 0%nat)
              ∧ S s = n) as Hone.
    { exists 1%nat, 0%nat. rewrite requested_pages_app, sleeps_app. simpl.
      by rewrite !app_nil_r. }
    assert (∀ r0 : outcome,
              ∃ n s : nat,
                requested_pages (trace ++ [Search (search_params c page)])
                = requested_pages trace ++ seqZ page (Z.of_nat n)
                ∧ sleeps (trace ++ [Search (search_params c page)])
                  = sleeps trace ++ replicate s (delay self)
                ∧ (¬ (0 < delay self)%Q → s = 0%nat)
                ∧ (r0 ≠ OutOfFuel → (0 < delay self)%Q →
                   S s = n ∨ (s = n ∧ limit < page + Z.of_nat n))
                ∧ (∀ e, r0 = Raised e → (0 < delay self)%Q → S s = n)) as Hstop.
    { intros r0. destruct Hone as (n & s & Hreq & Hs & Hz & Hn).
      exists n, s. split_and!; auto. }
    destruct (client (search_params c page)) as [e|result].
    { intros [= <- <-]. apply Hstop. }
    destruct (ads result) as [|ad page_list].
    { intros [= <- <-]. apply Hstop. }
    destruct (max_pages result <=? page).
    { intros [= <- <-]. apply Hstop. }
    clear Hone Hstop. intros Hrun.
    apply IH in Hrun as (n & s & Hreq & Hs & Hz & Hn & Hraise).
    rewrite requested_pages_after_search in Hreq.
    assert (requested_pages trace' = requested_pages trace ++ seqZ page (Z.of_nat (S n)))
      as Hreq'.
    { rewrite Hreq, <- app_assoc. f_equal.
      rewrite Nat2Z.inj_succ, (seqZ_cons page) by lia. simpl. do 2 f_equal; lia. }
    destruct (Qlt_le_dec 0 (delay self)) as [Hpos|Hnonpos].
    + exists (S n), (S s). rewrite !sleeps_app in Hs. simpl in Hs.
      rewrite app_nil_r, <- app_assoc in Hs.
      split_and!; [done | done | done | |].
      * intros Hr _. destruct (Hn Hr Hpos) as [<-|[-> Hlim]]; [by left |].
        right. split; [done | lia].
      * intros e He _. by rewrite (Hraise e He Hpos).
    + assert (¬ (0 < delay self)%Q) as Hnot by (by apply Qle_not_lt).
      exists (S n), s. rewrite sleeps_app in Hs. simpl in Hs.
      rewrite app_nil_r in Hs. split_and!; [done | done | done | done | done].
Qed.
Lemma seqZ_snoc (n : nat) :
  seqZ 1 (Z.of_nat (S n)) = seqZ 1 (Z.of_nat n) ++ [Z.of_nat (S n)].
Proof.
  replace (Z.of_nat (S n)) with (Z.of_nat n + 1) at 1 by lia.
  rewrite seqZ_app by lia. f_equal.
  change (seqZ (1 + Z.of_nat n) 1) with [0 + (1 + Z.of_nat n)].
  f_equal. lia.
Qed.

Lemma requested_pages_turns (l : list Z) :
  requested_pages (flat_map (turn_events client self c) l) = l.
Proof.
  induction l as [|p l IH]; [done |].
  simpl. rewrite requested_pages_app, IH. f_equal.
  destruct (goes_past client c p); [| done].
  by destruct (Qlt_le_dec 0 (delay self)).
Qed.

Lemma sleeps_turns (l : list Z) :
  (0 < delay self)%Q →
  (∀ p, p ∈ l → goes_past client c p = true) →
  sleeps (flat_map (turn_events client self c) l)
  = replicate (length l) (delay self).
Proof.
  intros Hpos. induction l as [|p l IH]; intros Hall; [done |].
  simpl. rewrite sleeps_app, IH
    by (intros q Hq; apply Hall; by apply list_elem_of_further).
  rewrite (Hall p) by apply list_elem_of_here.
  destruct (Qlt_le_dec 0 (delay self)) as [_|Hle]; [done |].
  by apply Qle_not_lt in Hle.
Qed.

(** The events of a run, turn by turn: the loop goes past every page
    it asks for but the last one, and it goes past the last one only
    when that page is the page limit. *)
Lemma scrape_pages_trace fuel : ∀ page all_ads trace r trace',
  scrape_pages client clock self c limit fuel page all_ads trace = (r, trace') →
  r ≠ OutOfFuel →
  ∃ n : nat,
    trace' = trace ++ flat_map (turn_events client self c)
                        (seqZ page (Z.of_nat n))
    ∧ (∀ p, page ≤ p < page + Z.of_nat n - 1 → goes_past client c p = true)
    ∧ (n = 0%nat → limit < page)
    ∧ ((0 < n)%nat → goes_past client c (page + Z.of_nat n - 1) = true →
       page + Z.of_nat n - 1 = limit).
Proof.
  induction fuel as [|fuel IH]; intros page all_ads trace r trace'.
  - simpl. destruct (Z.leb_spec page limit) as [Hle|Hgt]; intros [= <- <-];
      [done |]. intros _. exists 0%nat. rewrite app_nil_r.
    split_and!; [done | intros p Hp; lia | done | intros Hn; lia].
  - rewrite scrape_pages_step.
    destruct (Z.leb_spec page limit) as [Hle|Hgt].
    2:{ intros [= <- <-] _. exists 0%nat. rewrite app_nil_r.
        split_and!; [done | intros p Hp; lia | done | intros Hn; lia]. }
    cbv zeta.
    assert (goes_past client c page = false →
            ∃ n : nat,
              trace ++ [Search (search_params c page)]
              = trace ++ flat_map (turn_events client self c)
                           (seqZ page (Z.of_nat n))
              ∧ (∀ p, page ≤ p < page + Z.of_nat n - 1 →
                      goes_past client c p = true)
              ∧ (n = 0%nat → limit < page)
              ∧ ((0 < n)%nat →
                 goes_past client c (page + Z.of_nat n - 1) = true →
                 page + Z.of_nat n - 1 = limit)) as Hstop.
    { intros Hstay. exists 1%nat. split_and!.
      - change (seqZ page (Z.of_nat 1)) with [0 + page].
        rewrite Z.add_0_l. simpl. unfold turn_events. by rewrite Hstay.
      - intros p Hp. lia.
      - done.
      - intros _. replace (page + Z.of_nat 1 - 1) with page by lia.
        by rewrite Hstay. }
    unfold goes_past in Hstop at 1.
    destruct (client (search_params c page)) as [e|result] eqn:Hclient.
    { intros [= <- <-] _. by apply Hstop. }
    destruct (ads result) as [|ad page_list] eqn:Hads.
    { intros [= <- <-] _. by apply Hstop. }
    destruct (max_pages result <=? page) eqn:Hlast.
    { intros [= <- <-] _. by apply Hstop. }
    clear Hstop. intros Hrun Hfuel.
    assert (goes_past client c page = true) as Hgo.
    { unfold goes_past. by rewrite Hclient, Hads, Hlast. }
    apply IH in Hrun as (n & Htrace & Hmid & Hnone & Hend); [| done].
    exists (S n). split_and!.
    + rewrite Htrace, Nat2Z.inj_succ, (seqZ_cons page) by lia.
      replace (Z.pred (Z.succ (Z.of_nat n))) with (Z.of_nat n) by lia.
      replace (Z.succ page) with (page + 1) by lia.
      cbn [flat_map].
      assert (turn_events client self c page
              = Search (search_params c page)
                :: (if Qlt_le_dec 0 (delay self)
                    then [Sleep (delay self)] else [])) as ->
        by (unfold turn_events; by rewrite Hgo).
      destruct (Qlt_le_dec 0 (delay self));
        by rewrite <- ?app_assoc.
    + intros p Hp. destruct (decide (p = page)) as [->|Hne]; [done |].
      apply Hmid. lia.
    + done.
    + intros _ Hgone.
      destruct n as [|n].
      * specialize (Hnone eq_refl). lia.
      * replace (page + Z.of_nat (S (S n)) - 1)
          with (page + 1 + Z.of_nat (S n) - 1) in * by lia.
        apply Hend; [lia | done].
Qed.
End RunWaits.

(** X5.  The events of a run are those of its turns, page after page:
    a search, followed by one wait of the configured delay when the
    delay is positive and the loop goes on after the page (the client
    answered it with a page that is neither empty nor the last one it
    reports).  The loop goes on after every page it asks for but the
    last; after the last one it goes on only when that page is the
    page limit, and the run then ends on a wait: it has waited as often
    as it has called the client.  In every other case (the client
    raised, the page was empty, the last page was reached) the run ends
    on its last search and has waited once less than it has called.
    With a delay of zero or less the run never waits. *)
Theorem X5_waits_of_a_run `{Interpreter}
    (client : SearchParams → exn + SearchResult) (clock : nat → pystr)
    (self : Scraper) (c : Criteria) (limit : Z) r self' trace :
  search_bureaux_commerces client clock self c limit = (r, self', trace) →
  ∃ s : nat,
    sleeps trace = replicate s (delay self)
    ∧ (¬ (0 < delay self)%Q → s = 0%nat)
    ∧ ((0 < delay self)%Q →
       S s = length (requested_pages trace)
       ∨ (s = length (requested_pages trace) ∧ Z.of_nat s = Z.max 0 limit))
    ∧ (∀ e, r = Raised e → (0 < delay self)%Q →
       S s = length (requested_pages trace))
    ∧ trace = flat_map (turn_events client self c) (requested_pages trace)
    ∧ (∀ p, p ∈ requested_pages trace →
            last (requested_pages trace) ≠ Some p →
            goes_past client c p = true)
    ∧ (∀ p, last (requested_pages trace) = Some p →
            (0 < delay self)%Q →
            if goes_past client c p
            then p = limit
                 ∧ s = length (requested_pages trace)
                 ∧ last trace = Some (Sleep (delay self))
            else S s = length (requested_pages trace)
                 ∧ last trace = Some (Search (search_params c p))).
Proof.
  intros Hrun.
  pose proof (search_run_spec _ _ _ _ _ _ _ _ Hrun) as (Hfuel & m & Hm & Hbound & _).
  revert Hrun. unfold search_bureaux_commerces.
  destruct (scrape_pages _ _ _ _ _ _ _ _ _) as [r0 trace0] eqn:Hloop.
  intros Heq. assert (r0 = r ∧ trace0 = trace) as [-> ->]
    by (destruct r0; by injection Heq as <- <- <-).
  pose proof (scrape_pages_trace _ _ _ _ _ _ _ _ _ _ _ Hloop Hfuel)
    as (k & Htrace & Hmid & _ & Hend).
  apply scrape_pages_sleeps in Hloop as (n & s & Hreq & Hs & Hz & Hn & Hraise).
  simpl in Hreq, Hs. cbn [app] in Htrace.
  assert (length (requested_pages trace) = n) as Hlen
    by (rewrite Hreq, length_seqZ; lia).
  assert (m = n) as -> by (rewrite Hm, length_seqZ in Hlen; lia).
  assert (k = n) as ->.
  { pose proof (requested_pages_turns client self c (seqZ 1 (Z.of_nat k))) as Hk.
    rewrite <- Htrace, Hreq in Hk. apply (f_equal length) in Hk.
    rewrite !length_seqZ in Hk. lia. }
  assert (∀ p, last (seqZ 1 (Z.of_nat n)) = Some p →
               (0 < n)%nat ∧ p = Z.of_nat n
               ∧ seqZ 1 (Z.of_nat n) = seqZ 1 (Z.of_nat n - 1) ++ [p]) as Hlast.
  { intros p Hp. destruct n as [|n]; [done |].
    rewrite seqZ_snoc, last_snoc in Hp. injection Hp as <-.
    split_and!; [lia | done |]. rewrite seqZ_snoc. do 2 f_equal. lia. }
  exists s. rewrite Hlen, Hm. split_and!; [done | done | | done | | |].
  - intros Hpos. destruct (Hn Hfuel Hpos) as [?|[-> Hlim]]; [by left |].
    right. split; [done | lia].
  - rewrite Htrace at 1. reflexivity.
  - intros p Hp Hnot. apply elem_of_seqZ in Hp. apply Hmid.
    destruct (decide (p = Z.of_nat n)) as [->|Hne]; [| lia].
    destruct Hnot. destruct n as [|n]; [lia |].
    by rewrite seqZ_snoc, last_snoc.
  - intros p Hp Hpos. apply Hlast in Hp as (Hn0 & -> & Hsplit).
    assert (sleeps (flat_map (turn_events client self c)
                      (seqZ 1 (Z.of_nat n - 1)))
            = replicate (n - 1) (delay self)) as Hbefore.
    { rewrite sleeps_turns; [by rewrite length_seqZ; f_equal; lia | done |].
      intros q Hq. apply elem_of_seqZ in Hq. apply Hmid. lia. }
    rewrite Htrace, Hsplit, flat_map_app, sleeps_app, Hbefore in Hs.
    rewrite Htrace, Hsplit, flat_map_app.
    cbn [flat_map] in Hs |- *. rewrite app_nil_r in Hs |- *.
    apply (f_equal length) in Hs.
    rewrite length_app, !length_replicate in Hs.
    destruct (goes_past client c (Z.of_nat n)) eqn:Hgo.
    + assert (turn_events client self c (Z.of_nat n)
              = [Search (search_params c (Z.of_nat n)); Sleep (delay self)])
        as Hturn.
      { unfold turn_events. rewrite Hgo.
        destruct (Qlt_le_dec 0 (delay self)) as [_|Hle]; [done |].
        by apply Qle_not_lt in Hle. }
      rewrite Hturn in Hs |- *. simpl in Hs. split_and!.
      * rewrite <- (Hend Hn0); [lia |].
        by replace (1 + Z.of_nat n - 1) with (Z.of_nat n) by lia.
      * lia.
      * by rewrite last_app.
    + assert (turn_events client self c (Z.of_nat n)
              = [Search (search_params c (Z.of_nat n))]) as Hturn
        by (unfold turn_events; by rewrite Hgo).
      rewrite Hturn in Hs |- *. simpl in Hs. split; [lia |].
      by rewrite last_app.
Qed.

Lemma X5_waits_of_a_run_witness :
  sleeps (search_bureaux_commerces (H := ascii_default)
            (two_full_pages 3) still_clock fresh_scraper plain_criteria 2).2
  = [3%Q; 3%Q]
  ∧ last (search_bureaux_commerces (H := ascii_default)
            (two_full_pages 3) still_clock fresh_scraper plain_criteria 2).2
    = Some (Sleep 3).
Proof.
  destruct (search_bureaux_commerces (H := ascii_default)
              (two_full_pages 3) still_clock fresh_scraper plain_criteria 2)
    as [[r self'] trace] eqn:Hrun.
  assert (requested_pages trace = [1; 2]) as Hreq.
  { revert Hrun. unfold search_bureaux_commerces. change (Z.to_nat 2) with 2%nat.
    rewrite !scrape_pages_step. intros Hrun. injection Hrun as _ _ <-. reflexivity. }
  destruct (X5_waits_of_a_run (H := ascii_default) _ _ _ _ _ _ _ _ Hrun)
    as (s & Hs & _ & _ & _ & _ & _ & Hlast).
  rewrite Hreq in Hlast.
  destruct (Hlast 2 eq_refl eq_refl) as (_ & -> & Hend).
  split; [exact Hs | exact Hend].
Defined.

(** ** The attribute dict *)

Lemma collect_attributes_snoc attrs a :
  collect_attributes (attrs ++ [a])
  = match attribute_entry a with
    | Some (k, e) => <[k := e]> (collect_attributes attrs)
    | None => collect_attributes attrs
    end.
Proof.
  unfold collect_attributes. rewrite foldl_app. cbn [foldl]. unfold attribute_entry.
  destruct (attr_key a) as [k|]; [| done].
  destruct (attr_value a) as [v|]; [| done].
  by destruct (truthy_str (Some k) && truthy_str (Some v)).
Qed.

Lemma attribute_entry_truthy a k e :
  attribute_entry a = Some (k, e) →
  k ≠ [] ∧ e_value e ≠ [] ∧ e_label e ≠ []
  ∧ attr_key a = Some k ∧ attr_value a = Some (e_value e)
  ∧ (e_label e = e_value e ∨ attr_value_label a = Some (e_label e)).
Proof.
  unfold attribute_entry.
  destruct (attr_key a) as [[|c k']|], (attr_value a) as [[|d v']|];
    try done.
  simpl. intros [= <- <-]. simpl.
  destruct (attr_value_label a) as [[|l lbl]|]; simpl; split_and!; auto.
Qed.

(** X6.  The attribute dict holds an entry for a key exactly when
    some attribute of the listing has that key with a non-empty value;
    keys, values and labels in the dict are never empty, and a
    label is the attribute's label or, failing that, its value.  When a
    key comes several times the last usable attribute wins. *)
Theorem X6_attribute_dict (attrs : list Attribute) :
  (∀ k e, collect_attributes attrs !! k = Some e →
          k ≠ [] ∧ e_value e ≠ [] ∧ e_label e ≠ []
          ∧ ∃ a, a ∈ attrs ∧ attribute_entry a = Some (k, e))
  ∧ (∀ a k e, a ∈ attrs → attribute_entry a = Some (k, e) →
              is_Some (collect_attributes attrs !! k))
  ∧ (∀ before a after k e,
       attrs = before ++ a :: after →
       attribute_entry a = Some (k, e) →
       (∀ b k' e', b ∈ after → attribute_entry b = Some (k', e') → k' ≠ k) →
       collect_attributes attrs !! k = Some e).
Proof.
  split_and!.
  - induction attrs as [|a attrs IH] using rev_ind; intros k e.
    + unfold collect_attributes. simpl. by rewrite lookup_empty.
    + rewrite collect_attributes_snoc.
      assert (collect_attributes attrs !! k = Some e →
              k ≠ [] ∧ e_value e ≠ [] ∧ e_label e ≠ []
              ∧ ∃ a0, a0 ∈ attrs ++ [a] ∧ attribute_entry a0 = Some (k, e)) as Hold.
      { intros Hk. destruct (IH k e Hk) as (? & ? & ? & a0 & Hin & Ha0).
        split_and!; try done. exists a0. split; [| done].
        apply elem_of_app. by left. }
      destruct (attribute_entry a) as [[k0 e0]|] eqn:Ha; [| done].
      destruct (decide (k0 = k)) as [->|Hne].
      * rewrite lookup_insert_eq. intros [= ->].
        destruct (attribute_entry_truthy _ _ _ Ha) as (? & ? & ? & _).
        split_and!; try done. exists a. split; [| done].
        apply elem_of_app. right. apply list_elem_of_singleton. done.
      * by rewrite lookup_insert_ne.
  - induction attrs as [|a0 attrs IH] using rev_ind; intros a k e Hin Ha.
    + by apply elem_of_nil in Hin.
    + rewrite collect_attributes_snoc.
      apply elem_of_app in Hin as [Hin|Hin].
      * specialize (IH a k e Hin Ha).
        destruct (attribute_entry a0) as [[k0 e0]|]; [| done].
        destruct (decide (k0 = k)) as [->|Hne].
        -- rewrite lookup_insert_eq. by eexists.
        -- by rewrite lookup_insert_ne.
      * apply list_elem_of_singleton in Hin as ->. rewrite Ha.
        rewrite lookup_insert_eq. by eexists.
  - intros before a after. revert attrs.
    induction after as [|b after IH] using rev_ind; intros attrs k e -> Ha Hlater.
    + rewrite collect_attributes_snoc, Ha. by rewrite lookup_insert_eq.
    + replace (before ++ a :: after ++ [b]) with ((before ++ a :: after) ++ [b])
        by (by rewrite <- app_assoc).
      rewrite collect_attributes_snoc.
      assert (collect_attributes (before ++ a :: after) !! k = Some e) as Hk.
      { apply IH; [done | done |]. intros b0 k' e' Hin. apply Hlater.
        apply elem_of_app. by left. }
      destruct (attribute_entry b) as [[k0 e0]|] eqn:Hb; [| done].
      rewrite lookup_insert_ne; [done |].
      apply (Hlater b k0 e0); [| done].
      apply elem_of_app. right. by apply list_elem_of_singleton.
Qed.

Lemma X6_attribute_dict_witness :
  collect_attributes repeated_key !! py "square"
  = Some {| e_value := py "55"; e_label := py "55" |}.
Proof.
  destruct (X6_attribute_dict repeated_key) as (_ & _ & Hlast).
  apply (Hlast (take 2 repeated_key)
           {| attr_key := Some (py "square"); attr_value := Some (py "55");
              attr_value_label := None |} []).
  - reflexivity.
  - reflexivity.
  - intros b k' e' Hb. by apply elem_of_nil in Hb.
Defined.

(** ** Fields of a record *)

Section RecordFields.
Context `{Interpreter}.

Lemma digit_run_value_nonneg run : 0 ≤ digit_run_value run.
Proof.
  unfold digit_run_value.
  assert (∀ acc, 0 ≤ acc →
            0 ≤ foldl (λ acc c, 10 * acc
                                + Z.of_N (default 0%N (decimal_digit c))) acc run)
    as Hacc.
  { induction run as [|c run IH]; intros acc Hpos; simpl; [done |].
    apply IH. lia. }
  by apply Hacc.
Qed.

Lemma surface_at_nonneg attributes k n :
  surface_at attributes k = Some n → 0 ≤ n.
Proof.
  unfold surface_at, py_int.
  destruct (attributes !! k) as [e|]; [| done]. simpl.
  destruct (re_search_digits (e_value e)) as [run|]; [| done]. simpl.
  destruct (_ && _); [done |]. intros [= <-]. apply digit_run_value_nonneg.
Qed.
End RecordFields.

(** X7.  The surface read from the attributes is never negative,
    whatever the values hold: a sign in front of the digits is not
    read. *)
Theorem X7_surface_not_negative `{Interpreter}
    (attributes : gmap pystr entry) (n : Z) :
  _extract_surface attributes = Some n → 0 ≤ n.
Proof.
  unfold _extract_surface. rewrite surface_scan_first.
  destruct (list_find _ surface_keys) as [[i k]|]; [| done].
  apply surface_at_nonneg.
Qed.

Lemma X7_surface_not_negative_witness :
  _extract_surface (H := ascii_default)
    {[ py "square" := {| e_value := py "-12.5"; e_label := py "-12.5" |} ]}
  = Some 12 ∧ 0 ≤ 12.
Proof.
  split; [reflexivity |].
  apply (X7_surface_not_negative (H := ascii_default)
           {[ py "square" := {| e_value := py "-12.5"; e_label := py "-12.5" |} ]}).
  reflexivity.
Defined.

(** X8.  In every record normalized without error the seller type is
    ["pro"] or ["particulier"], and it is ["pro"] exactly when the
    listing has a user whose [is_pro] flag is set. *)
Theorem X8_seller_type `{Interpreter} scraped_at ad r :
  process_ad_try scraped_at ad = inr r →
  (r !! "seller_type"%string = Some (VStr (py "pro"))
   ∨ r !! "seller_type"%string = Some (VStr (py "particulier")))
  ∧ (r !! "seller_type"%string = Some (VStr (py "pro"))
     ↔ ∃ u, ad_user ad = inr (Some u) ∧ user_is_pro u = Some true).
Proof.
  intros Hr. destruct (ad_user ad) as [e|user] eqn:Hu.
  { pose proof (process_ad_try_cases scraped_at ad) as Hc.
    rewrite Hu in Hc. congruence. }
  rewrite (process_ad_try_lookup _ _ _ _ _ Hu Hr) by compute_done.
  change (base_record scraped_at ad user (collect_attributes (ad_attributes ad))
            !! "seller_type"%string)
    with (Some (VStr (seller_type_of user))).
  destruct user as [u|]; simpl.
  - destruct (user_is_pro u) as [[|]|] eqn:Hp; simpl.
    + split; [by left |]. split; [| done]. intros _. by exists u.
    + split; [by right |]. split; [done |]. intros (u' & [= <-] & Hp').
      congruence.
    + split; [by right |]. split; [done |]. intros (u' & [= <-] & Hp').
      congruence.
  - split; [by right |]. split; [done |]. by intros (u' & [=] & _).
Qed.

Lemma X8_seller_type_witness :
  _process_ad (H := ascii_default) noon pro_listing !! "seller_type"%string
  = Some (VStr (py "pro")).
Proof.
  destruct (X8_seller_type (H := ascii_default) noon pro_listing _
              (process_ad_no_raise noon pro_listing _ eq_refl)) as [_ Hpro].
  apply Hpro. eexists. split; reflexivity.
Defined.

(** X9.  The time of normalization shows in the field [scraped_at]
    and nowhere else: two normalizations of one listing agree on every
    other field, and an error record does not depend on the time at
    all. *)
Theorem X9_scraped_at_only `{Interpreter} (t1 t2 : pystr) (ad : Ad) :
  (∀ k, k ≠ "scraped_at"%string →
        _process_ad t1 ad !! k = _process_ad t2 ad !! k)
  ∧ (∀ r, process_ad_try t1 ad = inr r →
          r !! "scraped_at"%string = Some (VStr t1))
  ∧ (∀ e, ad_user ad = inl e → _process_ad t1 ad = _process_ad t2 ad).
Proof.
  split_and!.
  - intros k Hk. unfold _process_ad, process_ad_try.
    destruct (ad_user ad) as [e|user]; [done |].
    assert (k ∉ ["scraped_at"%string]) as Hk'
      by (by intros ?%list_elem_of_singleton).
    assert (base_record t1 ad user (collect_attributes (ad_attributes ad)) !! k
            = base_record t2 ad user (collect_attributes (ad_attributes ad)) !! k)
      as Hbase by same_literal_lookup Hk'.
    destruct (pro_profile user) as [pro|]; [| done].
    by rewrite !lookup_union, Hbase.
  - intros r Hr. destruct (ad_user ad) as [e|user] eqn:Hu.
    { pose proof (process_ad_try_cases t1 ad) as Hc. rewrite Hu in Hc. congruence. }
    by rewrite (process_ad_try_lookup _ _ _ _ _ Hu Hr) by compute_done.
  - intros e He. unfold _process_ad, process_ad_try. by rewrite He.
Qed.

Lemma X9_scraped_at_only_witness :
  _process_ad (H := ascii_default) noon private_listing !! "title"%string
  = _process_ad (H := ascii_default) stamp private_listing !! "title"%string.
Proof.
  destruct (X9_scraped_at_only (H := ascii_default) noon stamp private_listing)
    as [Hsame _].
  apply Hsame. discriminate.
Defined.

(** ** Rows and names of the export *)

(** X10.  Without [include_raw_attributes] no row of the export has
    the key [raw_attributes], and every other field of a record is
    written as it is; with it, the rows are the records themselves.
    Either way there is one row per record without error, in the order
    of the records. *)
Theorem X10_raw_attributes_column (data : list (gmap string pyval)) :
  (∀ row, row ∈ csv_rows false data → row !! "raw_attributes"%string = None)
  ∧ csv_rows false data = delete "raw_attributes"%string <$> csv_rows true data
  ∧ csv_rows true data
    = filter (λ r : gmap string pyval, r !! "error"%string = None) data
  ∧ (∀ include_raw_attributes,
       length (csv_rows include_raw_attributes data)
       = length (filter (λ r : gmap string pyval, r !! "error"%string = None) data))
  ∧ (∀ r k, k ≠ "raw_attributes"%string →
            csv_row false r !! k = r !! k).
Proof.
  assert (csv_rows true data
          = filter (λ r : gmap string pyval, r !! "error"%string = None) data)
    as Htrue.
  { rewrite csv_rows_filter. unfold csv_row. apply list_fmap_id. }
  assert (csv_rows false data = delete "raw_attributes"%string <$> csv_rows true data)
    as Hfalse.
  { rewrite Htrue. apply csv_rows_filter. }
  split_and!; [| done | done | |].
  - intros row. rewrite Hfalse.
    intros (r & -> & _)%list_elem_of_fmap. apply lookup_delete_eq.
  - intros inc. by rewrite csv_rows_filter, length_fmap.
  - intros r k Hk. unfold csv_row. by rewrite lookup_delete_ne.
Qed.

(** X11.  The file name made up when none is given lies in the data
    directory, carries the city (or [all]) and the timestamp, and two
    exports for the same city get the same name only when their
    timestamps are the same. *)
Theorem X11_default_names (city : option pystr) (t1 t2 : pystr) :
  target_path None city t1
  = py "data/leboncoin_bureaux_commerces_"
    ++ (if truthy_str city then default [] city else py "all")
    ++ py "_" ++ t1 ++ py ".csv"
  ∧ target_path (Some []) city t1 = target_path None city t1
  ∧ (target_path None city t1 = target_path None city t2 → t1 = t2).
Proof.
  assert (∀ t, target_path None city t
               = py "data/leboncoin_bureaux_commerces_"
                 ++ (if truthy_str city then default [] city else py "all")
                 ++ py "_" ++ t ++ py ".csv") as Hname.
  { intros t. reflexivity. }
  split_and!; [apply Hname | reflexivity |].
  rewrite !Hname. intros Heq.
  apply app_inv_head in Heq. apply app_inv_head in Heq.
  apply app_inv_head in Heq. by apply app_inv_tail in Heq.
Qed.

Lemma X11_default_names_witness :
  target_path None (Some (py "Lyon")) stamp
  = py "data/leboncoin_bureaux_commerces_Lyon_20250103_120000.csv".
Proof.
  destruct (X11_default_names (Some (py "Lyon")) stamp stamp) as (Hname & _ & Hinj).
  pose proof (Hinj eq_refl) as _. rewrite Hname. reflexivity.
Defined.

Lemma X10_raw_attributes_column_witness :
  csv_row false (_process_ad (H := ascii_default) noon private_listing)
    !! "title"%string
  = _process_ad (H := ascii_default) noon private_listing !! "title"%string.
Proof.
  destruct (X10_raw_attributes_column []) as (_ & _ & _ & _ & Hkeep).
  apply Hkeep. discriminate.
Defined.

(** ** Writing into the data directory *)

Lemma drop_last_component_rev_app name rest :
  Forall (λ ch, ch ≠ slash) name →
  drop_last_component_rev (name ++ slash :: rest) = slash :: rest.
Proof.
  induction 1 as [|ch name Hch _ IH]; [reflexivity |].
  cbn [app drop_last_component_rev].
  destruct (N.eqb_spec ch slash); [done | exact IH].
Qed.

Lemma dirname_in_data name :
  Forall (λ ch, ch ≠ slash) name →
  dirname (data_dir ++ [slash] ++ name) = data_dir.
Proof.
  intros Hname. unfold dirname.
  rewrite !reverse_app, <- app_assoc. simpl.
  rewrite drop_last_component_rev_app by (by apply Forall_reverse).
  reflexivity.
Qed.

Lemma save_to_csv_nonempty self fs filename city include_raw_attributes timestamp :
  scraped_data self ≠ [] →
  save_to_csv self fs filename city include_raw_attributes timestamp
  = match write_file
            (if path_exists fs data_dir then fs else <[data_dir := Dir]> fs)
            (target_path filename city timestamp)
            (CsvTable (csv_rows include_raw_attributes (scraped_data self))) with
    | inr fs' => (inr (target_path filename city timestamp), fs')
    | inl e =>
        (inl e, if path_exists fs data_dir then fs else <[data_dir := Dir]> fs)
    end.
Proof.
  intros Hdata. unfold save_to_csv. by destruct (scraped_data self).
Qed.

Lemma is_dir_data fs :
  is_dir fs data_dir
  = match fs !! data_dir with Some Dir => true | _ => false end.
Proof. reflexivity. Qed.

Lemma path_exists_data fs :
  path_exists fs data_dir = bool_decide (is_Some (fs !! data_dir)).
Proof. reflexivity. Qed.

Lemma target_path_in_data filename city timestamp :
  startswith data_dir (chosen_name filename city timestamp) = false →
  Forall (λ ch, ch ≠ slash) (chosen_name filename city timestamp) →
  chosen_name filename city timestamp ≠ [] →
  target_path filename city timestamp
  = data_dir ++ [slash] ++ chosen_name filename city timestamp.
Proof.
  change (target_path filename city timestamp)
    with (if startswith data_dir (chosen_name filename city timestamp)
          then chosen_name filename city timestamp
          else path_join data_dir (chosen_name filename city timestamp)).
  intros -> Hname Hne. unfold path_join.
  destruct (chosen_name filename city timestamp) as [|ch name]; [done |].
  apply Forall_cons in Hname as [Hch _].
  by destruct (N.eqb_spec ch slash).
Qed.

Lemma plain_name_spec name :
  plain_name name = true →
  Forall (λ ch, ch ≠ slash) name ∧ name ≠ []
  ∧ name ≠ py "." ∧ name ≠ py "..".
Proof.
  unfold plain_name. rewrite !andb_true_iff, !negb_true_iff.
  intros ((((Hchars & Hne) & Hdot) & Hdots) & _).
  apply bool_decide_eq_false in Hne, Hdot, Hdots.
  split_and!; [| done | done | done].
  apply Forall_forall. intros ch Hch ->.
  rewrite forallb_forall in Hchars.
  apply list_elem_of_In in Hch. apply Hchars in Hch.
  unfold plain_char in Hch. by rewrite N.eqb_refl in Hch.
Qed.

(** X12.  An export under a plain file name (a single path component
    that is not empty, neither [.] nor [..], of at most 255 ASCII
    characters without slash or NUL, and not starting with [data])
    succeeds whenever [data] is missing or is a directory and the
    target is not a directory: the directory is created if needed, the
    table is written to [data/<name>], that path is returned, and no
    other path of the file system changes. *)
Theorem X12_export_in_data_directory (self : Scraper) (fs : gmap pystr node)
    (filename city : option pystr) (include_raw_attributes : bool)
    (timestamp : pystr) :
  scraped_data self ≠ [] →
  startswith data_dir (chosen_name filename city timestamp) = false →
  plain_name (chosen_name filename city timestamp) = true →
  fs !! data_dir = None ∨ fs !! data_dir = Some Dir →
  fs !! (data_dir ++ [slash] ++ chosen_name filename city timestamp) ≠ Some Dir →
  ∃ fs',
    save_to_csv self fs filename city include_raw_attributes timestamp
    = (inr (data_dir ++ [slash] ++ chosen_name filename city timestamp), fs')
    ∧ fs' !! data_dir = Some Dir
    ∧ fs' !! (data_dir ++ [slash] ++ chosen_name filename city timestamp)
      = Some (File (CsvTable (csv_rows include_raw_attributes (scraped_data self))))
    ∧ (∀ p, p ≠ data_dir →
            p ≠ data_dir ++ [slash] ++ chosen_name filename city timestamp →
            fs' !! p = fs !! p).
Proof.
  intros Hdata Hstart Hplain Hdir Htarget.
  apply plain_name_spec in Hplain as (Hname & Hne & _ & _).
  pose proof (target_path_in_data _ _ _ Hstart Hname Hne) as Hpath.
  set (name := chosen_name filename city timestamp) in *.
  set (target := data_dir ++ [slash] ++ name) in *.
  assert (target ≠ data_dir) as Hdiff.
  { subst target. intros Heq. apply (f_equal length) in Heq.
    rewrite !length_app in Heq. simpl in Heq. lia. }
  assert (target ≠ []) as Hnonempty by done.
  set (fs1 := if path_exists fs data_dir then fs else <[data_dir := Dir]> fs).
  assert (fs1 !! data_dir = Some Dir ∧ ∀ p, p ≠ data_dir → fs1 !! p = fs !! p)
    as [Hfs1 Hrest].
  { subst fs1. rewrite path_exists_data. destruct Hdir as [Hnone|Hsome].
    - rewrite bool_decide_eq_false_2 by (rewrite Hnone; by intros [? ?]).
      split; [by rewrite lookup_insert_eq |].
      intros p Hp. by rewrite lookup_insert_ne.
    - rewrite bool_decide_eq_true_2 by (rewrite Hsome; by eexists). done. }
  assert (write_file fs1 target
            (CsvTable (csv_rows include_raw_attributes (scraped_data self)))
          = inr (<[target := File (CsvTable (csv_rows include_raw_attributes
                                               (scraped_data self)))]> fs1))
    as Hwrite.
  { unfold write_file.
    match goal with
    | |- context [match ?x with Some _ => _ | None => _ end] =>
        destruct x as [[|old]|] eqn:Hold
    end.
    - destruct Htarget. transitivity (fs1 !! target); [| exact Hold].
      symmetry. by apply Hrest.
    - done.
    - subst target. rewrite dirname_in_data by done.
      rewrite is_dir_data, Hfs1.
      by rewrite bool_decide_eq_false_2 by done. }
  exists (<[target := File (CsvTable (csv_rows include_raw_attributes
                                        (scraped_data self)))]> fs1).
  split_and!.
  - rewrite save_to_csv_nonempty, Hpath by done. fold fs1. by rewrite Hwrite.
  - by rewrite lookup_insert_ne.
  - by rewrite lookup_insert_eq.
  - intros p Hp Hp'. rewrite lookup_insert_ne by done. by apply Hrest.
Qed.

Lemma X12_export_in_data_directory_witness :
  (save_to_csv one_record_scraper ∅ None (Some (py "Lyon")) false stamp).1
  = inr (py "data/leboncoin_bureaux_commerces_Lyon_20250103_120000.csv").
Proof.
  destruct (X12_export_in_data_directory one_record_scraper ∅ None
              (Some (py "Lyon")) false stamp) as (fs' & Hsave & _).
  - discriminate.
  - reflexivity.
  - reflexivity.
  - by left.
  - by rewrite lookup_empty.
  - rewrite Hsave. reflexivity.
Defined.

(** X13.  When [data] exists but is a regular file, an export under a
    file name without slash that does not start with [data] raises an
    [OSError] (whatever its message): no directory is made, nothing is
    written, and the file system stays as it was. *)
Theorem X13_export_without_directory (self : Scraper) (fs : gmap pystr node)
    (filename city : option pystr) (include_raw_attributes : bool)
    (timestamp : pystr) (old : content) :
  scraped_data self ≠ [] →
  startswith data_dir (chosen_name filename city timestamp) = false →
  Forall (λ ch, ch ≠ slash) (chosen_name filename city timestamp) →
  chosen_name filename city timestamp ≠ [] →
  fs !! data_dir = Some (File old) →
  fs !! (data_dir ++ [slash] ++ chosen_name filename city timestamp) = None →
  ∃ msg,
    save_to_csv self fs filename city include_raw_attributes timestamp
    = (inl (OSError msg), fs).
Proof.
  intros Hdata Hstart Hname Hne Hfile Htarget.
  pose proof (target_path_in_data _ _ _ Hstart Hname Hne) as Hpath.
  rewrite save_to_csv_nonempty, Hpath, path_exists_data by done.
  rewrite bool_decide_eq_true_2 by (rewrite Hfile; by eexists).
  unfold write_file.
  match goal with
  | |- context [match ?x with Some _ => _ | None => _ end] =>
      replace x with (@None node) by (symmetry; exact Htarget)
  end.
  rewrite dirname_in_data, is_dir_data, Hfile by done. by eexists.
Qed.

Lemma X13_export_without_directory_witness :
  ∃ msg,
    save_to_csv one_record_scraper data_is_a_file (Some (py "out.csv")) None
      false stamp
    = (inl (OSError msg), data_is_a_file).
Proof.
  apply (X13_export_without_directory one_record_scraper data_is_a_file
           (Some (py "out.csv")) None false stamp (Text (py "notes"))).
  - discriminate.
  - reflexivity.
  - apply Forall_forall. intros ch Hch. apply list_elem_of_In in Hch.
    vm_compute in Hch. intros ->. vm_compute in Hch.
    repeat (destruct Hch as [Hch|Hch]; [discriminate |]). done.
  - discriminate.
  - reflexivity.
  - reflexivity.
Defined.

(** ** The constructor *)

Lemma span_app_stop p run rest :
  Forall (λ ch, p ch = true) run →
  match rest with [] => True | ch :: _ => p ch = false end →
  span p (run ++ rest) = (run, rest).
Proof.
  intros Hrun Hrest. induction Hrun as [|ch run Hch _ IH]; simpl.
  - destruct rest as [|ch rest]; [done |]. simpl in *. by rewrite Hrest.
  - by rewrite Hch, IH.
Qed.

Lemma strip_prefix_app prefix s : strip_prefix prefix (prefix ++ s) = Some s.
Proof.
  induction prefix as [|a prefix IH]; [by destruct s |].
  simpl. by rewrite N.eqb_refl.
Qed.

Lemma strip_prefix_Some prefix s rest :
  strip_prefix prefix s = Some rest → s = prefix ++ rest.
Proof.
  revert s. induction prefix as [|a prefix IH]; intros s.
  - simpl. by intros [= <-].
  - destruct s as [|b s]; [done |]. simpl.
    destruct (N.eqb_spec a b) as [->|]; [| done].
    intros Hs. by rewrite (IH _ Hs).
Qed.

Lemma match_scheme_Some s rest :
  match_scheme s = Some rest ↔
  s = py "http://" ++ rest ∨ s = py "https://" ++ rest.
Proof.
  unfold match_scheme. split.
  - destruct (strip_prefix (py "http") s) as [r|] eqn:Hr; [| done].
    apply strip_prefix_Some in Hr as ->.
    destruct (strip_prefix (py "s") r) as [r'|] eqn:Hr'.
    + apply strip_prefix_Some in Hr' as ->.
      destruct (strip_prefix (py "://") r') as [rest'|] eqn:Hrest.
      * intros [= ->]. apply strip_prefix_Some in Hrest as ->. by right.
      * intros Hs. by apply strip_prefix_Some in Hs.
    + intros Hs. apply strip_prefix_Some in Hs as ->. by left.
  - intros [-> | ->]; reflexivity.
Qed.

Lemma span_spec p s : ∀ run rest,
  span p s = (run, rest) →
  s = run ++ rest ∧ Forall (λ ch, p ch = true) run
  ∧ match rest with [] => True | ch :: _ => p ch = false end.
Proof.
  induction s as [|ch s IH]; intros run rest; simpl.
  - by intros [= <- <-].
  - destruct (p ch) eqn:Hch.
    + destruct (span p s) as [run' rest'] eqn:Hs. intros [= <- <-].
      destruct (IH _ _ eq_refl) as (-> & Hrun & Hrest).
      split_and!; [done | by constructor | done].
    + intros [= <- <-]. split_and!; [done | done | done].
Qed.

Lemma not_colon_at_true ch :
  not_colon_at ch = true ↔ ch ≠ colon ∧ ch ≠ at_sign.
Proof.
  unfold not_colon_at.
  destruct (N.eqb_spec ch colon), (N.eqb_spec ch at_sign); simpl; naive_solver.
Qed.

Lemma not_colon_slash_true ch :
  not_colon_slash ch = true ↔ ch ≠ colon ∧ ch ≠ slash.
Proof.
  unfold not_colon_slash.
  destruct (N.eqb_spec ch colon), (N.eqb_spec ch slash); simpl; naive_solver.
Qed.

(** Without a colon there are no credentials to find. *)
Lemma match_credentials_no_colon s :
  Forall (λ ch, ch ≠ colon) s → match_credentials s = None.
Proof.
  intros Hs. unfold match_credentials.
  destruct (span not_colon_at s) as [run rest] eqn:Hspan.
  apply span_spec in Hspan as (-> & _ & Hrest).
  destruct run as [|c run]; [done |]. destruct rest as [|ch rest]; [done |].
  apply Forall_app in Hs as [_ Hs]. apply Forall_cons in Hs as [Hch _].
  by destruct (N.eqb_spec ch colon).
Qed.

(** Credentials need an at sign after the first colon. *)
Lemma match_credentials_no_at user rest :
  Forall (λ ch, ch ≠ colon ∧ ch ≠ at_sign) user →
  Forall (λ ch, ch ≠ at_sign) rest →
  match_credentials (user ++ colon :: rest) = None.
Proof.
  intros Huser Hrest. unfold match_credentials.
  rewrite span_app_stop; [| | done].
  2:{ eapply Forall_impl; [exact Huser |]. intros ch. apply not_colon_at_true. }
  destruct user as [|c user]; [done |]. cbn [app].
  rewrite N.eqb_refl.
  destruct (span not_colon_at rest) as [run rest'] eqn:Hspan.
  apply span_spec in Hspan as (-> & _ & Hhead).
  destruct run as [|d run]; [done |]. destruct rest' as [|ch rest']; [done |].
  apply Forall_app in Hrest as [_ Hrest].
  apply Forall_cons in Hrest as [Hch _].
  by destruct (N.eqb_spec ch at_sign).
Qed.


Section ConstructorFacts.
Context `{Interpreter}.

Lemma match_host_port_found host port tail :
  host ≠ [] → port ≠ [] →
  Forall (λ ch, ch ≠ colon ∧ ch ≠ slash) host →
  Forall (λ ch, is_digit ch = true) port →
  match tail with [] => True | ch :: _ => is_digit ch = false end →
  match_host_port (host ++ colon :: port ++ tail) = Some (host, port).
Proof.
  intros Hh Hp Hhost Hport Htail. unfold match_host_port.
  rewrite span_app_stop; [| | done].
  2:{ eapply Forall_impl; [exact Hhost |]. intros ch. apply not_colon_slash_true. }
  destruct host as [|c host]; [done |]. rewrite N.eqb_refl.
  rewrite leading_digits_app by done. destruct port; [by destruct Hp | done].
Qed.

Lemma match_host_port_no_colon s :
  Forall (λ ch, ch ≠ colon) s → match_host_port s = None.
Proof.
  intros Hs. unfold match_host_port.
  destruct (span not_colon_slash s) as [run rest] eqn:Hspan.
  apply span_spec in Hspan as (-> & _ & Hrest).
  destruct run as [|c run]; [done |]. destruct rest as [|ch rest]; [done |].
  apply Forall_app in Hs as [_ Hs]. apply Forall_cons in Hs as [Hch _].
  by destruct (N.eqb_spec ch colon).
Qed.

Lemma init_str s d :
  s ≠ [] →
  __init__ (Some (ProxyStr s)) d
  = match match_proxy s with
    | Some (host, port_digits) =>
        match py_int port_digits with
        | Some port =>
            inr ({| delay := d; scraped_data := [] |},
                 Some (ProxyObj {| proxy_host := host; proxy_port := port |}))
        | None => inl (port_too_long (length port_digits))
        end
    | None => inl (proxy_not_recognised s)
    end.
Proof. by destruct s. Qed.
End ConstructorFacts.

(** X14.  A proxy written [http://host:port] or [https://host:port],
    followed by nothing or by a tail that starts with a character
    other than a digit and holds no at sign, is accepted: the scraper
    starts without records, and the proxy handed to the client has that
    host and the port read as a number.  The host holds no colon, slash
    or at sign, and the port is a run of digits within the limit of
    [int].  (An at sign further on lets the pattern read what precedes
    it as credentials, so the condition on the tail is needed.) *)
Theorem X14_plain_proxy `{Interpreter}
    (scheme host port tail : pystr) (d : Q) :
  scheme = py "http://" ∨ scheme = py "https://" →
  is_digit colon = false → is_digit at_sign = false →
  host ≠ [] → Forall (λ ch, ch ≠ colon ∧ ch ≠ slash ∧ ch ≠ at_sign) host →
  port ≠ [] → Forall (λ ch, is_digit ch = true) port →
  match tail with [] => True | ch :: _ => is_digit ch = false end →
  Forall (λ ch, ch ≠ at_sign) tail →
  int_max_str_digits = 0%nat ∨ (length port ≤ int_max_str_digits)%nat →
  __init__ (Some (ProxyStr (scheme ++ host ++ colon :: port ++ tail))) d
  = inr ({| delay := d; scraped_data := [] |},
         Some (ProxyObj {| proxy_host := host;
                           proxy_port := digit_run_value port |})).
Proof.
  intros Hscheme Hcolon Hat Hh Hhost Hp Hport Htail Hnoat Hlimit.
  rewrite init_str by (destruct Hscheme as [-> | ->]; done).
  assert (match_scheme (scheme ++ host ++ colon :: port ++ tail)
          = Some (host ++ colon :: port ++ tail)) as Hs
    by (apply match_scheme_Some; destruct Hscheme as [-> | ->]; auto).
  unfold match_proxy. rewrite Hs.
  rewrite match_credentials_no_at.
  - rewrite match_host_port_found; try done.
    + by rewrite py_int_within_limit.
    + eapply Forall_impl; [exact Hhost |]. naive_solver.
  - eapply Forall_impl; [exact Hhost |]. naive_solver.
  - apply Forall_app. split; [| done].
    eapply Forall_impl; [exact Hport |]. intros ch Hd ->. congruence.
Qed.

Lemma X14_plain_proxy_witness :
  __init__ (H := ascii_default)
    (Some (ProxyStr (py "http://proxy.example.org:8080/path"))) 3
  = inr ({| delay := 3; scraped_data := [] |},
         Some (ProxyObj {| proxy_host := py "proxy.example.org";
                           proxy_port := 8080 |})).
Proof.
  apply (X14_plain_proxy (H := ascii_default) (py "http://")
           (py "proxy.example.org") (py "8080") (py "/path") 3).
  - by left.
  - reflexivity.
  - reflexivity.
  - discriminate.
  - repeat constructor; discriminate.
  - discriminate.
  - repeat constructor.
  - reflexivity.
  - repeat constructor; discriminate.
  - right. simpl. lia.
Defined.



(** X16.  A proxy address is refused with the [ValueError] "Format de
    proxy non reconnu" when it does not start with [http://] or
    [https://], and also when nothing after the scheme holds a colon
    (no port).  No proxy, the empty string and a proxy object are
    passed on to the client as they are. *)
Theorem X16_proxy_refused_or_passed_on `{Interpreter} (d : Q) :
  (∀ s, s ≠ [] →
        (∀ rest, s ≠ py "http://" ++ rest ∧ s ≠ py "https://" ++ rest) →
        __init__ (Some (ProxyStr s)) d = inl (proxy_not_recognised s))
  ∧ (∀ scheme rest,
       scheme = py "http://" ∨ scheme = py "https://" →
       Forall (λ ch, ch ≠ colon) rest →
       __init__ (Some (ProxyStr (scheme ++ rest))) d
       = inl (proxy_not_recognised (scheme ++ rest)))
  ∧ __init__ None d = inr ({| delay := d; scraped_data := [] |}, None)
  ∧ __init__ (Some (ProxyStr [])) d
    = inr ({| delay := d; scraped_data := [] |}, Some (ProxyStr []))
  ∧ (∀ p, __init__ (Some (ProxyObj p)) d
          = inr ({| delay := d; scraped_data := [] |}, Some (ProxyObj p))).
Proof.
  split_and!; try done.
  - intros s Hs Hscheme. rewrite init_str by done. unfold match_proxy.
    destruct (match_scheme s) as [rest|] eqn:Hm; [| done].
    apply match_scheme_Some in Hm. destruct (Hscheme rest) as [H1 H2].
    by destruct Hm.
  - intros scheme rest Hscheme Hrest.
    rewrite init_str by (destruct Hscheme as [-> | ->]; done).
    assert (match_scheme (scheme ++ rest) = Some rest) as Hs
      by (apply match_scheme_Some; destruct Hscheme as [-> | ->]; auto).
    unfold match_proxy.
    by rewrite Hs, match_credentials_no_colon, match_host_port_no_colon.
Qed.

Lemma X16_proxy_refused_or_passed_on_witness :
  __init__ (H := ascii_default) (Some (ProxyStr (py "socks5://host:1080"))) 3
  = inl (proxy_not_recognised (py "socks5://host:1080")).
Proof.
  destruct (X16_proxy_refused_or_passed_on (H := ascii_default) 3) as [Hbad _].
  apply Hbad; [discriminate |]. intros rest. split; discriminate.
Defined.

(** X17.  A scraper fresh from the constructor holds no record,
    whatever the proxy: exporting it raises "nothing to save" and leaves
    the file system alone, and its statistics are the empty dict. *)
Theorem X17_fresh_scraper `{Interpreter}
    (proxy : option proxy_arg) (d : Q) (self : Scraper)
    (client_proxy : option proxy_arg) (fs : gmap pystr node)
    (filename city : option pystr) (include_raw_attributes : bool)
    (timestamp : pystr) :
  __init__ proxy d = inr (self, client_proxy) →
  delay self = d
  ∧ scraped_data self = []
  ∧ save_to_csv self fs filename city include_raw_attributes timestamp
    = (inl (ValueError nothing_to_save), fs)
  ∧ get_statistics self = inr None.
Proof.
  intros Hinit.
  assert (self = {| delay := d; scraped_data := [] |}) as ->.
  { unfold __init__ in Hinit.
    destruct proxy as [[[|ch s]|p]|]; try by injection Hinit as <- _.
    destruct (match_proxy (ch :: s)) as [[host port]|]; [| done].
    destruct (py_int port); [| done]. by injection Hinit as <- _. }
  done.
Qed.

Lemma X17_fresh_scraper_witness :
  get_statistics {| delay := 3; scraped_data := [] |} = inr None.
Proof.
  apply (X17_fresh_scraper (H := ascii_default) None 3 _ None ∅ None None
           false stamp eq_refl).
Defined.

(** ** The command line *)

Lemma main_range_Some lo hi l :
  main_range lo hi = Some l ↔
  ∃ a b, lo = Some a ∧ hi = Some b ∧ a ≠ 0 ∧ b ≠ 0 ∧ l = [a; b].
Proof.
  unfold main_range, truthy_int. split.
  - destruct lo as [a|], hi as [b|]; simpl; try done.
    + destruct (Z.eqb_spec a 0), (Z.eqb_spec b 0); simpl; try done.
      intros [= <-]. by exists a, b.
    + by destruct (a =? 0).
  - intros (a & b & -> & -> & Ha & Hb & ->). simpl.
    by destruct (Z.eqb_spec a 0), (Z.eqb_spec b 0).
Qed.

(** X18.  [main] passes a price filter on to the client exactly when
    both bounds are given and neither is zero, and then it is
    [[min, max]]; the same holds for the surface.  A minimum of zero
    therefore drops the whole filter, maximum included. *)
Theorem X18_filters_of_main `{Interpreter}
    (locations_value : list City → pyval) (sort_newest : pyval)
    (owner_value : owner_choice → pyval) (args : Args) (page : Z) :
  (∀ l, sp_price (search_params
                    (main_criteria locations_value sort_newest owner_value args)
                    page) = Some l
        ↔ ∃ lo hi, arg_min_price args = Some lo ∧ arg_max_price args = Some hi
                   ∧ lo ≠ 0 ∧ hi ≠ 0 ∧ l = [lo; hi])
  ∧ (∀ l, sp_square (search_params
                       (main_criteria locations_value sort_newest owner_value args)
                       page) = Some l
          ↔ ∃ lo hi, arg_min_surface args = Some lo
                     ∧ arg_max_surface args = Some hi
                     ∧ lo ≠ 0 ∧ hi ≠ 0 ∧ l = [lo; hi])
  ∧ (arg_min_price args = Some 0 →
     sp_price (search_params
                 (main_criteria locations_value sort_newest owner_value args)
                 page) = None).
Proof.
  assert (∀ lo hi l,
            (if truthy_list (main_range lo hi) then main_range lo hi else None)
            = Some l ↔ main_range lo hi = Some l) as Hpass.
  { intros lo hi l. destruct (main_range lo hi) as [[|a r]|] eqn:Hr; simpl;
      try done.
    apply main_range_Some in Hr as (? & ? & _ & _ & _ & _ & [=]). }
  split_and!.
  - intros l. cbn [search_params main_criteria sp_price price_range].
    by rewrite Hpass, main_range_Some.
  - intros l. cbn [search_params main_criteria sp_square surface_range].
    by rewrite Hpass, main_range_Some.
  - intros Hzero. cbn [search_params main_criteria sp_price price_range].
    rewrite Hzero. reflexivity.
Qed.

Lemma X18_filters_of_main_witness :
  sp_price (search_params
              (main_criteria no_locations (VStr (py "newest"))
                 owner_name zero_minimum) 1) = None
  ∧ sp_square (search_params
                 (main_criteria no_locations
                    (VStr (py "newest")) owner_name zero_minimum) 1)
    = Some [20; 200].
Proof.
  destruct (X18_filters_of_main (H := ascii_default) no_locations
              (VStr (py "newest")) owner_name zero_minimum 1)
    as (_ & Hsurface & Hzero).
  split.
  - apply Hzero. reflexivity.
  - apply Hsurface. exists 20, 200. by split_and!.
Defined.

Section MainFacts.
Context `{Interpreter}.
Variable locations_value : list City → pyval.
Variable sort_newest : pyval.
Variable owner_value : owner_choice → pyval.
Variable client_of : option proxy_arg → SearchParams → exn + SearchResult.
Variable clock : nat → pystr.
Variable timestamp : pystr.

(** [main] in terms of the run it starts. *)
Lemma main_unfold args fs scraper client_proxy r scraper' trace :
  __init__ (ProxyStr <$> arg_proxy args) (arg_delay args)
  = inr (scraper, client_proxy) →
  search_bureaux_commerces (client_of client_proxy) clock scraper
    (main_criteria locations_value sort_newest owner_value args)
    (arg_max_pages args) = (r, scraper', trace) →
  main locations_value sort_newest owner_value client_of clock timestamp args fs
  = match r with
    | Raised e => (MainDone [Failed e], fs, trace)
    | OutOfFuel => (MainOutOfFuel, fs, trace)
    | Returned [] => (MainDone [NothingFound], fs, trace)
    | Returned (_ :: _) =>
        match save_to_csv scraper' fs (arg_output args) (arg_city args)
                false timestamp with
        | (inl e, fs') => (MainDone [Failed e], fs', trace)
        | (inr filename, fs') =>
            if arg_stats args then
              match get_statistics scraper' with
              | inl e => (MainDone [Saved filename; Failed e], fs', trace)
              | inr stats =>
                  (MainDone [Saved filename; StatsShown stats], fs', trace)
              end
            else (MainDone [Saved filename], fs', trace)
        end
    end.
Proof. intros Hinit Hrun. unfold main. by rewrite Hinit, Hrun. Qed.
End MainFacts.

(** X19.  [main] writes nothing unless the search returns a record.
    When the client raises on a page the run asks for, [main] prints
    that error and nothing else, and the file system is as before: the
    records of the earlier pages are not exported.  When the search
    returns no record it prints that nothing was found, and when the
    proxy is refused it raises before any search; the file system is
    as before in both cases. *)
Theorem X19_main_without_export `{Interpreter}
    (locations_value : list City → pyval) (sort_newest : pyval)
    (owner_value : owner_choice → pyval)
    (client_of : option proxy_arg → SearchParams → exn + SearchResult)
    (clock : nat → pystr) (timestamp : pystr)
    (args : Args) (fs : gmap pystr node) :
  (∀ e, __init__ (ProxyStr <$> arg_proxy args) (arg_delay args) = inl e →
        main locations_value sort_newest owner_value client_of clock timestamp
          args fs = (MainRaised e, fs, []))
  ∧ (∀ scraper client_proxy r scraper' trace,
       __init__ (ProxyStr <$> arg_proxy args) (arg_delay args)
       = inr (scraper, client_proxy) →
       search_bureaux_commerces (client_of client_proxy) clock scraper
         (main_criteria locations_value sort_newest owner_value args)
         (arg_max_pages args) = (r, scraper', trace) →
       (∀ p e, p ∈ requested_pages trace →
               client_of client_proxy
                 (search_params
                    (main_criteria locations_value sort_newest owner_value args) p)
               = inl e →
               main locations_value sort_newest owner_value client_of clock
                 timestamp args fs = (MainDone [Failed e], fs, trace))
       ∧ (r = Returned [] →
          main locations_value sort_newest owner_value client_of clock
            timestamp args fs = (MainDone [NothingFound], fs, trace))).
Proof.
  split.
  - intros e Hinit. unfold main. by rewrite Hinit.
  - intros scraper client_proxy r scraper' trace Hinit Hrun.
    pose proof (main_unfold locations_value sort_newest owner_value client_of
                  clock timestamp args fs _ _ _ _ _ Hinit Hrun) as Hmain.
    split.
    + intros p e Hp Hclient.
      apply search_run_spec in Hrun
        as (_ & n & Hreq & _ & Hanswered & Hraise & _).
      rewrite Hreq in Hp. apply elem_of_seqZ in Hp.
      assert (p = Z.of_nat n) as ->.
      { destruct (decide (p = Z.of_nat n)) as [|Hne]; [done |].
        destruct (Hanswered p) as [result Hres]; [lia | congruence]. }
      assert (r = Raised e) as -> by (apply Hraise; split; [lia | done]).
      exact Hmain.
    + intros ->. exact Hmain.
Qed.

Lemma X19_main_without_export_witness :
  main (H := ascii_default) no_locations (VStr (py "newest")) owner_name
    (λ _, failing_client) still_clock stamp zero_minimum earlier_export
  = (MainDone [Failed (ClientError (py "timeout"))], earlier_export,
     [Search (search_params
                (main_criteria no_locations
                   (VStr (py "newest")) owner_name zero_minimum) 1);
      Sleep 3;
      Search (search_params
                (main_criteria no_locations
                   (VStr (py "newest")) owner_name zero_minimum) 2)]).
Proof.
  destruct (X19_main_without_export (H := ascii_default) no_locations
              (VStr (py "newest")) owner_name (λ _, failing_client) still_clock
              stamp zero_minimum earlier_export) as [_ Hrun].
  assert (search_bureaux_commerces (H := ascii_default) failing_client
            still_clock {| delay := 3; scraped_data := [] |}
            (main_criteria no_locations
               (VStr (py "newest")) owner_name zero_minimum) 5
          = (Raised (ClientError (py "timeout")),
             {| delay := 3; scraped_data := [] |},
             [Search (search_params
                        (main_criteria no_locations
                           (VStr (py "newest")) owner_name zero_minimum) 1);
              Sleep 3;
              Search (search_params
                        (main_criteria no_locations
                           (VStr (py "newest")) owner_name zero_minimum) 2)]))
    as Hsearch.
  { unfold search_bureaux_commerces. change (Z.to_nat 5) with 5%nat.
    rewrite !scrape_pages_step. reflexivity. }
  destruct (Hrun _ None _ _ _ eq_refl Hsearch) as [Hfail _].
  apply (Hfail 2).
  - simpl. apply list_elem_of_further, list_elem_of_here.
  - reflexivity.
Defined.

(** A successful export leaves every path but its own file and the
    data directory as it was. *)
Lemma save_to_csv_frame self fs filename city include_raw_attributes
    timestamp name fs' p :
  save_to_csv self fs filename city include_raw_attributes timestamp
  = (inr name, fs') →
  p ≠ name → p ≠ data_dir → fs' !! p = fs !! p.
Proof.
  unfold save_to_csv. destruct (scraped_data self) as [|r data]; [done |].
  destruct (write_file _ _ _) as [e|fs''] eqn:Hw; [done |].
  intros [= <- <-] Hp Hdata. apply write_file_inr in Hw as ->.
  rewrite lookup_insert_ne by done.
  destruct (path_exists fs data_dir); [done |].
  by rewrite lookup_insert_ne.
Qed.

(** X20.  When [main] prints the name of a saved file, the scraper was
    built, the search returned a list of records that is not empty, the
    name printed is the target path of the export and is printed
    first, and the file of that name afterwards holds the table of
    exactly these records: the rows of the records without error, each
    without the [raw_attributes] column; every other path but the data
    directory is as before.  And [main] always ends: the search never
    runs out of turns. *)
Theorem X20_main_reports_its_file `{Interpreter}
    (locations_value : list City → pyval) (sort_newest : pyval)
    (owner_value : owner_choice → pyval)
    (client_of : option proxy_arg → SearchParams → exn + SearchResult)
    (clock : nat → pystr) (timestamp : pystr)
    (args : Args) (fs : gmap pystr node) out fs' trace :
  main locations_value sort_newest owner_value client_of clock timestamp args fs
  = (out, fs', trace) →
  out ≠ MainOutOfFuel
  ∧ ∀ printed filename,
      out = MainDone printed → Saved filename ∈ printed →
      ∃ scraper client_proxy records scraper',
        __init__ (ProxyStr <$> arg_proxy args) (arg_delay args)
        = inr (scraper, client_proxy)
        ∧ search_bureaux_commerces (client_of client_proxy) clock scraper
            (main_criteria locations_value sort_newest owner_value args)
            (arg_max_pages args)
          = (Returned records, scraper', trace)
        ∧ scraped_data scraper' = records
        ∧ records ≠ []
        ∧ filename = target_path (arg_output args) (arg_city args) timestamp
        ∧ head printed = Some (Saved filename)
        ∧ fs' !! filename = Some (File (CsvTable (csv_rows false records)))
        ∧ csv_rows false records
          = delete "raw_attributes"%string
              <$> filter (λ r : gmap string pyval, r !! "error"%string = None)
                    records
        ∧ Forall (λ row, row !! "error"%string = None
                         ∧ row !! "raw_attributes"%string = None)
            (csv_rows false records)
        ∧ (∀ p, p ≠ filename → p ≠ data_dir → fs' !! p = fs !! p).
Proof.
  intros Hmain.
  destruct (__init__ (ProxyStr <$> arg_proxy args) (arg_delay args))
    as [e|[scraper client_proxy]] eqn:Hinit.
  { unfold main in Hmain. rewrite Hinit in Hmain. injection Hmain as <- <- <-.
    split; [done |]. by intros printed filename [=]. }
  destruct (search_bureaux_commerces (client_of client_proxy) clock scraper
              (main_criteria locations_value sort_newest owner_value args)
              (arg_max_pages args)) as [[r scraper'] trace0] eqn:Hrun.
  rewrite (main_unfold locations_value sort_newest owner_value client_of
             clock timestamp args fs _ _ _ _ _ Hinit Hrun) in Hmain.
  pose proof (search_run_spec _ _ _ _ _ _ _ _ Hrun)
    as (Hfuel & n & _ & _ & _ & _ & _ & Hret).
  destruct r as [[|record records]|e|]; [| | | done].
  - injection Hmain as <- <- <-. split; [done |].
    intros printed filename [= <-] Hin.
    apply list_elem_of_singleton in Hin. discriminate.
  - specialize (Hret _ eq_refl).
    destruct (save_to_csv scraper' fs (arg_output args) (arg_city args)
                false timestamp) as [[e|name] fs1] eqn:Hsave.
    + injection Hmain as <- <- <-. split; [done |].
      intros printed filename [= <-] Hin.
      apply list_elem_of_singleton in Hin. discriminate.
    + pose proof (save_to_csv_inr _ _ _ _ _ _ _ _ Hsave) as [Hname Hfile].
      pose proof (λ p, save_to_csv_frame _ _ _ _ _ _ _ _ p Hsave) as Hframe.
      assert (scraped_data scraper' = record :: records) as Hdata
        by (by rewrite Hret).
      rewrite Hdata in Hfile.
      assert (∀ (printed : list message) filename,
                Saved filename ∈ printed →
                head printed = Some (Saved name) →
                (∀ m, m ∈ printed → m = Saved name ∨ (∀ f, m ≠ Saved f)) →
                ∃ scraper0 client_proxy0 records0 scraper'0,
                  inr (scraper, client_proxy)
                  = (inr (scraper0, client_proxy0)
                     : exn + Scraper * option proxy_arg)
                  ∧ search_bureaux_commerces (client_of client_proxy0) clock
                      scraper0
                      (main_criteria locations_value sort_newest owner_value
                         args)
                      (arg_max_pages args)
                    = (Returned records0, scraper'0, trace0)
                  ∧ scraped_data scraper'0 = records0
                  ∧ records0 ≠ []
                  ∧ filename
                    = target_path (arg_output args) (arg_city args) timestamp
                  ∧ head printed = Some (Saved filename)
                  ∧ fs1 !! filename
                    = Some (File (CsvTable (csv_rows false records0)))
                  ∧ csv_rows false records0
                    = delete "raw_attributes"%string
                        <$> filter (λ r : gmap string pyval,
                                      r !! "error"%string = None) records0
                  ∧ Forall (λ row, row !! "error"%string = None
                                   ∧ row !! "raw_attributes"%string = None)
                      (csv_rows false records0)
                  ∧ (∀ p, p ≠ filename → p ≠ data_dir → fs1 !! p = fs !! p))
        as Hgood.
      { intros printed filename Hin Hhead Hall.
        destruct (Hall _ Hin) as [[= ->]|Hno]; [| by destruct (Hno filename)].
        exists scraper, client_proxy, (record :: records), scraper'.
        split_and!; try done.
        - apply csv_rows_filter.
        - apply Forall_forall. intros row Hrow.
          split; [by eapply csv_rows_no_error |].
          rewrite csv_rows_filter in Hrow.
          apply list_elem_of_fmap in Hrow as (r0 & -> & _).
          apply lookup_delete_eq. }
      destruct (arg_stats args).
      * destruct (get_statistics scraper') as [e|stats];
          injection Hmain as <- <- <-; (split; [done |]);
          intros printed filename [= <-] Hin;
          (apply (Hgood _ _ Hin); [done |]);
          intros m Hm;
          repeat (apply elem_of_cons in Hm as [->|Hm]; [auto |]);
          by apply elem_of_nil in Hm.
      * injection Hmain as <- <- <-. split; [done |].
        intros printed filename [= <-] Hin.
        apply (Hgood _ _ Hin); [done |].
        intros m Hm. apply list_elem_of_singleton in Hm as ->. by left.
  - injection Hmain as <- <- <-. split; [done |].
    intros printed filename [= <-] Hin.
    apply list_elem_of_singleton in Hin. discriminate.
Qed.

Lemma X20_main_reports_its_file_witness :
  (main (H := ascii_default) no_locations (VStr (py "newest")) owner_name
     (λ _, two_full_pages 2) still_clock stamp zero_minimum ∅).1.1
  = MainDone
      [Saved (py "data/leboncoin_bureaux_commerces_all_20250103_120000.csv")]
  ∧ (main (H := ascii_default) no_locations (VStr (py "newest")) owner_name
       (λ _, two_full_pages 2) still_clock stamp zero_minimum ∅).1.2
    !! py "data/leboncoin_bureaux_commerces_all_20250103_120000.csv"
    = Some (File (CsvTable (csv_rows false
         [ _process_ad (H := ascii_default) noon private_listing;
           _process_ad (H := ascii_default) noon pro_listing;
           _process_ad (H := ascii_default) noon pro_listing;
           _process_ad (H := ascii_default) noon private_listing ]))).
Proof.
  assert (search_bureaux_commerces (H := ascii_default) (two_full_pages 2)
            still_clock {| delay := 3; scraped_data := [] |}
            (main_criteria no_locations
               (VStr (py "newest")) owner_name zero_minimum) 5
          = (Returned
               [ _process_ad (H := ascii_default) noon private_listing;
                 _process_ad (H := ascii_default) noon pro_listing;
                 _process_ad (H := ascii_default) noon pro_listing;
                 _process_ad (H := ascii_default) noon private_listing ],
             {| delay := 3;
                scraped_data :=
                  [ _process_ad (H := ascii_default) noon private_listing;
                    _process_ad (H := ascii_default) noon pro_listing;
                    _process_ad (H := ascii_default) noon pro_listing;
                    _process_ad (H := ascii_default) noon private_listing ] |},
             [Search (search_params
                        (main_criteria no_locations
                           (VStr (py "newest")) owner_name zero_minimum) 1);
              Sleep 3;
              Search (search_params
                        (main_criteria no_locations
                           (VStr (py "newest")) owner_name zero_minimum) 2)]))
    as Hsearch.
  { unfold search_bureaux_commerces. change (Z.to_nat 5) with 5%nat.
    rewrite !scrape_pages_step. reflexivity. }
  assert (∀ table,
            write_file {[ data_dir := Dir ]}
              (py "data/leboncoin_bureaux_commerces_all_20250103_120000.csv")
              table
            = inr (<[ py "data/leboncoin_bureaux_commerces_all_20250103_120000.csv"
                      := File table ]> {[ data_dir := Dir ]})) as Hwrite.
  { intros table. reflexivity. }
  destruct (main (H := ascii_default) no_locations (VStr (py "newest"))
              owner_name (λ _, two_full_pages 2) still_clock stamp
              zero_minimum ∅) as [[out fs'] trace] eqn:Hmain.
  assert (out
          = MainDone
              [Saved (py "data/leboncoin_bureaux_commerces_all_20250103_120000.csv")])
    as Hout.
  { rewrite (main_unfold (H := ascii_default) no_locations (VStr (py "newest"))
               owner_name (λ _, two_full_pages 2) still_clock stamp
               zero_minimum ∅ _ None _ _ _ eq_refl Hsearch) in Hmain.
    rewrite save_to_csv_nonempty in Hmain by discriminate.
    change (target_path (arg_output zero_minimum) (arg_city zero_minimum) stamp)
      with (py "data/leboncoin_bureaux_commerces_all_20250103_120000.csv")
      in Hmain.
    change (if path_exists ∅ data_dir then ∅ else <[data_dir := Dir]> ∅)
      with ({[ data_dir := Dir ]} : gmap pystr node) in Hmain.
    rewrite Hwrite in Hmain.
    apply (f_equal (λ x, x.1.1)) in Hmain. exact (eq_sym Hmain). }
  destruct (X20_main_reports_its_file (H := ascii_default) _ _ _ _ _ _ _ _ _ _ _
              Hmain) as [_ Hsaved].
  destruct (Hsaved _ (py "data/leboncoin_bureaux_commerces_all_20250103_120000.csv")
              Hout) as (scraper & client_proxy & records & scraper' & Hinit
                        & Hrun & _ & _ & _ & _ & Hfile & _).
  { apply list_elem_of_here. }
  injection Hinit as <- <-.
  assert (records
          = [ _process_ad (H := ascii_default) noon private_listing;
              _process_ad (H := ascii_default) noon pro_listing;
              _process_ad (H := ascii_default) noon pro_listing;
              _process_ad (H := ascii_default) noon private_listing ]) as ->.
  { exact (f_equal (λ x : outcome * Scraper * list event,
                      match x.1.1 with Returned l => l | _ => [] end)
             (eq_trans (eq_sym Hrun) Hsearch)). }
  split; [exact Hout | exact Hfile].
Defined.

(** X21.  Where a caller's file name lands: a name starting with
    [data] is used as it is, even when it only shares these four
    letters (such as [database.csv], which is then written outside the
    data directory); an absolute name is used as it is; every other
    name is placed in the data directory. *)
Theorem X21_given_names (name : pystr) (city : option pystr) (timestamp : pystr) :
  name ≠ [] →
  (startswith data_dir name = true →
   target_path (Some name) city timestamp = name)
  ∧ (head name = Some slash →
     target_path (Some name) city timestamp = name)
  ∧ (startswith data_dir name = false → head name ≠ Some slash →
     target_path (Some name) city timestamp = data_dir ++ [slash] ++ name).
Proof.
  intros Hname. destruct name as [|ch name]; [done |].
  change (target_path (Some (ch :: name)) city timestamp)
    with (if startswith data_dir (ch :: name) then ch :: name
          else path_join data_dir (ch :: name)).
  split_and!.
  - by intros ->.
  - intros [= ->]. reflexivity.
  - intros -> Hhead. unfold path_join.
    destruct (N.eqb_spec ch slash) as [->|]; [by destruct Hhead | done].
Qed.

Lemma X21_given_names_witness :
  target_path (Some (py "database.csv")) None stamp = py "database.csv"
  ∧ target_path (Some (py "report.csv")) None stamp = py "data/report.csv".
Proof.
  split.
  - destruct (X21_given_names (py "database.csv") None stamp) as (Hdata & _);
      [discriminate |].
    apply Hdata. reflexivity.
  - destruct (X21_given_names (py "report.csv") None stamp) as (_ & _ & Hplain);
      [discriminate |].
    apply Hplain; [reflexivity | discriminate].
Defined.
